(** * Deferred draw-call batching and the software rasterizer fallback

    A shallow embedding of
      - [GPU/Software/Rasterizer.cpp]  (namespace [Rasterizer]) and
      - [GPU/Vulkan/DrawEngineVulkan.cpp] (class [DrawEngineVulkan]),
    followed by the properties of the design document that are settled on it.

    Conventions of the embedding.
      - A C++ integer of width w is a [Z]; every conversion to a narrower or
        unsigned type is written out ([u8], [u16], [u32], [s32]).
      - [float] is IEEE-754 binary32, evaluated operation by operation with
        round-to-nearest-even ([SpecFloat] at precision 24, emax 128).
      - Host memory is a byte-addressed total function; multi-byte accesses
        are little-endian.
      - Falling off the end of a value-returning function is the outcome
        [Undef]; a loop that exhausts its fuel is the outcome [Timeout]. *)

From stdpp Require Import base numbers list gmap.
From Stdlib Require Import ZArith Lia Bool List.
From Stdlib Require Import Floats.SpecFloat.
Import ListNotations.

Local Open Scope Z_scope.

(** ** Machine integers *)

Module MachInt.

Definition u8 (z : Z) : Z := z mod 2 ^ 8.
Definition u16 (z : Z) : Z := z mod 2 ^ 16.
Definition u32 (z : Z) : Z := z mod 2 ^ 32.

(** Two's-complement reading of the low 32 bits: the value a 32-bit [int]
    holds after an operation whose exact result is [z]. *)
Definition s32 (z : Z) : Z := (z + 2 ^ 31) mod 2 ^ 32 - 2 ^ 31.

Definition INT_MIN : Z := - 2 ^ 31.
Definition INT_MAX : Z := 2 ^ 31 - 1.

(** [__rotl(x, n)] on a 32-bit word. *)
Definition rotl32 (x n : Z) : Z :=
  u32 (Z.lor (Z.shiftl (u32 x) n) (Z.shiftr (u32 x) (32 - n))).

End MachInt.
Export MachInt.

(** ** Outcomes of a run *)

Inductive outcome (A : Type) : Type :=
| Done (a : A)
| Undef
| Timeout.
Arguments Done {A} a.
Arguments Undef {A}.
Arguments Timeout {A}.

Definition obind {A B} (o : outcome A) (k : A -> outcome B) : outcome B :=
  match o with
  | Done a => k a
  | Undef => Undef
  | Timeout => Timeout
  end.

Notation "'run' x := c 'in' k" := (obind c (fun x => k))
  (at level 10, x name, c at level 100, k at level 200).

(** [for (i = lo; i <= hi; ++i) body] where [i] is an unsigned 16-bit
    variable compared against the [int] bound [hi]: the increment wraps, so
    the loop needs fuel. *)
Fixpoint for_u16 {St : Type} (fuel : nat) (i hi : Z)
    (body : Z -> St -> outcome St) (s : St) : outcome St :=
  match fuel with
  | O => Timeout
  | S fuel' =>
      if i <=? hi
      then run s' := body i s in for_u16 fuel' (u16 (i + 1)) hi body s'
      else Done s
  end.

(** The same loop unrolled over a list of index values: what [for_u16]
    computes when its index does not wrap (lemma [for_u16_no_wrap]). *)
Fixpoint for_each {St : Type} (body : Z -> St -> outcome St) (l : list Z)
    (s : St) : outcome St :=
  match l with
  | [] => Done s
  | i :: rest => run s' := body i s in for_each body rest s'
  end.

(** ** binary32 arithmetic *)

Module F32.

Definition prec : Z := 24.
Definition emax : Z := 128.

Definition float : Type := spec_float.

Definition add : float -> float -> float := SFadd prec emax.
Definition mul : float -> float -> float := SFmul prec emax.
Definition div : float -> float -> float := SFdiv prec emax.

(** Conversion of an [int] to [float] (rounds when |z| >= 2^24). *)
Definition of_int (z : Z) : float := binary_normalize prec emax z 0 false.

Definition one : float := of_int 1.
Definition zero : float := S754_zero false.

(** Truncation towards zero, the value of [(int)x]. A NaN, an infinity or
    a value outside the range of [int] has no defined conversion in C++;
    the x86 conversion instruction yields [INT_MIN] there, which is what
    this model returns. *)
Definition to_int (x : float) : Z :=
  match x with
  | S754_zero _ => 0
  | S754_finite s m e =>
      let mag := if 0 <=? e
                 then Z.pos m * 2 ^ e
                 else Z.pos m / 2 ^ (- e) in
      let v := if s then - mag else mag in
      if (INT_MIN <=? v) && (v <=? INT_MAX) then v else INT_MIN
  | S754_infinity _ | S754_nan => INT_MIN
  end.

(** [(u16)x]: truncation to [int], then the low 16 bits. *)
Definition to_u16 (x : float) : Z := u16 (to_int x).

End F32.

(** ** GPU/Software/Rasterizer.cpp *)

Module Rasterizer.

(** The depth-compare functions ([GEComparison] of ge_constants.h, which
    the depth-function register can hold). *)
Inductive GEComparison : Type :=
| GE_COMP_NEVER | GE_COMP_ALWAYS | GE_COMP_EQUAL | GE_COMP_NOTEQUAL
| GE_COMP_LESS | GE_COMP_LEQUAL | GE_COMP_GREATER | GE_COMP_GEQUAL.

(** Enumerators of ge_constants.h used by the rasterizer. The header is
    not part of the sources at hand, so the values are parameters. *)
Record GEConstants : Type := {
  GE_TFMT_5650 : Z;
  GE_TFMT_5551 : Z;
  GE_TFMT_4444 : Z;
  GE_TFMT_8888 : Z;
  GE_SHADE_GOURAUD : Z
}.

(** Modelled from the spec: the draw-space position is integer screen
    coordinates and a fixed-point depth. The code casts [x] and [y] to
    [int] before subtracting them, uses them as 16-bit loop variables and
    stores the depth in the 16-bit depth buffer: the three members are
    unsigned 16-bit integers. *)
Record DrawingCoords : Type := {
  dc_x : Z;
  dc_y : Z;
  dc_z : Z
}.

(** Modelled from the spec: the members of [VertexData] that
    [DrawTriangle] reads, namely the draw-space position, the [w] of the
    clip-space position, the texture coordinates (floats) and the colour.
    The code shifts and ORs the four channels of [color0], so they are
    integers. *)
Record VertexData : Type := {
  drawpos : DrawingCoords;
  clippos_w : F32.float;
  texturecoords_s : F32.float;
  texturecoords_t : F32.float;
  color0_r : Z;
  color0_g : Z;
  color0_b : Z;
  color0_a : Z
}.

(** The part of the global [gstate] that the rasterizer reads: raw
    registers where the code reads the register, and the value of the
    accessor where the code calls an accessor of GPUState.h. *)
Record GPUgstate : Type := {
  texformat : Z;
  texaddr : Z -> Z;
  texbufwidth : Z -> Z;
  texsize : Z -> Z;
  clearmode : Z;
  shademodel : Z;
  FrameBufStride : Z;
  DepthBufStride : Z;
  isModeClear : bool;
  isModeThrough : bool;
  isDepthTestEnabled : bool;
  isDepthWriteEnabled : bool;
  isTextureMapEnabled : bool;
  getDepthTestFunc : GEComparison;
  getScissorX1 : Z;
  getScissorY1 : Z;
  getScissorX2 : Z;
  getScissorY2 : Z
}.

(** Host memory and the pointers into it: [extern u8* fb],
    [extern u8* depthbuf] and [Memory::GetPointer]. *)
Definition Memory : Type := Z -> Z.

Record Host : Type := {
  fb : Z;
  depthbuf : Z;
  GetPointer : Z -> Z
}.

Definition load8 (m : Memory) (a : Z) : Z := u8 (m a).
Definition load16 (m : Memory) (a : Z) : Z :=
  Z.lor (load8 m a) (Z.shiftl (load8 m (a + 1)) 8).
Definition load32 (m : Memory) (a : Z) : Z :=
  Z.lor (load16 m a) (Z.shiftl (load16 m (a + 2)) 16).

Definition store8 (m : Memory) (a v : Z) : Memory :=
  fun a' => if a' =? a then u8 v else m a'.
Definition store16 (m : Memory) (a v : Z) : Memory :=
  store8 (store8 m a v) (a + 1) (Z.shiftr v 8).
Definition store32 (m : Memory) (a v : Z) : Memory :=
  store16 (store16 m a v) (a + 2) (Z.shiftr v 16).

(** The stores of a run, in program order. The trace is instrumentation:
    it records each call of [SetPixelColor] and [SetPixelDepth]. *)
Inductive Event : Type :=
| WriteColor (x y value : Z)
| WriteDepth (x y value : Z).

Record RState : Type := {
  mem : Memory;
  trace : list Event
}.

Section WithPlatform.

Context (K : GEConstants) (H : Host).

Definition orient2d (v0 v1 v2 : DrawingCoords) : Z :=
  s32 (s32 (s32 (dc_x v1 - dc_x v0) * s32 (dc_y v2 - dc_y v0))
       - s32 (s32 (dc_y v1 - dc_y v0) * s32 (dc_x v2 - dc_x v0))).

(** [(r << 24) | (g << 16) | (b << 8) | a] returned as [u32]. *)
Definition pack_rgba (r g b a : Z) : Z :=
  u32 (Z.lor (Z.lor (Z.lor (Z.shiftl r 24) (Z.shiftl g 16))
                    (Z.shiftl b 8)) a).

Definition SampleNearest (gs : GPUgstate) (m : Memory)
    (level : Z) (s t : F32.float) : outcome Z :=
  let texfmt := Z.land (texformat gs) 15 in
  let texaddr_ :=
    u32 (Z.lor (Z.land (texaddr gs level) 16777200)
               (Z.land (u32 (Z.shiftl (texbufwidth gs level) 8)) 251658240)) in
  let srcptr := GetPointer H texaddr_ in
  let width := Z.shiftl 1 (Z.land (texsize gs level) 15) in
  let height := Z.shiftl 1 (Z.land (Z.shiftr (texsize gs level) 8) 15) in
  let u := F32.to_int (F32.mul s (F32.of_int width)) in
  let v := F32.to_int (F32.mul t (F32.of_int height)) in
  if texfmt =? GE_TFMT_4444 K then
    let srcptr := srcptr + s32 (s32 (s32 (2 * v) * width) + s32 (2 * u)) in
    let r := u8 (Z.shiftr (load8 m srcptr) 4) in
    let g := u8 (Z.land (load8 m srcptr) 15) in
    let b := u8 (Z.shiftr (load8 m (srcptr + 1)) 4) in
    let a := u8 (Z.land (load8 m (srcptr + 1)) 15) in
    let r := u8 (Z.lor (Z.shiftl r 4) r) in
    let g := u8 (Z.lor (Z.shiftl g 4) g) in
    let b := u8 (Z.lor (Z.shiftl b 4) b) in
    let a := u8 (Z.lor (Z.shiftl a 4) a) in
    Done (pack_rgba r g b a)
  else if texfmt =? GE_TFMT_5551 K then
    let srcptr := srcptr + s32 (s32 (s32 (2 * v) * width) + s32 (2 * u)) in
    let r := u8 (Z.land (load8 m srcptr) 31) in
    let g := u8 (Z.lor (Z.shiftr (Z.land (load8 m srcptr) 224) 5)
                       (Z.shiftl (Z.land (load8 m (srcptr + 1)) 3) 3)) in
    let b := u8 (Z.shiftr (Z.land (load8 m srcptr + 1) 124) 2) in
    let a := u8 (Z.shiftr (load8 m (srcptr + 1)) 7) in
    let r := u8 (Z.lor (Z.shiftl r 3) (Z.shiftr r 2)) in
    let g := u8 (Z.lor (Z.shiftl g 3) (Z.shiftr g 2)) in
    let b := u8 (Z.lor (Z.shiftl b 3) (Z.shiftr b 2)) in
    let a := if a =? 0 then 0 else 255 in
    Done (pack_rgba r g b a)
  else if texfmt =? GE_TFMT_5650 K then
    let srcptr := srcptr + s32 (s32 (s32 (2 * v) * width) + s32 (2 * u)) in
    let r := u8 (Z.land (load8 m srcptr) 31) in
    let g := u8 (Z.lor (Z.shiftr (Z.land (load8 m srcptr) 224) 5)
                       (Z.shiftl (Z.land (load8 m (srcptr + 1)) 7) 3)) in
    let b := u8 (Z.shiftr (Z.land (load8 m srcptr + 1) 248) 3) in
    let a := 255 in
    let r := u8 (Z.lor (Z.shiftl r 3) (Z.shiftr r 2)) in
    let g := u8 (Z.lor (Z.shiftl g 2) (Z.shiftr g 4)) in
    let b := u8 (Z.lor (Z.shiftl b 3) (Z.shiftr b 2)) in
    Done (pack_rgba r g b a)
  else if texfmt =? GE_TFMT_8888 K then
    let srcptr := srcptr + s32 (s32 (s32 (4 * v) * width) + s32 (4 * u)) in
    let r := load8 m srcptr in
    let g := load8 m (srcptr + 1) in
    let b := load8 m (srcptr + 2) in
    let a := load8 m (srcptr + 3) in
    Done (pack_rgba r g b a)
  else Undef.

(** The four pixel accessors. The offset [4*x + 4*y*stride] (or
    [2*x + 2*y*stride]) is an [int] expression in the code and is kept
    exact here: the two agree as long as the offset is an [int]. *)
Definition GetPixelColor (gs : GPUgstate) (st : RState) (x y : Z) : Z :=
  load32 (mem st) (fb H + (4 * x + 4 * y * FrameBufStride gs)).

Definition SetPixelColor (gs : GPUgstate) (x y value : Z)
    (st : RState) : RState :=
  {| mem := store32 (mem st)
              (fb H + (4 * x + 4 * y * FrameBufStride gs)) value;
     trace := trace st ++ [WriteColor x y value] |}.

Definition GetPixelDepth (gs : GPUgstate) (st : RState) (x y : Z) : Z :=
  load16 (mem st) (depthbuf H + (2 * x + 2 * y * DepthBufStride gs)).

Definition SetPixelDepth (gs : GPUgstate) (x y value : Z)
    (st : RState) : RState :=
  {| mem := store16 (mem st)
              (depthbuf H + (2 * x + 2 * y * DepthBufStride gs)) value;
     trace := trace st ++ [WriteDepth x y value] |}.

Definition DepthTestPassed (gs : GPUgstate) (st : RState)
    (x y z : Z) : bool :=
  let reference_z := GetPixelDepth gs st x y in
  if isModeClear gs then true
  else match getDepthTestFunc gs with
       | GE_COMP_NEVER => false
       | GE_COMP_ALWAYS => true
       | GE_COMP_EQUAL => z =? reference_z
       | GE_COMP_NOTEQUAL => negb (z =? reference_z)
       | GE_COMP_LESS => z <? reference_z
       | GE_COMP_LEQUAL => z <=? reference_z
       | GE_COMP_GREATER => reference_z <? z
       | GE_COMP_GEQUAL => reference_z <=? z
       end.

(** The expression
    [(a0 * w0 / cw0 + a1 * w1 / cw1 + a2 * w2 / cw2) / den]
    where each product [ai * wi] has already been formed (as an [int]
    product converted to [float], or as a [float] product). *)
Definition interpolate (p0 p1 p2 : F32.float) (vd0 vd1 vd2 : VertexData)
    (den : F32.float) : F32.float :=
  F32.div
    (F32.add (F32.add (F32.div p0 (clippos_w vd0))
                      (F32.div p1 (clippos_w vd1)))
             (F32.div p2 (clippos_w vd2)))
    den.

(** An [int] attribute: [a * w] is a 32-bit product. *)
Definition interpolate_int (a0 a1 a2 : Z) (vd0 vd1 vd2 : VertexData)
    (w0 w1 w2 : Z) (den : F32.float) : F32.float :=
  interpolate (F32.of_int (s32 (a0 * w0))) (F32.of_int (s32 (a1 * w1)))
              (F32.of_int (s32 (a2 * w2))) vd0 vd1 vd2 den.

(** A [float] attribute: [a * w] converts [w] and multiplies. *)
Definition interpolate_float (a0 a1 a2 : F32.float)
    (vd0 vd1 vd2 : VertexData) (w0 w1 w2 : Z) (den : F32.float)
    : F32.float :=
  interpolate (F32.mul a0 (F32.of_int w0)) (F32.mul a1 (F32.of_int w1))
              (F32.mul a2 (F32.of_int w2)) vd0 vd1 vd2 den.

Definition denominator (vd0 vd1 vd2 : VertexData) (w0 w1 w2 : Z)
    : F32.float :=
  F32.add
    (F32.add (F32.mul (F32.div F32.one (clippos_w vd0)) (F32.of_int w0))
             (F32.mul (F32.div F32.one (clippos_w vd1)) (F32.of_int w1)))
    (F32.mul (F32.div F32.one (clippos_w vd2)) (F32.of_int w2)).

(** Lines 186-193: the colour before texturing. *)
Definition base_color (gs : GPUgstate) (vd0 vd1 vd2 : VertexData)
    (w0 w1 w2 : Z) (den : F32.float) : Z :=
  if Z.land (shademodel gs) 1 =? GE_SHADE_GOURAUD K then
    let chan (f : VertexData -> Z) :=
      F32.to_int (interpolate_int (f vd0) (f vd1) (f vd2)
                                  vd0 vd1 vd2 w0 w1 w2 den) in
    u32 (chan color0_r + chan color0_g * 256
         + chan color0_b * 256 * 256
         + chan color0_a * 256 * 256 * 256)
  else
    u32 (Z.lor (Z.lor (Z.lor (color0_r vd2) (Z.shiftl (color0_g vd2) 8))
                      (Z.shiftl (color0_b vd2) 16))
               (Z.shiftl (color0_a vd2) 24)).

(** Lines 173-182. [None] is the [continue] of a failed depth test. *)
Definition depth_stage (gs : GPUgstate) (vd0 vd1 vd2 : VertexData)
    (x y w0 w1 w2 : Z) (den : F32.float) (st : RState)
    : option RState :=
  if (isDepthTestEnabled gs && negb (isModeThrough gs)) || isModeClear gs
  then
    let z := F32.to_u16
               (interpolate_int (dc_z (drawpos vd0)) (dc_z (drawpos vd1))
                  (dc_z (drawpos vd2)) vd0 vd1 vd2 w0 w1 w2 den) in
    if negb (DepthTestPassed gs st x y z) then None
    else if isDepthWriteEnabled gs
            || negb (Z.land (clearmode gs) 64 =? 0)
         then Some (SetPixelDepth gs x y z st)
         else Some st
  else Some st.

(** Lines 184-199. *)
Definition color_stage (gs : GPUgstate) (vd0 vd1 vd2 : VertexData)
    (x y w0 w1 w2 : Z) (den : F32.float) (st : RState)
    : outcome RState :=
  let s := interpolate_float (texturecoords_s vd0) (texturecoords_s vd1)
             (texturecoords_s vd2) vd0 vd1 vd2 w0 w1 w2 den in
  let t := interpolate_float (texturecoords_t vd0) (texturecoords_t vd1)
             (texturecoords_t vd2) vd0 vd1 vd2 w0 w1 w2 den in
  let color := base_color gs vd0 vd1 vd2 w0 w1 w2 den in
  run color := (if isTextureMapEnabled gs && negb (isModeClear gs)
                then run smp := SampleNearest gs (mem st) 0 s t in
                     Done (Z.lor color smp)
                else Done color) in
  Done (SetPixelColor gs x y color st).

(** The body of the two loops of [DrawTriangle] at [p = (x, y, 0)]. *)
Definition DrawPixel (gs : GPUgstate) (vd0 vd1 vd2 : VertexData)
    (x y : Z) (st : RState) : outcome RState :=
  let p := {| dc_x := x; dc_y := y; dc_z := 0 |} in
  let w0 := orient2d (drawpos vd1) (drawpos vd2) p in
  let w1 := orient2d (drawpos vd2) (drawpos vd0) p in
  let w2 := orient2d (drawpos vd0) (drawpos vd1) p in
  if (0 <=? w0) && (0 <=? w1) && (0 <=? w2) then
    let den := denominator vd0 vd1 vd2 w0 w1 w2 in
    match depth_stage gs vd0 vd1 vd2 x y w0 w1 w2 den st with
    | None => Done st
    | Some st1 => color_stage gs vd0 vd1 vd2 x y w0 w1 w2 den st1
    end
  else Done st.

Definition minX (gs : GPUgstate) (vd0 vd1 vd2 : VertexData) : Z :=
  Z.max (Z.min (Z.min (dc_x (drawpos vd0)) (dc_x (drawpos vd1)))
               (dc_x (drawpos vd2)))
        (getScissorX1 gs).
Definition minY (gs : GPUgstate) (vd0 vd1 vd2 : VertexData) : Z :=
  Z.max (Z.min (Z.min (dc_y (drawpos vd0)) (dc_y (drawpos vd1)))
               (dc_y (drawpos vd2)))
        (getScissorY1 gs).
Definition maxX (gs : GPUgstate) (vd0 vd1 vd2 : VertexData) : Z :=
  Z.min (Z.max (Z.max (dc_x (drawpos vd0)) (dc_x (drawpos vd1)))
               (dc_x (drawpos vd2)))
        (getScissorX2 gs).
Definition maxY (gs : GPUgstate) (vd0 vd1 vd2 : VertexData) : Z :=
  Z.min (Z.max (Z.max (dc_y (drawpos vd0)) (dc_y (drawpos vd1)))
               (dc_y (drawpos vd2)))
        (getScissorY2 gs).

Definition DrawTriangle (fuel : nat) (gs : GPUgstate)
    (vd0 vd1 vd2 : VertexData) (st : RState) : outcome RState :=
  for_u16 fuel (u16 (minY gs vd0 vd1 vd2)) (maxY gs vd0 vd1 vd2)
    (fun y st' =>
       for_u16 fuel (u16 (minX gs vd0 vd1 vd2)) (maxX gs vd0 vd1 vd2)
         (fun x st'' => DrawPixel gs vd0 vd1 vd2 x y st'')
         st')
    st.

End WithPlatform.

End Rasterizer.


(** ** GPU/Vulkan/DrawEngineVulkan.cpp *)

Module DrawEngineVulkan.

(** [GEPrimitiveType]. The table [prim[8]] at the head of the file lists the
    host topologies of the kinds 0 to 6 in this order; [KEEP_PREVIOUS] is
    the next code and [INVALID] is negative. *)
Inductive GEPrimitiveType : Type :=
| GE_PRIM_POINTS | GE_PRIM_LINES | GE_PRIM_LINE_STRIP | GE_PRIM_TRIANGLES
| GE_PRIM_TRIANGLE_STRIP | GE_PRIM_TRIANGLE_FAN | GE_PRIM_RECTANGLES
| GE_PRIM_KEEP_PREVIOUS | GE_PRIM_INVALID.

Definition prim_code (p : GEPrimitiveType) : Z :=
  match p with
  | GE_PRIM_POINTS => 0
  | GE_PRIM_LINES => 1
  | GE_PRIM_LINE_STRIP => 2
  | GE_PRIM_TRIANGLES => 3
  | GE_PRIM_TRIANGLE_STRIP => 4
  | GE_PRIM_TRIANGLE_FAN => 5
  | GE_PRIM_RECTANGLES => 6
  | GE_PRIM_KEEP_PREVIOUS => 7
  | GE_PRIM_INVALID => -1
  end.

Definition prim_eqb (p q : GEPrimitiveType) : bool :=
  prim_code p =? prim_code q.

(** Constants of headers that are not part of the sources at hand. *)
Record Constants : Type := {
  MAX_DEFERRED_DRAW_CALLS : Z;
  VERTEX_BUFFER_MAX : Z;
  GE_VTYPE_IDX_MASK : Z;
  GE_VTYPE_IDX_SHIFT : Z;
  GE_VTYPE_IDX_NONE : Z;
  GE_VTYPE_IDX_8BIT : Z;
  GE_VTYPE_IDX_16BIT : Z;
  GE_VTYPE_WEIGHT_MASK : Z;
  TEXCHANGE_PARAMSONLY : Z
}.

(** What the engine reads from its collaborators during a submission: the
    compatibility relation of the index generator, the byte size a vertex
    decoder reports for a vertex type id, three accessors of [gstate], two
    flags of [g_Config], the transform mode of the selected vertex shader
    and the host memory that index pointers point into. *)
Record Env : Type := {
  PrimCompatible : GEPrimitiveType -> GEPrimitiveType -> bool;
  VertexSizeOf : Z -> Z;
  getUVGenMode : Z;
  getTextureAddress0 : Z;
  getFrameBufAddress : Z;
  bSoftwareSkinning : bool;
  bDisableSlowFramebufEffects : bool;
  UseHWTransform : bool;
  hostmem : Z -> Z
}.

(** [struct DeferredDrawCall]: two pointers, the vertex type, an 8-bit index
    type, the primitive kind, the vertex count and the two 16-bit bounds. *)
Record DeferredDrawCall : Type := {
  verts : Z;
  inds : Z;
  vertType : Z;
  indexType : Z;
  prim : GEPrimitiveType;
  vertexCount : Z;
  indexLowerBound : Z;
  indexUpperBound : Z
}.

Definition zero_call : DeferredDrawCall :=
  {| verts := 0; inds := 0; vertType := 0; indexType := 0;
     prim := GE_PRIM_POINTS; vertexCount := 0;
     indexLowerBound := 0; indexUpperBound := 0 |}.

(** A [VertexDecoder] after [SetVertexType(vtype, ...)]. *)
Record VertexDecoder : Type := {
  dec_vtype : Z
}.

(** One call of [dec_->DecodeVerts(decoded + first * stride, src, lo, hi)];
    [dd_first] is the index of the first decoded vertex written and
    [dd_decoder] is [dec_] at the time of the call. An entry whose
    [dd_decoder] is [None] records a call made through a null [dec_]:
    the model goes on, the C++ program does not. *)
Record DecodeCall : Type := {
  dd_decoder : option VertexDecoder;
  dd_first : Z;
  dd_src : Z;
  dd_lower : Z;
  dd_upper : Z
}.

(** Modelled from the spec: the index/primitive accumulator
    ([IndexGenerator], whose source is not at hand). It keeps the base
    index given by [SetIndex], the translated indices appended so far, the
    primitives registered directly, and the primitive kind seen last
    ([GE_PRIM_INVALID], a negative code, when none was). *)
Record IndexGenerator : Type := {
  ig_index : Z;
  ig_inds : list Z;
  ig_prims : list (GEPrimitiveType * Z);
  ig_prim : GEPrimitiveType
}.

(** Modelled from the spec: [Reset], the empty accumulator of a new
    batch. *)
Definition ig_Reset : IndexGenerator :=
  {| ig_index := 0; ig_inds := []; ig_prims := [];
     ig_prim := GE_PRIM_INVALID |}.

(** Modelled from the spec: [SetIndex], the number of the next decoded
    vertex. *)
Definition ig_SetIndex (ig : IndexGenerator) (v : Z) : IndexGenerator :=
  {| ig_index := v; ig_inds := ig_inds ig; ig_prims := ig_prims ig;
     ig_prim := ig_prim ig |}.

(** Modelled from the spec: [Advance], past the vertices of a merged
    range. *)
Definition ig_Advance (ig : IndexGenerator) (n : Z) : IndexGenerator :=
  {| ig_index := ig_index ig + n; ig_inds := ig_inds ig;
     ig_prims := ig_prims ig; ig_prim := ig_prim ig |}.

(** Modelled from the spec: [AddPrim] registers a non-indexed primitive of
    [n] vertices with the accumulator directly. *)
Definition ig_AddPrim (ig : IndexGenerator) (p : GEPrimitiveType) (n : Z)
    : IndexGenerator :=
  {| ig_index := ig_index ig; ig_inds := ig_inds ig;
     ig_prims := ig_prims ig ++ [(p, n)]; ig_prim := p |}.

(** Modelled from the spec: the raw indices of a call, [numInds] values of
    [width] bytes each (1 or 2, little-endian) read at [ptr]. *)
Definition read_indices (m : Z -> Z) (width ptr numInds : Z) : list Z :=
  map (fun k => if width =? 1
                then u8 (m (ptr + k))
                else Z.lor (u8 (m (ptr + 2 * k)))
                           (Z.shiftl (u8 (m (ptr + 2 * k + 1))) 8))
      (seqZ 0 numInds).

(** Modelled from the spec: [TranslatePrim] translates the raw indices of a
    call into the shared decoded-vertex numbering, that is relative to the
    base index given by [SetIndex] and offset by [- indexOffset], and
    appends them to the accumulator. *)
Definition ig_TranslatePrim (ig : IndexGenerator) (m : Z -> Z)
    (p : GEPrimitiveType) (numInds width ptr indexOffset : Z)
    : IndexGenerator :=
  {| ig_index := ig_index ig;
     ig_inds := ig_inds ig
                ++ map (fun raw => ig_index ig + (raw - indexOffset))
                       (read_indices m width ptr numInds);
     ig_prims := ig_prims ig;
     ig_prim := p |}.

(** Modelled from the spec: the index width, in bytes, that a vertex type
    selects for the index buffer of an indexed call. *)
Definition index_width (C : Constants) (vertType : Z) : Z :=
  if Z.land vertType (GE_VTYPE_IDX_MASK C) =? GE_VTYPE_IDX_8BIT C
  then 1 else 2.

(** Modelled from the spec: [GetIndexBounds] scans the index buffer of an
    indexed call, at the index width of its vertex type, for the least and
    the greatest index. *)
Definition GetIndexBounds (C : Constants) (m : Z -> Z)
    (ptr count vertType : Z) : Z * Z :=
  let raw := read_indices m (index_width C vertType) ptr count in
  (fold_right Z.min 65535 raw, fold_right Z.max 0 raw).

(** The members of [DrawEngineVulkan] that make up the batch state,
    [gstate_c.textureChanged], and the log of decoder calls. Shader
    selection, the host draw commands and the statistics counters do not
    feed back into these and are left out. *)
Record DrawEngine : Type := {
  decodedVerts_ : Z;
  prevPrim_ : GEPrimitiveType;
  lastVType_ : Z;
  dec_ : option VertexDecoder;
  decoderMap_ : gmap Z VertexDecoder;
  numDrawCalls : Z;
  vertexCountInDrawCalls : Z;
  decodeCounter_ : Z;
  dcid_ : Z;
  drawCalls : list DeferredDrawCall;
  indexGen : IndexGenerator;
  textureChanged : Z;
  decodeLog : list DecodeCall
}.

Definition set_decoded (e : DrawEngine) (dv : Z) (ig : IndexGenerator)
    (log : list DecodeCall) (counter : Z) : DrawEngine :=
  {| decodedVerts_ := dv; prevPrim_ := prevPrim_ e;
     lastVType_ := lastVType_ e; dec_ := dec_ e;
     decoderMap_ := decoderMap_ e; numDrawCalls := numDrawCalls e;
     vertexCountInDrawCalls := vertexCountInDrawCalls e;
     decodeCounter_ := counter; dcid_ := dcid_ e;
     drawCalls := drawCalls e; indexGen := ig;
     textureChanged := textureChanged e; decodeLog := log |}.

Section WithConstants.

Context (C : Constants) (E : Env).

(** The constructor. *)
Definition initial : DrawEngine :=
  {| decodedVerts_ := 0; prevPrim_ := GE_PRIM_INVALID;
     lastVType_ := u32 (-1); dec_ := None; decoderMap_ := ∅;
     numDrawCalls := 0; vertexCountInDrawCalls := 0;
     decodeCounter_ := 0; dcid_ := 0;
     drawCalls := replicate (Z.to_nat (MAX_DEFERRED_DRAW_CALLS C)) zero_call;
     indexGen := ig_Reset; textureChanged := 0; decodeLog := [] |}.

(** [drawCalls[i]]. *)
Definition call_at (e : DrawEngine) (i : Z) : DeferredDrawCall :=
  default zero_call (drawCalls e !! Z.to_nat i).

Definition GetVertexDecoder (e : DrawEngine) (vtype : Z)
    : VertexDecoder * gmap Z VertexDecoder :=
  match decoderMap_ e !! vtype with
  | Some d => (d, decoderMap_ e)
  | None =>
      let d := {| dec_vtype := vtype |} in
      (d, <[vtype := d]> (decoderMap_ e))
  end.

Definition SetupVertexDecoderInternal (e : DrawEngine) (vertType : Z)
    : DrawEngine :=
  let vertTypeID :=
    u32 (Z.lor (Z.land vertType 16777215)
               (Z.shiftl (getUVGenMode E) 24)) in
  if negb (vertTypeID =? lastVType_ e) then
    let '(d, map') := GetVertexDecoder e vertTypeID in
    {| decodedVerts_ := decodedVerts_ e; prevPrim_ := prevPrim_ e;
       lastVType_ := vertTypeID; dec_ := Some d; decoderMap_ := map';
       numDrawCalls := numDrawCalls e;
       vertexCountInDrawCalls := vertexCountInDrawCalls e;
       decodeCounter_ := decodeCounter_ e; dcid_ := dcid_ e;
       drawCalls := drawCalls e; indexGen := indexGen e;
       textureChanged := textureChanged e; decodeLog := decodeLog e |}
  else e.

(** Step 1 of the indexed path: the look-ahead over the calls that follow,
    [calls] being [drawCalls[j..total-1]]. *)
Fixpoint merge_scan (v : Z) (calls : list DeferredDrawCall)
    (lower upper lastMatch j : Z) : Z * Z * Z :=
  match calls with
  | [] => (lower, upper, lastMatch)
  | c :: rest =>
      if negb (verts c =? v) then (lower, upper, lastMatch)
      else merge_scan v rest (Z.min lower (indexLowerBound c))
             (Z.max upper (indexUpperBound c)) j (j + 1)
  end.

(** [drawCalls[from..to_]], both ends included. *)
Definition calls_between (e : DrawEngine) (from to_ : Z)
    : list DeferredDrawCall :=
  map (call_at e) (seqZ from (to_ - from + 1)).

(** Step 2 of the indexed path at index width [width]. *)
Definition translate_run (ig : IndexGenerator) (width : Z)
    (calls : list DeferredDrawCall) (indexLowerBound : Z) : IndexGenerator :=
  fold_left
    (fun ig c => ig_TranslatePrim ig (hostmem E) (prim c) (vertexCount c)
                   width (inds c) indexLowerBound)
    calls ig.

Definition DecodeVertsStep (e : DrawEngine) : DrawEngine :=
  let i := decodeCounter_ e in
  let dc := call_at e i in
  let ig := ig_SetIndex (indexGen e) (decodedVerts_ e) in
  let indexLowerBound := indexLowerBound dc in
  let indexUpperBound := indexUpperBound dc in
  let indexType := indexType dc in
  if indexType =? Z.shiftr (GE_VTYPE_IDX_NONE C) (GE_VTYPE_IDX_SHIFT C) then
    let log := decodeLog e
               ++ [{| dd_decoder := dec_ e; dd_first := decodedVerts_ e;
                      dd_src := verts dc; dd_lower := indexLowerBound;
                      dd_upper := indexUpperBound |}] in
    set_decoded e
      (s32 (decodedVerts_ e + (indexUpperBound - indexLowerBound + 1)))
      (ig_AddPrim ig (prim dc) (vertexCount dc)) log i
  else
    let total := numDrawCalls e in
    let '(indexLowerBound, indexUpperBound, lastMatch) :=
      merge_scan (verts dc) (calls_between e (i + 1) (total - 1))
        indexLowerBound indexUpperBound i (i + 1) in
    let ig :=
      if indexType
         =? Z.shiftr (GE_VTYPE_IDX_8BIT C) (GE_VTYPE_IDX_SHIFT C)
      then translate_run ig 1 (calls_between e i lastMatch) indexLowerBound
      else if indexType
              =? Z.shiftr (GE_VTYPE_IDX_16BIT C) (GE_VTYPE_IDX_SHIFT C)
      then translate_run ig 2 (calls_between e i lastMatch) indexLowerBound
      else ig in
    let vertexCount := indexUpperBound - indexLowerBound + 1 in
    if VERTEX_BUFFER_MAX C <? s32 (decodedVerts_ e + vertexCount) then
      set_decoded e (decodedVerts_ e) ig (decodeLog e) i
    else
      let log := decodeLog e
                 ++ [{| dd_decoder := dec_ e; dd_first := decodedVerts_ e;
                        dd_src := verts dc; dd_lower := indexLowerBound;
                        dd_upper := indexUpperBound |}] in
      set_decoded e (s32 (decodedVerts_ e + vertexCount))
        (ig_Advance ig vertexCount) log lastMatch.

Definition bump_counter (e : DrawEngine) : DrawEngine :=
  set_decoded e (decodedVerts_ e) (indexGen e) (decodeLog e)
    (s32 (decodeCounter_ e + 1)).

(** The loop of [DecodeVerts]: every iteration moves the cursor forward, so
    [numDrawCalls - decodeCounter_] iterations are enough. *)
Fixpoint DecodeVerts_loop (n : nat) (e : DrawEngine) : DrawEngine :=
  match n with
  | O => e
  | S n' =>
      if decodeCounter_ e <? numDrawCalls e
      then DecodeVerts_loop n' (bump_counter (DecodeVertsStep e))
      else e
  end.

Definition DecodeVerts (e : DrawEngine) : DrawEngine :=
  let e := DecodeVerts_loop
             (Z.to_nat (numDrawCalls e - decodeCounter_ e)) e in
  if prim_code (ig_prim (indexGen e)) <? 0
  then set_decoded e (decodedVerts_ e)
         (ig_AddPrim (indexGen e) GE_PRIM_POINTS 0) (decodeLog e)
         (decodeCounter_ e)
  else e.

(** [DoFlush]: both branches on [UseHWTransform] decode the pending calls;
    what they hand to the host is outside the batch state. Then the batch
    state is reset. *)
Definition DoFlush (e : DrawEngine) : DrawEngine :=
  let e := if UseHWTransform E then DecodeVerts e else DecodeVerts e in
  {| decodedVerts_ := 0; prevPrim_ := GE_PRIM_INVALID;
     lastVType_ := lastVType_ e; dec_ := dec_ e;
     decoderMap_ := decoderMap_ e; numDrawCalls := 0;
     vertexCountInDrawCalls := 0; decodeCounter_ := 0; dcid_ := 0;
     drawCalls := drawCalls e; indexGen := ig_Reset;
     textureChanged := textureChanged e; decodeLog := decodeLog e |}.

(** The inline wrapper of the header, which "checks for numDrawCalls == 0"
    before calling [DoFlush]. *)
Definition Flush (e : DrawEngine) : DrawEngine :=
  if numDrawCalls e =? 0 then e else DoFlush e.

(** The condition of line 128. *)
Definition must_flush (e : DrawEngine) (p : GEPrimitiveType)
    (vertexCount : Z) : bool :=
  negb (PrimCompatible E (prevPrim_ e) p)
  || (MAX_DEFERRED_DRAW_CALLS C <=? numDrawCalls e)
  || (VERTEX_BUFFER_MAX C <? s32 (vertexCountInDrawCalls e + vertexCount)).

(** Lines 132-136: the primitive kind in effect and the new [prevPrim_]. *)
Definition resolve_prim (e : DrawEngine) (p : GEPrimitiveType)
    : GEPrimitiveType * GEPrimitiveType :=
  if prim_eqb p GE_PRIM_KEEP_PREVIOUS
  then (if negb (prim_eqb (prevPrim_ e) GE_PRIM_INVALID)
        then prevPrim_ e else GE_PRIM_POINTS,
        prevPrim_ e)
  else (p, p).

(** The test of line 142. *)
Definition below_minimum (p : GEPrimitiveType) (vertexCount : Z) : bool :=
  ((vertexCount <? 2) && (0 <? prim_code p))
  || ((vertexCount <? 3) && (2 <? prim_code p)
      && negb (prim_eqb p GE_PRIM_RECTANGLES)).

(** Lines 153-163. *)
Definition mix_dcid (dcid verts_ inds_ vertType_ vertexCount_ : Z)
    (p : GEPrimitiveType) : Z :=
  let dhash := dcid in
  let dhash := Z.lxor dhash (u32 verts_) in
  let dhash := rotl32 dhash 13 in
  let dhash := Z.lxor dhash (u32 inds_) in
  let dhash := rotl32 dhash 13 in
  let dhash := Z.lxor dhash (u32 vertType_) in
  let dhash := rotl32 dhash 13 in
  let dhash := Z.lxor dhash (u32 vertexCount_) in
  let dhash := rotl32 dhash 13 in
  Z.lxor dhash (u32 (prim_code p)).

Definition with_prevPrim (e : DrawEngine) (prev : GEPrimitiveType)
    : DrawEngine :=
  {| decodedVerts_ := decodedVerts_ e; prevPrim_ := prev;
     lastVType_ := lastVType_ e; dec_ := dec_ e;
     decoderMap_ := decoderMap_ e; numDrawCalls := numDrawCalls e;
     vertexCountInDrawCalls := vertexCountInDrawCalls e;
     decodeCounter_ := decodeCounter_ e; dcid_ := dcid_ e;
     drawCalls := drawCalls e; indexGen := indexGen e;
     textureChanged := textureChanged e; decodeLog := decodeLog e |}.

Definition with_textureChanged (e : DrawEngine) (v : Z) : DrawEngine :=
  {| decodedVerts_ := decodedVerts_ e; prevPrim_ := prevPrim_ e;
     lastVType_ := lastVType_ e; dec_ := dec_ e;
     decoderMap_ := decoderMap_ e; numDrawCalls := numDrawCalls e;
     vertexCountInDrawCalls := vertexCountInDrawCalls e;
     decodeCounter_ := decodeCounter_ e; dcid_ := dcid_ e;
     drawCalls := drawCalls e; indexGen := indexGen e;
     textureChanged := v; decodeLog := decodeLog e |}.

(** Lines 128-138: the flush check, the primitive kind in effect and the
    vertex decoder. *)
Definition submit_prologue (e : DrawEngine) (p : GEPrimitiveType)
    (vertexCount_ vertType_ : Z) : DrawEngine * GEPrimitiveType :=
  let e := if must_flush e p vertexCount_ then Flush e else e in
  let '(p, prev) := resolve_prim e p in
  (SetupVertexDecoderInternal (with_prevPrim e prev) vertType_, p).

(** Lines 145-173: the new deferred call and the counters. *)
Definition append_call (e : DrawEngine) (verts_ inds_ : Z)
    (p : GEPrimitiveType) (vertexCount_ vertType_ : Z) : DrawEngine :=
  let '(lo, hi) :=
    if negb (inds_ =? 0)
    then let '(lo, hi) :=
           GetIndexBounds C (hostmem E) inds_ vertexCount_ vertType_ in
         (u16 lo, u16 hi)
    else (0, u16 (vertexCount_ - 1)) in
  let dc :=
    {| verts := verts_; inds := inds_; vertType := vertType_;
       indexType :=
         u8 (Z.shiftr (Z.land vertType_ (GE_VTYPE_IDX_MASK C))
                      (GE_VTYPE_IDX_SHIFT C));
       prim := p; vertexCount := vertexCount_;
       indexLowerBound := lo; indexUpperBound := hi |} in
  {| decodedVerts_ := decodedVerts_ e; prevPrim_ := prevPrim_ e;
     lastVType_ := lastVType_ e; dec_ := dec_ e;
     decoderMap_ := decoderMap_ e;
     numDrawCalls := s32 (numDrawCalls e + 1);
     vertexCountInDrawCalls :=
       s32 (vertexCountInDrawCalls e + vertexCount_);
     decodeCounter_ := decodeCounter_ e;
     dcid_ := mix_dcid (dcid_ e) verts_ inds_ vertType_ vertexCount_ p;
     drawCalls := <[Z.to_nat (numDrawCalls e) := dc]> (drawCalls e);
     indexGen := indexGen e; textureChanged := textureChanged e;
     decodeLog := decodeLog e |}.

(** Lines 175-186: eager decoding for software skinning, and the flush of
    a rectangle that samples the render target. *)
Definition submit_epilogue (e : DrawEngine) (p : GEPrimitiveType)
    (vertType_ : Z) : DrawEngine :=
  let e :=
    if bSoftwareSkinning E
       && negb (Z.land vertType_ (GE_VTYPE_WEIGHT_MASK C) =? 0)
    then bump_counter (DecodeVertsStep e)
    else e in
  if prim_eqb p GE_PRIM_RECTANGLES
     && (Z.land (getTextureAddress0 E) 1073741823
         =? Z.land (getFrameBufAddress E) 1073741823)
  then
    if negb (bDisableSlowFramebufEffects E)
    then Flush (with_textureChanged e
                  (Z.lor (textureChanged e) (TEXCHANGE_PARAMSONLY C)))
    else e
  else e.

(** [SubmitPrim]; the second component of the result is [*bytesRead].
    Calling [VertexSize] through a null [dec_] is [Undef]. *)
Definition SubmitPrim (e : DrawEngine) (verts_ inds_ : Z)
    (p : GEPrimitiveType) (vertexCount_ vertType_ : Z)
    : outcome (DrawEngine * Z) :=
  let '(e, p) := submit_prologue e p vertexCount_ vertType_ in
  match dec_ e with
  | None => Undef
  | Some d =>
      let bytesRead := s32 (vertexCount_ * VertexSizeOf E (dec_vtype d)) in
      if below_minimum p vertexCount_ then Done (e, bytesRead)
      else Done (submit_epilogue
                   (append_call e verts_ inds_ p vertexCount_ vertType_)
                   p vertType_,
                 bytesRead)
  end.

(** One submission as the command interpreter issues it. *)
Record Submission : Type := {
  sub_verts : Z;
  sub_inds : Z;
  sub_prim : GEPrimitiveType;
  sub_vertexCount : Z;
  sub_vertType : Z
}.

Definition Submit (e : DrawEngine) (s : Submission)
    : outcome (DrawEngine * Z) :=
  SubmitPrim e (sub_verts s) (sub_inds s) (sub_prim s) (sub_vertexCount s)
    (sub_vertType s).

(** A sequence of submissions, one after the other. *)
Fixpoint SubmitAll (e : DrawEngine) (l : list Submission)
    : outcome DrawEngine :=
  match l with
  | [] => Done e
  | s :: rest => run r := Submit e s in SubmitAll (fst r) rest
  end.

End WithConstants.

End DrawEngineVulkan.


(** ** The properties of the design document, in its own words *)

Module Design.

Import Rasterizer.

(** The edge function of the design document, on exact integers:
    [edge(a,b,c) = (b.x-a.x)(c.y-a.y) - (b.y-a.y)(c.x-a.x)]. *)
Definition edge (a b : DrawingCoords) (x y : Z) : Z :=
  (dc_x b - dc_x a) * (y - dc_y a) - (dc_y b - dc_y a) * (x - dc_x a).

(** A pixel is inside or on the boundary of the triangle. *)
Definition covered (v0 v1 v2 : DrawingCoords) (x y : Z) : Prop :=
  0 <= edge v1 v2 x y /\ 0 <= edge v2 v0 x y /\ 0 <= edge v0 v1 x y.

(** The screen-space bounding box of the triangle. *)
Definition in_bounding_box (v0 v1 v2 : DrawingCoords) (x y : Z) : Prop :=
  Z.min (Z.min (dc_x v0) (dc_x v1)) (dc_x v2) <= x
    <= Z.max (Z.max (dc_x v0) (dc_x v1)) (dc_x v2)
  /\ Z.min (Z.min (dc_y v0) (dc_y v1)) (dc_y v2) <= y
    <= Z.max (Z.max (dc_y v0) (dc_y v1)) (dc_y v2).

(** The scissor rectangle, both corners included. *)
Definition in_scissor (gs : GPUgstate) (x y : Z) : Prop :=
  getScissorX1 gs <= x <= getScissorX2 gs
  /\ getScissorY1 gs <= y <= getScissorY2 gs.

(** Drawing coordinates for which the 32-bit edge function cannot
    overflow. *)
Definition coords_in_range (v : DrawingCoords) : Prop :=
  0 <= dc_x v < 32768 /\ 0 <= dc_y v < 32768.

(** Some colour is written at [(x, y)] by the stores [evs]. *)
Definition color_written (evs : list Event) (x y : Z) : Prop :=
  exists c, In (WriteColor x y c) evs.

(** Depth testing applies: enabled and not in through mode, or in clear
    mode. *)
Definition depth_test_applies (gs : GPUgstate) : bool :=
  (isDepthTestEnabled gs && negb (isModeThrough gs)) || isModeClear gs.

(** The table of the eight compare functions: incoming depth [z] against
    the buffer's value [ref]. *)
Definition depth_table (f : GEComparison) (z ref : Z) : Prop :=
  match f with
  | GE_COMP_NEVER => False
  | GE_COMP_ALWAYS => True
  | GE_COMP_EQUAL => z = ref
  | GE_COMP_NOTEQUAL => z <> ref
  | GE_COMP_LESS => z < ref
  | GE_COMP_LEQUAL => z <= ref
  | GE_COMP_GREATER => z > ref
  | GE_COMP_GEQUAL => z >= ref
  end.

(** The 5-5-5-1 unpack rule of the design document for the 16-bit texel
    [texel]: each 5-bit field [x] becomes [(x << 3) | (x >> 2)], the alpha
    bit becomes 0x00 or 0xFF. *)
Definition replicate5 (x : Z) : Z := Z.lor (Z.shiftl x 3) (Z.shiftr x 2).

Definition unpack_5551 (texel : Z) : Z :=
  pack_rgba (replicate5 (Z.land texel 31))
            (replicate5 (Z.land (Z.shiftr texel 5) 31))
            (replicate5 (Z.land (Z.shiftr texel 10) 31))
            (if Z.testbit texel 15 then 255 else 0).

(** The four raw texture formats that [SampleNearest] unpacks. *)
Definition format_supported (K : GEConstants) (gs : GPUgstate) : Prop :=
  let f := Z.land (texformat gs) 15 in
  f = GE_TFMT_4444 K \/ f = GE_TFMT_5551 K
  \/ f = GE_TFMT_5650 K \/ f = GE_TFMT_8888 K.

(** The quantities of one pixel, as [DrawTriangle] computes them. *)
Definition pixel (x y : Z) : DrawingCoords :=
  {| dc_x := x; dc_y := y; dc_z := 0 |}.
Definition w0 (vd0 vd1 vd2 : VertexData) (x y : Z) : Z :=
  orient2d (drawpos vd1) (drawpos vd2) (pixel x y).
Definition w1 (vd0 vd1 vd2 : VertexData) (x y : Z) : Z :=
  orient2d (drawpos vd2) (drawpos vd0) (pixel x y).
Definition w2 (vd0 vd1 vd2 : VertexData) (x y : Z) : Z :=
  orient2d (drawpos vd0) (drawpos vd1) (pixel x y).
Definition den (vd0 vd1 vd2 : VertexData) (x y : Z) : F32.float :=
  denominator vd0 vd1 vd2 (w0 vd0 vd1 vd2 x y) (w1 vd0 vd1 vd2 x y)
    (w2 vd0 vd1 vd2 x y).
Definition pixel_covered (vd0 vd1 vd2 : VertexData) (x y : Z) : bool :=
  (0 <=? w0 vd0 vd1 vd2 x y) && (0 <=? w1 vd0 vd1 vd2 x y)
  && (0 <=? w2 vd0 vd1 vd2 x y).
Definition pixel_z (vd0 vd1 vd2 : VertexData) (x y : Z) : Z :=
  F32.to_u16
    (interpolate_int (dc_z (drawpos vd0)) (dc_z (drawpos vd1))
       (dc_z (drawpos vd2)) vd0 vd1 vd2 (w0 vd0 vd1 vd2 x y)
       (w1 vd0 vd1 vd2 x y) (w2 vd0 vd1 vd2 x y) (den vd0 vd1 vd2 x y)).
Definition pixel_s (vd0 vd1 vd2 : VertexData) (x y : Z) : F32.float :=
  interpolate_float (texturecoords_s vd0) (texturecoords_s vd1)
    (texturecoords_s vd2) vd0 vd1 vd2 (w0 vd0 vd1 vd2 x y)
    (w1 vd0 vd1 vd2 x y) (w2 vd0 vd1 vd2 x y) (den vd0 vd1 vd2 x y).
Definition pixel_t (vd0 vd1 vd2 : VertexData) (x y : Z) : F32.float :=
  interpolate_float (texturecoords_t vd0) (texturecoords_t vd1)
    (texturecoords_t vd2) vd0 vd1 vd2 (w0 vd0 vd1 vd2 x y)
    (w1 vd0 vd1 vd2 x y) (w2 vd0 vd1 vd2 x y) (den vd0 vd1 vd2 x y).
Definition pixel_base_color (K : GEConstants) (gs : GPUgstate)
    (vd0 vd1 vd2 : VertexData) (x y : Z) : Z :=
  base_color K gs vd0 vd1 vd2 (w0 vd0 vd1 vd2 x y) (w1 vd0 vd1 vd2 x y)
    (w2 vd0 vd1 vd2 x y) (den vd0 vd1 vd2 x y).

(** The state a pixel is shaded in: [None] when the pixel is not covered
    or is skipped by the depth test. *)
Definition pixel_after_depth (H : Host) (gs : GPUgstate)
    (vd0 vd1 vd2 : VertexData) (x y : Z) (st : RState) : option RState :=
  if pixel_covered vd0 vd1 vd2 x y
  then depth_stage H gs vd0 vd1 vd2 x y (w0 vd0 vd1 vd2 x y)
         (w1 vd0 vd1 vd2 x y) (w2 vd0 vd1 vd2 x y) (den vd0 vd1 vd2 x y) st
  else None.

(** The plain barycentric average of three integer attribute values with
    the weights [w0], [w1], [w2]. *)
Definition barycentric_average (a0 a1 a2 w0 w1 w2 : Z) : Z :=
  (a0 * w0 + a1 * w1 + a2 * w2) / (w0 + w1 + w2).

(** The stores of a finished run. *)
Definition outcome_trace (o : outcome RState) : option (list Event) :=
  match o with
  | Done s => Some (trace s)
  | _ => None
  end.

(** A colour store whose value is the base colour of its pixel OR-ed with
    a texture sample taken at the pixel's texture coordinates. *)
Definition ored_color_event (K : GEConstants) (H : Host) (gs : GPUgstate)
    (vd0 vd1 vd2 : VertexData) (ev : Event) : Prop :=
  match ev with
  | WriteColor x y c =>
      exists m smp,
        SampleNearest K H gs m 0 (pixel_s vd0 vd1 vd2 x y)
          (pixel_t vd0 vd1 vd2 x y) = Done smp
        /\ c = Z.lor (pixel_base_color K gs vd0 vd1 vd2 x y) smp
  | WriteDepth _ _ _ => True
  end.

(** The texture sample replaces the base colour (the combination policy as
    the design document words it). *)
Definition texture_replaces_base (K : GEConstants) (H : Host) : Prop :=
  forall gs vd0 vd1 vd2 x y st st1 smp,
    isTextureMapEnabled gs = true ->
    isModeClear gs = false ->
    pixel_after_depth H gs vd0 vd1 vd2 x y st = Some st1 ->
    SampleNearest K H gs (mem st1) 0 (pixel_s vd0 vd1 vd2 x y)
      (pixel_t vd0 vd1 vd2 x y) = Done smp ->
    DrawPixel K H gs vd0 vd1 vd2 x y st
      = Done (SetPixelColor H gs x y smp st1).

End Design.

(** ** Concrete inputs *)

Module Examples.

Import Rasterizer.

(** One choice of the enumerators. *)
Definition ge_constants : GEConstants :=
  {| GE_TFMT_5650 := 0; GE_TFMT_5551 := 1; GE_TFMT_4444 := 2;
     GE_TFMT_8888 := 3; GE_SHADE_GOURAUD := 1 |}.

(** Frame buffer at 4096, depth buffer at 8192 * 1024, textures addressed
    directly. *)
Definition host : Host :=
  {| fb := 4096; depthbuf := 8388608; GetPointer := fun a => a |}.

Definition gstate_with (fmt : Z) (tex clear depth dwrite : bool)
    (f : GEComparison) : GPUgstate :=
  {| texformat := fmt; texaddr := fun _ => 0; texbufwidth := fun _ => 0;
     texsize := fun _ => 0; clearmode := 0; shademodel := 0;
     FrameBufStride := 512; DepthBufStride := 512;
     isModeClear := clear; isModeThrough := false;
     isDepthTestEnabled := depth; isDepthWriteEnabled := dwrite;
     isTextureMapEnabled := tex; getDepthTestFunc := f;
     getScissorX1 := 0; getScissorY1 := 0;
     getScissorX2 := 20; getScissorY2 := 20 |}.

(** A vertex at [(x, y)] with depth [z], clip-space w = 1, texture
    coordinates (0, 0) and colour channels [r], 0, 0, 0. *)
Definition vertex (x y z r : Z) : VertexData :=
  {| drawpos := {| dc_x := x; dc_y := y; dc_z := z |};
     clippos_w := F32.one;
     texturecoords_s := F32.zero; texturecoords_t := F32.zero;
     color0_r := r; color0_g := 0; color0_b := 0; color0_a := 0 |}.

(** Memory holding the bytes [b0], [b1] at addresses 0 and 1, zero
    elsewhere. *)
Definition memory_with (b0 b1 : Z) : Memory :=
  fun a => if a =? 0 then b0 else if a =? 1 then b1 else 0.

Definition state_with (b0 b1 : Z) : RState :=
  {| mem := memory_with b0 b1; trace := [] |}.

End Examples.


(** ** The batching properties of the design document *)

Module BatchDesign.

Import DrawEngineVulkan.

(** What the proofs need of the absent constants: the deferred-call list
    holds at least one call, its capacity is an [int], and twice the vertex
    capacity is an [int]. *)
Definition constants_ok (C : Constants) : Prop :=
  1 <= MAX_DEFERRED_DRAW_CALLS C < 2 ^ 31
  /\ 0 <= VERTEX_BUFFER_MAX C < 2 ^ 30.

(** The UV-generation mode is mashed "into the top of the verttype where
    there are unused bits"; all ones there would collide with the initial
    [lastVType_ = -1]. *)
Definition env_ok (E : Env) : Prop := 0 <= getUVGenMode E < 255.

(** The capacity invariant. *)
Definition capacity_invariant (C : Constants) (e : DrawEngine) : Prop :=
  numDrawCalls e <= MAX_DEFERRED_DRAW_CALLS C
  /\ vertexCountInDrawCalls e <= VERTEX_BUFFER_MAX C.

(** The capacity invariant as the design document states it: for every
    sequence of submissions with non-negative vertex counts. *)
Definition capacity_claim (C : Constants) (E : Env) : Prop :=
  forall (subs : list Submission) (e' : DrawEngine),
    Forall (fun s => 0 <= sub_vertexCount s) subs ->
    SubmitAll C E (initial C) subs = Done e' ->
    capacity_invariant C e'.

(** The vertex type id the decoder in use is set up for: the effective
    vertex format. *)
Definition vertTypeID (E : Env) (vertType_ : Z) : Z :=
  u32 (Z.lor (Z.land vertType_ 16777215) (Z.shiftl (getUVGenMode E) 24)).

(** The decoder cache is consistent: a cached decoder was set up for its
    key, and [dec_] is the decoder of [lastVType_]. *)
Definition decoder_wf (e : DrawEngine) : Prop :=
  (forall k d, decoderMap_ e !! k = Some d -> dec_vtype d = k)
  /\ match dec_ e with
     | Some d => dec_vtype d = lastVType_ e
     | None => lastVType_ e = u32 (-1)
     end.

(** The batch state between two submissions. *)
Definition batch_wf (C : Constants) (e : DrawEngine) : Prop :=
  0 <= numDrawCalls e <= MAX_DEFERRED_DRAW_CALLS C
  /\ 0 <= vertexCountInDrawCalls e <= VERTEX_BUFFER_MAX C
  /\ (numDrawCalls e = 0 -> vertexCountInDrawCalls e = 0)
  /\ decoder_wf e.

(** The minimum vertex counts of the design document: a submission of the
    kind [p] with [n] vertices is below its minimum. *)
Definition below_design_minimum (p : GEPrimitiveType) (n : Z) : Prop :=
  match p with
  | GE_PRIM_POINTS => False
  | GE_PRIM_LINES | GE_PRIM_LINE_STRIP => n < 2
  | GE_PRIM_TRIANGLES | GE_PRIM_TRIANGLE_STRIP | GE_PRIM_TRIANGLE_FAN => n < 3
  | GE_PRIM_RECTANGLES => n < 2
  | GE_PRIM_KEEP_PREVIOUS | GE_PRIM_INVALID => False
  end.

(** The state the flush check of line 128 leaves. *)
Definition after_flush_check (C : Constants) (E : Env) (e : DrawEngine)
    (s : Submission) : DrawEngine :=
  if must_flush C E e (sub_prim s) (sub_vertexCount s)
  then Flush C E e else e.

(** The primitive kind in effect for a submission. *)
Definition effective_prim (C : Constants) (E : Env) (e : DrawEngine)
    (s : Submission) : GEPrimitiveType :=
  fst (resolve_prim (after_flush_check C E e s) (sub_prim s)).

(** Rejection as the design document states it: nothing is appended and
    both counters are as before the submission. *)
Definition rejection_claim (C : Constants) (E : Env) : Prop :=
  forall (e : DrawEngine) (s : Submission) (e' : DrawEngine) (bytes : Z),
    batch_wf C e ->
    below_design_minimum (effective_prim C E e s) (sub_vertexCount s) ->
    Submit C E e s = Done (e', bytes) ->
    numDrawCalls e' = numDrawCalls e
    /\ vertexCountInDrawCalls e' = vertexCountInDrawCalls e.

(** The index-type codes a deferred call can carry. *)
Definition idx_none (C : Constants) : Z :=
  Z.shiftr (GE_VTYPE_IDX_NONE C) (GE_VTYPE_IDX_SHIFT C).
Definition idx_8bit (C : Constants) : Z :=
  Z.shiftr (GE_VTYPE_IDX_8BIT C) (GE_VTYPE_IDX_SHIFT C).
Definition idx_16bit (C : Constants) : Z :=
  Z.shiftr (GE_VTYPE_IDX_16BIT C) (GE_VTYPE_IDX_SHIFT C).

(** The call under the decode cursor is indexed, with indices of [width]
    bytes. *)
Definition indexed_with_width (C : Constants) (e : DrawEngine) (width : Z)
    : Prop :=
  let t := indexType (call_at e (decodeCounter_ e)) in
  t <> idx_none C
  /\ ((width = 1 /\ t = idx_8bit C)
      \/ (width = 2 /\ t = idx_16bit C /\ t <> idx_8bit C)).

(** [drawCalls[i..last]] is a maximal run of calls that share the
    vertex-data reference of [drawCalls[i]], [i] being the decode cursor. *)
Definition maximal_run (e : DrawEngine) (last : Z) : Prop :=
  let i := decodeCounter_ e in
  0 <= i <= last /\ last < numDrawCalls e
  /\ Forall (fun c => verts c = verts (call_at e i))
            (calls_between e (i + 1) last)
  /\ (last + 1 = numDrawCalls e
      \/ verts (call_at e (last + 1)) <> verts (call_at e i)).



(** The bounds of a call enclose the indices it refers to. *)
Definition bounds_enclose (E : Env) (width : Z) (c : DeferredDrawCall)
    : Prop :=
  Forall (fun r => indexLowerBound c <= r <= indexUpperBound c)
         (read_indices (hostmem E) width (inds c) (vertexCount c)).




(** The closing clause of the overflow guard as the design document states
    it: whatever is submitted, decoding never takes the decoded vertex count
    past [VERTEX_BUFFER_MAX]. *)
Definition decoded_count_claim (C : Constants) (E : Env) : Prop :=
  forall (subs : list Submission) (e' : DrawEngine),
    Forall (fun s => 0 <= sub_vertexCount s <= VERTEX_BUFFER_MAX C) subs ->
    SubmitAll C E (initial C) subs = Done e' ->
    decodedVerts_ (DecodeVerts C E e') <= VERTEX_BUFFER_MAX C.

(** The flush of lines 180-186 fires: a rectangle that samples the render
    target, with slow framebuffer effects not disabled. *)
Definition samples_render_target (E : Env) (p : GEPrimitiveType) : bool :=
  prim_eqb p GE_PRIM_RECTANGLES
  && (Z.land (getTextureAddress0 E) 1073741823
      =? Z.land (getFrameBufAddress E) 1073741823)
  && negb (bDisableSlowFramebufEffects E).

(** The vertex count of the range an indexed decode step is about to
    decode. *)
Definition merged_vertex_count (e : DrawEngine) : Z :=
  let i := decodeCounter_ e in
  let dc := call_at e i in
  let '(lo, hi, _) :=
    merge_scan (verts dc) (calls_between e (i + 1) (numDrawCalls e - 1))
      (indexLowerBound dc) (indexUpperBound dc) i (i + 1) in
  hi - lo + 1.

End BatchDesign.

(** ** Concrete batches *)

Module BatchExamples.

Import DrawEngineVulkan.

(** One choice of the constants: 128 deferred calls, 65536 vertices, the
    index type in bits 11-12 of the vertex type, the weights in bits
    9-10. *)
Definition constants : Constants :=
  {| MAX_DEFERRED_DRAW_CALLS := 128; VERTEX_BUFFER_MAX := 65536;
     GE_VTYPE_IDX_MASK := 6144; GE_VTYPE_IDX_SHIFT := 11;
     GE_VTYPE_IDX_NONE := 0; GE_VTYPE_IDX_8BIT := 2048;
     GE_VTYPE_IDX_16BIT := 4096; GE_VTYPE_WEIGHT_MASK := 1536;
     TEXCHANGE_PARAMSONLY := 2 |}.

(** Index buffers: bytes 5, 7, 6 at 2000; 9, 8, 10 at 2010; 0, 0, 0 at
    2020; the 16-bit indices 0 and 65535 at 2030. *)
Definition index_memory (a : Z) : Z :=
  if a =? 2000 then 5 else if a =? 2001 then 7 else if a =? 2002 then 6
  else if a =? 2010 then 9 else if a =? 2011 then 8
  else if a =? 2012 then 10
  else if a =? 2032 then 255 else if a =? 2033 then 255
  else 0.

(** All primitive kinds batch together, 12 bytes per vertex, no software
    skinning, texture and render target apart. *)
Definition env : Env :=
  {| PrimCompatible := fun _ _ => true; VertexSizeOf := fun _ => 12;
     getUVGenMode := 0; getTextureAddress0 := 0; getFrameBufAddress := 4;
     bSoftwareSkinning := false; bDisableSlowFramebufEffects := false;
     UseHWTransform := true; hostmem := index_memory |}.

Definition submission (v i : Z) (p : GEPrimitiveType) (n vt : Z)
    : Submission :=
  {| sub_verts := v; sub_inds := i; sub_prim := p; sub_vertexCount := n;
     sub_vertType := vt |}.

Definition engine_after (subs : list Submission) : DrawEngine :=
  match SubmitAll constants env (initial constants) subs with
  | Done e => e
  | _ => initial constants
  end.

(** Two indexed triangles over the vertex buffer at 1000, then one over
    the vertex buffer at 3000. *)
Definition three_indexed_calls : DrawEngine :=
  engine_after [submission 1000 2000 GE_PRIM_TRIANGLES 3 2048;
                submission 1000 2010 GE_PRIM_TRIANGLES 3 2048;
                submission 3000 2020 GE_PRIM_TRIANGLES 3 2048].

(** One decoded point, then a pending call whose two 16-bit indices are 0
    and 65535. *)
Definition bogus_index_range : DrawEngine :=
  bump_counter
    (DecodeVertsStep constants env
       (engine_after [submission 100 0 GE_PRIM_POINTS 1 0;
                      submission 1000 2030 GE_PRIM_POINTS 2 4096])).

(** An indexed call whose two indices span 0 to 65535, then ten
    non-indexed points over another vertex buffer. *)
Definition mixed_batch : DrawEngine :=
  engine_after [submission 1000 2030 GE_PRIM_POINTS 2 4096;
                submission 100 0 GE_PRIM_POINTS 10 0].


(** One indexed triangle whose vertex type has both index bits set. *)
Definition both_index_bits : DrawEngine :=
  engine_after [submission 1000 2000 GE_PRIM_TRIANGLES 3 6144].

(** A 16-bit indexed triangle and an 8-bit indexed triangle over the same
    vertex buffer. *)
Definition mixed_width_run : DrawEngine :=
  engine_after [submission 1000 2020 GE_PRIM_TRIANGLES 3 4096;
                submission 1000 2000 GE_PRIM_TRIANGLES 3 2048].

(** A batch that holds [VERTEX_BUFFER_MAX] vertices in one call. *)
Definition full_batch : DrawEngine :=
  engine_after [submission 100 0 GE_PRIM_POINTS 65536 0].

End BatchExamples.

(** ** Further properties of the rasterizer: definitions *)

Module RasterizerMore.

Import Rasterizer Design.

(** The address [SampleNearest] reads its texel at: the texture base of
    lines 36-37 plus the offset of lines 49, 60, 71 and 81, with [bytes]
    bytes per texel. *)
Definition texel_address (H : Host) (gs : GPUgstate) (level : Z)
    (s t : F32.float) (bytes : Z) : Z :=
  let texaddr_ :=
    u32 (Z.lor (Z.land (texaddr gs level) 16777200)
               (Z.land (u32 (Z.shiftl (texbufwidth gs level) 8)) 251658240)) in
  let width := Z.shiftl 1 (Z.land (texsize gs level) 15) in
  let height := Z.shiftl 1 (Z.land (Z.shiftr (texsize gs level) 8) 15) in
  let u := F32.to_int (F32.mul s (F32.of_int width)) in
  let v := F32.to_int (F32.mul t (F32.of_int height)) in
  GetPointer H texaddr_ + s32 (s32 (s32 (bytes * v) * width) + s32 (bytes * u)).

(** Which branch of the [if] chain of [SampleNearest] a texture format
    takes. *)
Definition selects_4444 (K : GEConstants) (gs : GPUgstate) : Prop :=
  Z.land (texformat gs) 15 = GE_TFMT_4444 K.
Definition selects_5551 (K : GEConstants) (gs : GPUgstate) : Prop :=
  Z.land (texformat gs) 15 <> GE_TFMT_4444 K
  /\ Z.land (texformat gs) 15 = GE_TFMT_5551 K.
Definition selects_5650 (K : GEConstants) (gs : GPUgstate) : Prop :=
  Z.land (texformat gs) 15 <> GE_TFMT_4444 K
  /\ Z.land (texformat gs) 15 <> GE_TFMT_5551 K
  /\ Z.land (texformat gs) 15 = GE_TFMT_5650 K.
Definition selects_8888 (K : GEConstants) (gs : GPUgstate) : Prop :=
  Z.land (texformat gs) 15 <> GE_TFMT_4444 K
  /\ Z.land (texformat gs) 15 <> GE_TFMT_5551 K
  /\ Z.land (texformat gs) 15 <> GE_TFMT_5650 K
  /\ Z.land (texformat gs) 15 = GE_TFMT_8888 K.

(** The memory effect of one recorded store. *)
Definition event_store (H : Host) (gs : GPUgstate) (ev : Event)
    (m : Memory) : Memory :=
  match ev with
  | WriteColor x y v =>
      store32 m (fb H + (4 * x + 4 * y * FrameBufStride gs)) v
  | WriteDepth x y v =>
      store16 m (depthbuf H + (2 * x + 2 * y * DepthBufStride gs)) v
  end.

(** A store to the framebuffer. *)
Definition color_store (ev : Event) : Prop :=
  match ev with
  | WriteColor _ _ _ => True
  | WriteDepth _ _ _ => False
  end.

(** The memory after a sequence of recorded stores. *)
Definition replay (H : Host) (gs : GPUgstate) (evs : list Event)
    (m : Memory) : Memory :=
  fold_left (fun m' ev => event_store H gs ev m') evs m.

(** A store at a covered pixel inside the bounding box and the scissor
    rectangle. *)
Definition store_in_region (gs : GPUgstate) (vd0 vd1 vd2 : VertexData)
    (ev : Event) : Prop :=
  match ev with
  | WriteColor x y _ | WriteDepth x y _ =>
      in_bounding_box (drawpos vd0) (drawpos vd1) (drawpos vd2) x y
      /\ in_scissor gs x y
      /\ covered (drawpos vd0) (drawpos vd1) (drawpos vd2) x y
  end.

(** What one pixel can contribute to the trace: nothing, a colour store, or
    a depth store followed by a colour store. *)
Definition pixel_stores (x y : Z) (evs : list Event) : Prop :=
  evs = []
  \/ (exists c, evs = [WriteColor x y c])
  \/ (exists z c, evs = [WriteDepth x y z; WriteColor x y c]).

(** Every depth store of a trace is directly followed by a colour store at
    the same pixel. *)
Inductive depth_then_color : list Event -> Prop :=
| dtc_nil : depth_then_color []
| dtc_color x y c rest :
    depth_then_color rest -> depth_then_color (WriteColor x y c :: rest)
| dtc_depth x y z c rest :
    depth_then_color rest ->
    depth_then_color (WriteDepth x y z :: WriteColor x y c :: rest).

(** The texture unit cannot make [SampleNearest] fall off its end. *)
Definition texture_defined (K : GEConstants) (gs : GPUgstate) : Prop :=
  isTextureMapEnabled gs = false \/ isModeClear gs = true
  \/ format_supported K gs.

(** The addresses of the colour word and of the depth halfword of a
    pixel, and their not overlapping. *)
Definition color_address (H : Host) (gs : GPUgstate) (x y : Z) : Z :=
  fb H + (4 * x + 4 * y * FrameBufStride gs).
Definition depth_address (H : Host) (gs : GPUgstate) (x y : Z) : Z :=
  depthbuf H + (2 * x + 2 * y * DepthBufStride gs).
Definition pixel_words_apart (H : Host) (gs : GPUgstate) (x y : Z) : Prop :=
  color_address H gs x y + 3 < depth_address H gs x y
  \/ depth_address H gs x y + 1 < color_address H gs x y.

(** The condition of line 180, under which a pixel that passed the depth
    test stores its depth: [isDepthWriteEnabled() || (clearmode & 0x40)]. *)
Definition depth_write_in_effect (gs : GPUgstate) : bool :=
  isDepthWriteEnabled gs || Z.testbit (clearmode gs) 6.

(** The pixel offsets are [int]s, as the code computes them: neither
    coordinate is negative and both offsets fit. *)
Definition offsets_fit (gs : GPUgstate) (x y : Z) : Prop :=
  0 <= x /\ 0 <= y
  /\ 4 * x + 4 * y * FrameBufStride gs <= INT_MAX
  /\ 2 * x + 2 * y * DepthBufStride gs <= INT_MAX.

(** The bytes of the colour word and of the depth halfword of a pixel. *)
Definition color_bytes (H : Host) (gs : GPUgstate) (x y a : Z) : Prop :=
  fb H + (4 * x + 4 * y * FrameBufStride gs) <= a
    < fb H + (4 * x + 4 * y * FrameBufStride gs) + 4.
Definition depth_bytes (H : Host) (gs : GPUgstate) (x y a : Z) : Prop :=
  depthbuf H + (2 * x + 2 * y * DepthBufStride gs) <= a
    < depthbuf H + (2 * x + 2 * y * DepthBufStride gs) + 2.

(** An address that belongs to the colour word or the depth halfword of a
    covered pixel inside the bounding box and the scissor rectangle. *)
Definition in_drawn_bytes (H : Host) (gs : GPUgstate)
    (vd0 vd1 vd2 : VertexData) (a : Z) : Prop :=
  exists x y,
    in_bounding_box (drawpos vd0) (drawpos vd1) (drawpos vd2) x y
    /\ in_scissor gs x y
    /\ covered (drawpos vd0) (drawpos vd1) (drawpos vd2) x y
    /\ (color_bytes H gs x y a \/ depth_bytes H gs x y a).

(** The compare function that passes exactly when the given one fails. *)
Definition opposite (f : GEComparison) : GEComparison :=
  match f with
  | GE_COMP_NEVER => GE_COMP_ALWAYS
  | GE_COMP_ALWAYS => GE_COMP_NEVER
  | GE_COMP_EQUAL => GE_COMP_NOTEQUAL
  | GE_COMP_NOTEQUAL => GE_COMP_EQUAL
  | GE_COMP_LESS => GE_COMP_GEQUAL
  | GE_COMP_LEQUAL => GE_COMP_GREATER
  | GE_COMP_GREATER => GE_COMP_LEQUAL
  | GE_COMP_GEQUAL => GE_COMP_LESS
  end.

(** [gs] with another depth-compare function. *)
Definition with_depth_func (gs : GPUgstate) (f : GEComparison) : GPUgstate :=
  {| texformat := texformat gs; texaddr := texaddr gs;
     texbufwidth := texbufwidth gs; texsize := texsize gs;
     clearmode := clearmode gs; shademodel := shademodel gs;
     FrameBufStride := FrameBufStride gs;
     DepthBufStride := DepthBufStride gs;
     isModeClear := isModeClear gs; isModeThrough := isModeThrough gs;
     isDepthTestEnabled := isDepthTestEnabled gs;
     isDepthWriteEnabled := isDepthWriteEnabled gs;
     isTextureMapEnabled := isTextureMapEnabled gs;
     getDepthTestFunc := f;
     getScissorX1 := getScissorX1 gs; getScissorY1 := getScissorY1 gs;
     getScissorX2 := getScissorX2 gs; getScissorY2 := getScissorY2 gs |}.

(** A store at a pixel of the loop ranges of [DrawTriangle] at which the
    three weights, as the code computes them, are non-negative. *)
Definition store_in_loop (gs : GPUgstate) (vd0 vd1 vd2 : VertexData)
    (ev : Event) : Prop :=
  match ev with
  | WriteColor x y _ | WriteDepth x y _ =>
      minX gs vd0 vd1 vd2 <= x <= maxX gs vd0 vd1 vd2
      /\ minY gs vd0 vd1 vd2 <= y <= maxY gs vd0 vd1 vd2
      /\ pixel_covered vd0 vd1 vd2 x y = true
  end.

(** [st] is [st0] followed by stores that satisfy [Q]: the trace grows by
    them, and the memory is what they make of the memory of [st0]. *)
Definition drawn_since (H : Host) (gs : GPUgstate) (Q : Event -> Prop)
    (st0 st : RState) : Prop :=
  exists evs,
    trace st = trace st0 ++ evs
    /\ mem st = replay H gs evs (mem st0)
    /\ Forall Q evs
    /\ depth_then_color evs.

(** A graphics state whose scissor rectangle reaches the last value of a
    16-bit coordinate. *)
Definition gstate_full_scissor : GPUgstate :=
  {| texformat := 3; texaddr := fun _ => 0; texbufwidth := fun _ => 0;
     texsize := fun _ => 0; clearmode := 0; shademodel := 0;
     FrameBufStride := 512; DepthBufStride := 512;
     isModeClear := false; isModeThrough := false;
     isDepthTestEnabled := false; isDepthWriteEnabled := false;
     isTextureMapEnabled := false; getDepthTestFunc := GE_COMP_ALWAYS;
     getScissorX1 := 0; getScissorY1 := 0;
     getScissorX2 := 65535; getScissorY2 := 65535 |}.

End RasterizerMore.

(** ** Further properties of the draw engine: definitions *)

Module DrawEngineMore.

Import DrawEngineVulkan BatchDesign.

(** [Resized]: the decoder in use is forgotten and the decoder cache is
    emptied (the JIT cache, which is cleared too, is not part of the batch
    state). *)
Definition Resized (e : DrawEngine) : DrawEngine :=
  {| decodedVerts_ := decodedVerts_ e; prevPrim_ := prevPrim_ e;
     lastVType_ := u32 (-1); dec_ := None; decoderMap_ := ∅;
     numDrawCalls := numDrawCalls e;
     vertexCountInDrawCalls := vertexCountInDrawCalls e;
     decodeCounter_ := decodeCounter_ e; dcid_ := dcid_ e;
     drawCalls := drawCalls e; indexGen := indexGen e;
     textureChanged := textureChanged e; decodeLog := decodeLog e |}.

(** The decode cursor lies within the pending calls, and the array of
    deferred calls has the length the constructor gave it. *)
Definition cursor_wf (C : Constants) (e : DrawEngine) : Prop :=
  0 <= decodeCounter_ e <= numDrawCalls e
  /\ length (drawCalls e) = Z.to_nat (MAX_DEFERRED_DRAW_CALLS C).

(** A submission is accepted: its vertex count is not below the minimum of
    the primitive kind in effect. *)
Definition accepted (C : Constants) (E : Env) (e : DrawEngine)
    (s : Submission) : Prop :=
  below_minimum (effective_prim C E e s) (sub_vertexCount s) = false.

(** The aspects of a [VkClearAttachment]. *)
Inductive ClearAspect : Type :=
| ASPECT_COLOR
| ASPECT_DEPTH_STENCIL.

(** What the [SW_CLEAR] branch of [DoFlush] hands on: the [count] and the
    two slots of [attach] passed to [vkCmdClearAttachments] ([None] is a
    slot that was not assigned), and whether [SetColorUpdated] and
    [SetDepthUpdated] are called in the branch. *)
Record ClearCall : Type := {
  clear_count : Z;
  clear_attach : list (option ClearAspect);
  color_updated : bool;
  depth_updated : bool
}.

(** Lines 388-390. *)
Definition clear_mask (colorMask alphaMask depthMask : bool) : Z :=
  let mask := if colorMask then 1 else 0 in
  let mask := if alphaMask then Z.lor mask 2 else mask in
  if depthMask then Z.lor mask 4 else mask.

(** Lines 408-428 of [DoFlush]. *)
Definition sw_clear (colorMask alphaMask depthMask : bool) : ClearCall :=
  let mask := clear_mask colorMask alphaMask depthMask in
  let count := 0 in
  let attach := [None; None] in
  let '(count, attach) :=
    if negb (Z.land mask 3 =? 0)
    then (count + 1, <[Z.to_nat count := Some ASPECT_COLOR]> attach)
    else (count, attach) in
  let attach :=
    if negb (Z.land mask 4 =? 0)
    then <[Z.to_nat count := Some ASPECT_DEPTH_STENCIL]> attach
    else attach in
  {| clear_count := count; clear_attach := attach;
     color_updated := negb (Z.land mask 1 =? 0);
     depth_updated := negb (Z.land mask 4 =? 0) |}.

(** Lines 395-396 of [DoFlush]: the blue and the alpha channel of the
    clear colour, the byte of the 32-bit [result.color] at bit [shift] (16
    or 24) times [1.0f / 255.0f]. The red and the green product of lines
    393-394 do not reach the clear call: lines 397-398 store the depth and
    the stencil through the [depthStencil] member of the same
    [VkClearValue], which shares the storage of the first two floats. *)
Definition clear_channel (color shift : Z) : F32.float :=
  F32.mul (F32.of_int (Z.land (Z.shiftr (u32 color) shift) 255))
          (F32.div F32.one (F32.of_int 255)).

(** Every pair of channel bytes [b < b'] is mapped to floats in the same
    strict order, within [0.0f, 1.0f]. *)
Definition channels_ordered : bool :=
  forallb
    (fun b =>
       SFleb F32.zero (clear_channel b 0)
       && SFleb (clear_channel b 0) F32.one
       && forallb (fun b' => SFltb (clear_channel b 0) (clear_channel b' 0))
                  (seqZ (b + 1) (255 - b)))
    (seqZ 0 256).

(** The attachments a clear call covers: the first [count] slots. *)
Definition cleared (c : ClearCall) : list (option ClearAspect) :=
  take (Z.to_nat (clear_count c)) (clear_attach c).

Section MiniHash.

(** [DoReliableHash32 (p, len, seed)], whose source is not at hand: a
    32-bit hash of the [len] bytes at [p]. *)
Context (DoReliableHash32 : Z -> Z -> Z -> Z).

(** The loop [for (i = 0; i < sz; i += step) hash += ...] over 32-bit
    words at [p]. *)
Fixpoint hash_samples (fuel : nat) (p i sz step hash : Z) : outcome Z :=
  match fuel with
  | O => Timeout
  | S fuel' =>
      if i <? sz
      then hash_samples fuel' p (i + step) sz step
             (u32 (hash + DoReliableHash32 (p + 4 * i) 100 977582532))
      else Done hash
  end.

(** [ComputeMiniHashRange (ptr, sz)], [sz] in bytes. The loop advances by
    [step >= 25], so [sz + 1] iterations are enough. *)
Definition ComputeMiniHashRange (m : Rasterizer.Memory) (ptr sz : Z)
    : outcome Z :=
  let p := ptr in
  let sz := Z.shiftr sz 2 in
  if 100 <? sz then
    let step := sz / 4 in
    hash_samples (S (Z.to_nat sz)) p 0 sz step 0
  else
    Done (u32 (Rasterizer.load32 m p + Rasterizer.load32 m (p + 4 * (sz - 1)))).

End MiniHash.

End DrawEngineMore.

(** * Proofs *)

(** ** Machine integers *)

Lemma s32_small (z : Z) : INT_MIN <= z <= INT_MAX -> s32 z = z.
Proof.
  unfold s32, INT_MIN, INT_MAX. intros Hz.
  rewrite Z.mod_small by lia. lia.
Qed.

Lemma s32_range (z : Z) : INT_MIN <= s32 z <= INT_MAX.
Proof.
  unfold s32, INT_MIN, INT_MAX.
  pose proof (Z.mod_pos_bound (z + 2 ^ 31) (2 ^ 32)). lia.
Qed.

Lemma u16_small (z : Z) : 0 <= z < 65536 -> u16 z = z.
Proof. unfold u16. intros Hz. apply Z.mod_small. lia. Qed.

Lemma land_bit6 (c : Z) : (Z.land c 64 =? 0) = negb (Z.testbit c 6).
Proof.
  destruct (Z.testbit c 6) eqn:Hb; simpl.
  - apply Z.eqb_neq. intros Hz.
    assert (Ht : Z.testbit (Z.land c 64) 6 = true).
    { rewrite Z.land_spec, Hb. reflexivity. }
    rewrite Hz in Ht. discriminate.
  - apply Z.eqb_eq. apply Z.bits_inj'. intros n Hn.
    rewrite Z.land_spec, Z.bits_0.
    change 64 with (2 ^ 6). rewrite Z.pow2_bits_eqb by lia.
    destruct (Z.eqb_spec 6 n) as [<- | Hne].
    + rewrite Hb. reflexivity.
    + apply andb_false_r.
Qed.

(** ** The rasterizer *)

Module RasterizerProofs.

Import Rasterizer Design Examples RasterizerMore.

Lemma DrawPixel_unfold K H gs vd0 vd1 vd2 x y st :
  DrawPixel K H gs vd0 vd1 vd2 x y st =
  match pixel_after_depth H gs vd0 vd1 vd2 x y st with
  | Some st1 =>
      color_stage K H gs vd0 vd1 vd2 x y (w0 vd0 vd1 vd2 x y)
        (w1 vd0 vd1 vd2 x y) (w2 vd0 vd1 vd2 x y) (den vd0 vd1 vd2 x y) st1
  | None => Done st
  end.
Proof.
  unfold DrawPixel, pixel_after_depth, pixel_covered, w0, w1, w2, den, pixel.
  destruct (_ && _); [ | reflexivity ].
  destruct (depth_stage _ _ _ _ _ _ _ _ _ _ _ _); reflexivity.
Qed.

Lemma SampleNearest_supported K H gs m level s t :
  format_supported K gs -> exists smp, SampleNearest K H gs m level s t = Done smp.
Proof.
  unfold format_supported, SampleNearest. intros Hf.
  destruct (Z.eqb_spec (Z.land (texformat gs) 15) (GE_TFMT_4444 K));
    [ eauto | ].
  destruct (Z.eqb_spec (Z.land (texformat gs) 15) (GE_TFMT_5551 K));
    [ eauto | ].
  destruct (Z.eqb_spec (Z.land (texformat gs) 15) (GE_TFMT_5650 K));
    [ eauto | ].
  destruct (Z.eqb_spec (Z.land (texformat gs) 15) (GE_TFMT_8888 K));
    [ eauto | ].
  tauto.
Qed.

Lemma for_u16_preserves {St : Type} (P : St -> Prop)
    (body : Z -> St -> outcome St) :
  (forall i s s', P s -> body i s = Done s' -> P s') ->
  forall (fuel : nat) (i hi : Z) (s s' : St),
    P s -> for_u16 fuel i hi body s = Done s' -> P s'.
Proof.
  intros Hbody. induction fuel as [ | fuel IH ]; intros i hi s s' Hs Hrun;
    simpl in Hrun; [ discriminate Hrun | ].
  destruct (i <=? hi).
  - destruct (body i s) as [ s1 | | ] eqn:Hb; simpl in Hrun;
      try discriminate Hrun.
    apply (IH (u16 (i + 1)) hi s1 s');
      [ eapply Hbody; eassumption | exact Hrun ].
  - inversion Hrun. subst. exact Hs.
Qed.

Lemma pixel_after_depth_trace H gs vd0 vd1 vd2 x y st st1 :
  pixel_after_depth H gs vd0 vd1 vd2 x y st = Some st1 ->
  trace st1 = trace st
  \/ exists z, trace st1 = trace st ++ [WriteDepth x y z].
Proof.
  unfold pixel_after_depth, depth_stage.
  destruct (pixel_covered vd0 vd1 vd2 x y); [ | discriminate ].
  destruct (isDepthTestEnabled gs && negb (isModeThrough gs)
            || isModeClear gs).
  - destruct (negb (DepthTestPassed _ _ _ _ _ _)); [ discriminate | ].
    destruct (isDepthWriteEnabled gs || _); intros Heq; inversion Heq.
    + right. eexists. reflexivity.
    + left. reflexivity.
  - intros Heq. inversion Heq. left. reflexivity.
Qed.

Lemma DrawPixel_textured K H gs vd0 vd1 vd2 x y st st1 :
  isTextureMapEnabled gs = true ->
  isModeClear gs = false ->
  pixel_after_depth H gs vd0 vd1 vd2 x y st = Some st1 ->
  DrawPixel K H gs vd0 vd1 vd2 x y st
  = (run smp := SampleNearest K H gs (mem st1) 0 (pixel_s vd0 vd1 vd2 x y)
                  (pixel_t vd0 vd1 vd2 x y) in
     Done (SetPixelColor H gs x y
             (Z.lor (pixel_base_color K gs vd0 vd1 vd2 x y) smp) st1)).
Proof.
  intros Htex Hclear Hdepth.
  rewrite DrawPixel_unfold, Hdepth. unfold color_stage.
  rewrite Htex, Hclear. simpl andb. cbv iota.
  unfold pixel_s, pixel_t, pixel_base_color.
  destruct (SampleNearest _ _ _ _ _ _ _); reflexivity.
Qed.

Lemma DrawPixel_keeps_ored K H gs vd0 vd1 vd2 (st0 : RState) x y st st' :
  isTextureMapEnabled gs = true ->
  isModeClear gs = false ->
  (exists evs, trace st = trace st0 ++ evs
               /\ Forall (ored_color_event K H gs vd0 vd1 vd2) evs) ->
  DrawPixel K H gs vd0 vd1 vd2 x y st = Done st' ->
  exists evs, trace st' = trace st0 ++ evs
              /\ Forall (ored_color_event K H gs vd0 vd1 vd2) evs.
Proof.
  intros Htex Hclear (evs & Htr & Hall) Hrun.
  destruct (pixel_after_depth H gs vd0 vd1 vd2 x y st) as [ st1 | ] eqn:Hd.
  - rewrite (DrawPixel_textured K H gs vd0 vd1 vd2 x y st st1 Htex Hclear Hd)
      in Hrun.
    destruct (SampleNearest K H gs (mem st1) 0 (pixel_s vd0 vd1 vd2 x y)
                (pixel_t vd0 vd1 vd2 x y)) as [ smp | | ] eqn:Hs;
      simpl in Hrun; try discriminate Hrun.
    inversion Hrun. subst st'. simpl.
    assert (Hcol : ored_color_event K H gs vd0 vd1 vd2
                     (WriteColor x y
                        (Z.lor (pixel_base_color K gs vd0 vd1 vd2 x y) smp)))
      by (simpl; eauto).
    destruct (pixel_after_depth_trace H gs vd0 vd1 vd2 x y st st1 Hd)
      as [Heq | [z Heq]]; rewrite Heq, Htr.
    + eexists. split; [ rewrite <- app_assoc; reflexivity | ].
      apply Forall_app. split; [ exact Hall | ]. constructor; [ exact Hcol | ].
      constructor.
    + eexists. split; [ rewrite <- !app_assoc; reflexivity | ].
      apply Forall_app. split; [ exact Hall | ].
      constructor; [ exact I | ]. constructor; [ exact Hcol | constructor ].
  - rewrite DrawPixel_unfold, Hd in Hrun. inversion Hrun. subst st'.
    eauto.
Qed.

(** C1, as the code has it. Where texture mapping is enabled and clear mode
    is off, [DrawTriangle] shades a covered pixel that passed the depth
    stage by OR-ing the [SampleNearest] result at mip level 0 into the base
    colour, and stores that value at the pixel: the sample does not replace
    the base colour. The same holds of every colour store of a finished
    [DrawTriangle]. *)
Theorem texture_sample_is_ored_into_base K H gs vd0 vd1 vd2 :
  isTextureMapEnabled gs = true ->
  isModeClear gs = false ->
  format_supported K gs ->
  (forall x y st st1,
     pixel_after_depth H gs vd0 vd1 vd2 x y st = Some st1 ->
     exists smp,
       SampleNearest K H gs (mem st1) 0 (pixel_s vd0 vd1 vd2 x y)
         (pixel_t vd0 vd1 vd2 x y) = Done smp
       /\ DrawPixel K H gs vd0 vd1 vd2 x y st
          = Done (SetPixelColor H gs x y
                    (Z.lor (pixel_base_color K gs vd0 vd1 vd2 x y) smp) st1)
       /\ outcome_trace (DrawPixel K H gs vd0 vd1 vd2 x y st)
          = Some (trace st1
                  ++ [WriteColor x y
                        (Z.lor (pixel_base_color K gs vd0 vd1 vd2 x y)
                               smp)]))
  /\ (forall fuel st st',
        DrawTriangle K H fuel gs vd0 vd1 vd2 st = Done st' ->
        exists evs,
          trace st' = trace st ++ evs
          /\ Forall (ored_color_event K H gs vd0 vd1 vd2) evs).
Proof.
  intros Htex Hclear Hfmt. split.
  - intros x y st st1 Hdepth.
    destruct (SampleNearest_supported K H gs (mem st1) 0
                (pixel_s vd0 vd1 vd2 x y) (pixel_t vd0 vd1 vd2 x y) Hfmt)
      as [smp Hsmp].
    exists smp. split; [ exact Hsmp | ].
    rewrite (DrawPixel_textured K H gs vd0 vd1 vd2 x y st st1 Htex Hclear
               Hdepth), Hsmp.
    split; reflexivity.
  - intros fuel st st' Hrun. unfold DrawTriangle in Hrun.
    apply (for_u16_preserves
             (fun s => exists evs,
                  trace s = trace st ++ evs
                  /\ Forall (ored_color_event K H gs vd0 vd1 vd2) evs)
             _ ) with (s := st) in Hrun.
    + exact Hrun.
    + intros y s s' Hs Hrow.
      apply (for_u16_preserves
               (fun s => exists evs,
                    trace s = trace st ++ evs
                    /\ Forall (ored_color_event K H gs vd0 vd1 vd2) evs)
               _ ) with (s := s) in Hrow.
      * exact Hrow.
      * intros x s1 s2 Hs1 Hpix.
        exact (DrawPixel_keeps_ored K H gs vd0 vd1 vd2 st x y s1 s2
                 Htex Hclear Hs1 Hpix).
      * exact Hs.
    + exists []. split; [ symmetry; apply app_nil_r | constructor ].
Qed.

Lemma texture_sample_is_ored_into_base_witness :
  exists smp,
    SampleNearest ge_constants host
      (gstate_with 3 true false false false GE_COMP_ALWAYS)
      (mem (state_with 1 0)) 0
      (pixel_s (vertex 0 0 0 255) (vertex 1 0 0 255) (vertex 0 1 0 255) 0 0)
      (pixel_t (vertex 0 0 0 255) (vertex 1 0 0 255) (vertex 0 1 0 255) 0 0)
      = Done smp
    /\ outcome_trace
         (DrawPixel ge_constants host
            (gstate_with 3 true false false false GE_COMP_ALWAYS)
            (vertex 0 0 0 255) (vertex 1 0 0 255) (vertex 0 1 0 255) 0 0
            (state_with 1 0))
       = Some [WriteColor 0 0 (Z.lor 255 smp)].
Proof.
  destruct (texture_sample_is_ored_into_base ge_constants host
              (gstate_with 3 true false false false GE_COMP_ALWAYS)
              (vertex 0 0 0 255) (vertex 1 0 0 255) (vertex 0 1 0 255))
    as [Hpix _].
  - reflexivity.
  - reflexivity.
  - right. right. right. reflexivity.
  - destruct (Hpix 0 0 (state_with 1 0) (state_with 1 0))
      as [smp [Hs [_ Ht]]].
    + reflexivity.
    + exists smp. split; [ exact Hs | exact Ht ].
Defined.

(** C1, as the design document states it, fails: with a flat base colour
    0x000000FF and an 8-8-8-8 texel that samples to 0x01000000, the pixel
    receives 0x010000FF, not the sample. *)
Lemma texture_does_not_replace_base :
  ~ texture_replaces_base ge_constants host.
Proof.
  intros Hclaim.
  specialize (Hclaim (gstate_with 3 true false false false GE_COMP_ALWAYS)
                (vertex 0 0 0 255) (vertex 1 0 0 255) (vertex 0 1 0 255) 0 0
                (state_with 1 0) (state_with 1 0) 16777216).
  apply (f_equal outcome_trace) in Hclaim; try reflexivity.
  vm_compute in Hclaim. discriminate Hclaim.
Qed.

(** C2, at a texel whose blue field is 31 and whose other fields are 0
    (bytes 0x00, 0x7C). The design rule gives 0x0000FF00; [SampleNearest]
    returns 0, because its blue channel is computed from the first byte plus
    one instead of from the second byte. *)
Theorem SampleNearest_5551_blue_is_lost :
  SampleNearest ge_constants host
    (gstate_with 1 true false false false GE_COMP_ALWAYS)
    (memory_with 0 124) 0 F32.zero F32.zero = Done 0
  /\ unpack_5551 (load16 (memory_with 0 124) 0) = 65280.
Proof. split; vm_compute; reflexivity. Qed.

(** *** The loops of [DrawTriangle] *)

Lemma for_u16_no_wrap {St : Type} (body : Z -> St -> outcome St) :
  forall (fuel : nat) (lo hi : Z) (s : St),
    0 <= lo < 65536 -> hi < 65535 ->
    (Z.to_nat (hi + 1 - lo) < fuel)%nat ->
    for_u16 fuel lo hi body s = for_each body (seqZ lo (hi + 1 - lo)) s.
Proof.
  induction fuel as [ | fuel IH ]; intros lo hi s Hlo Hhi Hfuel;
    [ lia | ].
  simpl. destruct (Z.leb_spec lo hi) as [Hle | Hgt].
  - rewrite seqZ_cons by lia. simpl.
    destruct (body lo s) as [ s' | | ]; simpl; try reflexivity.
    rewrite u16_small by lia. rewrite IH by lia.
    f_equal. f_equal; lia.
  - rewrite seqZ_nil by lia. reflexivity.
Qed.

Lemma orient2d_exact (a b : DrawingCoords) (x y : Z) :
  coords_in_range a -> coords_in_range b ->
  0 <= x < 32768 -> 0 <= y < 32768 ->
  orient2d a b (pixel x y) = edge a b x y.
Proof.
  unfold coords_in_range, orient2d, edge, pixel. simpl.
  intros [Hax Hay] [Hbx Hby] Hx Hy.
  rewrite (s32_small (dc_x b - dc_x a)) by (unfold INT_MIN, INT_MAX; lia).
  rewrite (s32_small (y - dc_y a)) by (unfold INT_MIN, INT_MAX; lia).
  rewrite (s32_small (dc_y b - dc_y a)) by (unfold INT_MIN, INT_MAX; lia).
  rewrite (s32_small (x - dc_x a)) by (unfold INT_MIN, INT_MAX; lia).
  assert (H1 : -1073676289 <= (dc_x b - dc_x a) * (y - dc_y a) <= 1073676289)
    by nia.
  assert (H2 : -1073676289 <= (dc_y b - dc_y a) * (x - dc_x a) <= 1073676289)
    by nia.
  rewrite (s32_small ((dc_x b - dc_x a) * (y - dc_y a)))
    by (unfold INT_MIN, INT_MAX; lia).
  rewrite (s32_small ((dc_y b - dc_y a) * (x - dc_x a)))
    by (unfold INT_MIN, INT_MAX; lia).
  apply s32_small. unfold INT_MIN, INT_MAX. lia.
Qed.

Lemma pixel_covered_exact (vd0 vd1 vd2 : VertexData) (x y : Z) :
  coords_in_range (drawpos vd0) -> coords_in_range (drawpos vd1) ->
  coords_in_range (drawpos vd2) ->
  0 <= x < 32768 -> 0 <= y < 32768 ->
  pixel_covered vd0 vd1 vd2 x y = true
  <-> covered (drawpos vd0) (drawpos vd1) (drawpos vd2) x y.
Proof.
  intros H0 H1 H2 Hx Hy. unfold pixel_covered, covered, w0, w1, w2.
  rewrite !orient2d_exact by assumption.
  rewrite !andb_true_iff, !Z.leb_le. tauto.
Qed.

Lemma replay_app H gs (e1 e2 : list Event) (m : Memory) :
  replay H gs (e1 ++ e2) m = replay H gs e2 (replay H gs e1 m).
Proof. unfold replay. apply fold_left_app. Qed.

Section NoDepthTest.

Context (K : GEConstants) (H : Host) (gs : GPUgstate)
        (vd0 vd1 vd2 : VertexData).
Hypothesis no_depth : depth_test_applies gs = false.
Hypothesis texture_ok :
  isTextureMapEnabled gs = false \/ format_supported K gs.

Lemma DrawPixel_no_depth (x y : Z) (st : RState) :
  exists st' evs,
    DrawPixel K H gs vd0 vd1 vd2 x y st = Done st'
    /\ trace st' = trace st ++ evs
    /\ mem st' = replay H gs evs (mem st)
    /\ Forall color_store evs
    /\ (forall x' y', color_written evs x' y'
          <-> x' = x /\ y' = y /\ pixel_covered vd0 vd1 vd2 x y = true).
Proof.
  rewrite DrawPixel_unfold. unfold pixel_after_depth.
  destruct (pixel_covered vd0 vd1 vd2 x y) eqn:Hcov.
  - unfold depth_stage. unfold depth_test_applies in no_depth.
    rewrite no_depth. unfold color_stage.
    assert (Hcol : exists c,
      (run color := (if isTextureMapEnabled gs && negb (isModeClear gs)
                     then run smp := SampleNearest K H gs (mem st) 0
                            (interpolate_float (texturecoords_s vd0)
                               (texturecoords_s vd1) (texturecoords_s vd2)
                               vd0 vd1 vd2 (w0 vd0 vd1 vd2 x y)
                               (w1 vd0 vd1 vd2 x y) (w2 vd0 vd1 vd2 x y)
                               (den vd0 vd1 vd2 x y))
                            (interpolate_float (texturecoords_t vd0)
                               (texturecoords_t vd1) (texturecoords_t vd2)
                               vd0 vd1 vd2 (w0 vd0 vd1 vd2 x y)
                               (w1 vd0 vd1 vd2 x y) (w2 vd0 vd1 vd2 x y)
                               (den vd0 vd1 vd2 x y)) in
                          Done (Z.lor (base_color K gs vd0 vd1 vd2
                                         (w0 vd0 vd1 vd2 x y)
                                         (w1 vd0 vd1 vd2 x y)
                                         (w2 vd0 vd1 vd2 x y)
                                         (den vd0 vd1 vd2 x y)) smp)
                     else Done (base_color K gs vd0 vd1 vd2
                                  (w0 vd0 vd1 vd2 x y) (w1 vd0 vd1 vd2 x y)
                                  (w2 vd0 vd1 vd2 x y) (den vd0 vd1 vd2 x y)))
       in Done (SetPixelColor H gs x y color st))
      = Done (SetPixelColor H gs x y c st)).
    { destruct (isTextureMapEnabled gs && negb (isModeClear gs)) eqn:Htex.
      - destruct texture_ok as [Hoff | Hfmt].
        + rewrite Hoff in Htex. discriminate Htex.
        + destruct (SampleNearest_supported K H gs (mem st) 0
                      (interpolate_float (texturecoords_s vd0)
                         (texturecoords_s vd1) (texturecoords_s vd2)
                         vd0 vd1 vd2 (w0 vd0 vd1 vd2 x y)
                         (w1 vd0 vd1 vd2 x y) (w2 vd0 vd1 vd2 x y)
                         (den vd0 vd1 vd2 x y))
                      (interpolate_float (texturecoords_t vd0)
                         (texturecoords_t vd1) (texturecoords_t vd2)
                         vd0 vd1 vd2 (w0 vd0 vd1 vd2 x y)
                         (w1 vd0 vd1 vd2 x y) (w2 vd0 vd1 vd2 x y)
                         (den vd0 vd1 vd2 x y)) Hfmt) as [smp Hsmp].
          rewrite Hsmp. simpl. eauto.
      - simpl. eauto. }
    destruct Hcol as [c Hc]. rewrite Hc.
    exists (SetPixelColor H gs x y c st), [WriteColor x y c].
    split; [ reflexivity | ]. split; [ reflexivity | ].
    split; [ reflexivity | ]. split; [ repeat constructor | ].
    intros x' y'. unfold color_written. simpl. split.
    + intros [c' [Heq | []]]. inversion Heq. auto.
    + intros (-> & -> & _). eauto.
  - exists st, []. split; [ reflexivity | ].
    split; [ symmetry; apply app_nil_r | ].
    split; [ reflexivity | ]. split; [ constructor | ].
    intros x' y'. unfold color_written. simpl. split.
    + intros [c' []].
    + intros (_ & _ & Hf). discriminate Hf.
Qed.

Lemma color_written_app (e1 e2 : list Event) (x y : Z) :
  color_written (e1 ++ e2) x y <-> color_written e1 x y \/ color_written e2 x y.
Proof.
  unfold color_written. split.
  - intros [c Hc]. apply in_app_or in Hc. destruct Hc; eauto.
  - intros [[c Hc] | [c Hc]]; exists c; apply in_or_app; auto.
Qed.

Lemma row_no_depth (y : Z) :
  forall (xs : list Z) (st : RState),
  exists st' evs,
    for_each (fun x s => DrawPixel K H gs vd0 vd1 vd2 x y s) xs st = Done st'
    /\ trace st' = trace st ++ evs
    /\ mem st' = replay H gs evs (mem st)
    /\ Forall color_store evs
    /\ (forall x' y', color_written evs x' y'
          <-> y' = y /\ In x' xs /\ pixel_covered vd0 vd1 vd2 x' y = true).
Proof.
  induction xs as [ | x xs IH ]; intros st.
  - exists st, []. split; [ reflexivity | ].
    split; [ symmetry; apply app_nil_r | ].
    split; [ reflexivity | ]. split; [ constructor | ].
    intros x' y'. unfold color_written. simpl. split.
    + intros [c []].
    + intros (_ & [] & _).
  - destruct (DrawPixel_no_depth x y st) as (st1 & e1 & Hrun1 & Htr1 & Hm1 & Hc1 & Hw1).
    destruct (IH st1) as (st2 & e2 & Hrun2 & Htr2 & Hm2 & Hc2 & Hw2).
    exists st2, (e1 ++ e2). simpl. rewrite Hrun1. simpl.
    split; [ exact Hrun2 | ].
    split; [ rewrite Htr2, Htr1; symmetry; apply app_assoc | ].
    split; [ rewrite Hm2, Hm1; symmetry; apply replay_app | ].
    split; [ apply Forall_app; split; assumption | ].
    intros x' y'. rewrite color_written_app, Hw1, Hw2. simpl. split.
    + intros [(-> & -> & Hc) | (-> & Hin & Hc)]; auto.
    + intros (-> & [<- | Hin] & Hc); auto.
Qed.

Lemma rows_no_depth (fuel : nat) (lo hi : Z) :
  0 <= lo < 65536 -> hi < 65535 ->
  (Z.to_nat (hi + 1 - lo) < fuel)%nat ->
  forall (ys : list Z) (st : RState),
  exists st' evs,
    for_each
      (fun y s =>
         for_u16 fuel lo hi
           (fun x s' => DrawPixel K H gs vd0 vd1 vd2 x y s') s)
      ys st = Done st'
    /\ trace st' = trace st ++ evs
    /\ mem st' = replay H gs evs (mem st)
    /\ Forall color_store evs
    /\ (forall x' y', color_written evs x' y'
          <-> In y' ys /\ lo <= x' <= hi
              /\ pixel_covered vd0 vd1 vd2 x' y' = true).
Proof.
  intros Hlo Hhi Hfuel.
  induction ys as [ | y ys IH ]; intros st.
  - exists st, []. split; [ reflexivity | ].
    split; [ symmetry; apply app_nil_r | ].
    split; [ reflexivity | ]. split; [ constructor | ].
    intros x' y'. unfold color_written. simpl. split.
    + intros [c []].
    + intros ([] & _).
  - destruct (row_no_depth y (seqZ lo (hi + 1 - lo)) st)
      as (st1 & e1 & Hrun1 & Htr1 & Hm1 & Hc1 & Hw1).
    destruct (IH st1) as (st2 & e2 & Hrun2 & Htr2 & Hm2 & Hc2 & Hw2).
    exists st2, (e1 ++ e2). simpl.
    rewrite for_u16_no_wrap by assumption. rewrite Hrun1. simpl.
    split; [ exact Hrun2 | ].
    split; [ rewrite Htr2, Htr1; symmetry; apply app_assoc | ].
    split; [ rewrite Hm2, Hm1; symmetry; apply replay_app | ].
    split; [ apply Forall_app; split; assumption | ].
    intros x' y'. rewrite color_written_app, Hw1, Hw2.
    rewrite <- list_elem_of_In, elem_of_seqZ. simpl. split.
    + intros [(-> & Hin & Hc) | (Hin & Hr & Hc)].
      * split; [ auto | ]. split; [ lia | exact Hc ].
      * auto.
    + intros ([<- | Hin] & Hr & Hc).
      * left. split; [ reflexivity | ]. split; [ lia | exact Hc ].
      * right. auto.
Qed.

End NoDepthTest.

(** C6. With no depth test in effect, [DrawTriangle] returns, and the
    pixels it stores a colour to are exactly the integer positions inside
    both the bounding box of the triangle and the scissor rectangle at which
    the three edge functions of the design document are non-negative
    (inclusive edges). It makes no other store, and the memory it leaves is
    the memory it started from with the 32-bit colour stores applied in
    order. The drawing coordinates are below 2^15, so that the 32-bit edge
    function is exact, and the scissor origin fits the 16-bit loop
    variable. *)
Theorem rasterizer_containment K H (fuel : nat) gs vd0 vd1 vd2 st :
  depth_test_applies gs = false ->
  isTextureMapEnabled gs = false \/ format_supported K gs ->
  coords_in_range (drawpos vd0) ->
  coords_in_range (drawpos vd1) ->
  coords_in_range (drawpos vd2) ->
  getScissorX1 gs < 65536 ->
  getScissorY1 gs < 65536 ->
  32768 < Z.of_nat fuel ->
  exists st' evs,
    DrawTriangle K H fuel gs vd0 vd1 vd2 st = Done st'
    /\ trace st' = trace st ++ evs
    /\ mem st' = replay H gs evs (mem st)
    /\ Forall color_store evs
    /\ (forall x y,
          color_written evs x y
          <-> in_bounding_box (drawpos vd0) (drawpos vd1) (drawpos vd2) x y
              /\ in_scissor gs x y
              /\ covered (drawpos vd0) (drawpos vd1) (drawpos vd2) x y).
Proof.
  intros Hnd Htex [H0x H0y] [H1x H1y] [H2x H2y] Hsx Hsy Hfuel.
  assert (Hc0 : coords_in_range (drawpos vd0)) by (split; assumption).
  assert (Hc1 : coords_in_range (drawpos vd1)) by (split; assumption).
  assert (Hc2 : coords_in_range (drawpos vd2)) by (split; assumption).
  unfold DrawTriangle.
  set (x1 := minX gs vd0 vd1 vd2). set (x2 := maxX gs vd0 vd1 vd2).
  set (y1 := minY gs vd0 vd1 vd2). set (y2 := maxY gs vd0 vd1 vd2).
  assert (Hx1 : 0 <= x1 < 65536) by (unfold x1, minX; lia).
  assert (Hy1 : 0 <= y1 < 65536) by (unfold y1, minY; lia).
  assert (Hx2 : x2 < 32768) by (unfold x2, maxX; lia).
  assert (Hy2 : y2 < 32768) by (unfold y2, maxY; lia).
  rewrite (u16_small x1), (u16_small y1) by assumption.
  rewrite for_u16_no_wrap by lia.
  destruct (rows_no_depth K H gs vd0 vd1 vd2 Hnd Htex fuel x1 x2
              Hx1 ltac:(lia) ltac:(lia) (seqZ y1 (y2 + 1 - y1)) st)
    as (st' & evs & Hrun & Htr & Hmem & Hcol & Hw).
  exists st', evs. split; [ exact Hrun | ]. split; [ exact Htr | ].
  split; [ exact Hmem | ]. split; [ exact Hcol | ].
  intros x y. rewrite Hw. rewrite <- list_elem_of_In, elem_of_seqZ.
  unfold in_bounding_box, in_scissor.
  split.
  - intros (Hy & Hx & Hcov).
    apply pixel_covered_exact in Hcov; try assumption; try lia.
    unfold x1, x2, minX, maxX in Hx. unfold y1, y2, minY, maxY in Hy.
    repeat split; try lia; apply Hcov.
  - intros (Hbb & Hsc & Hcov).
    assert (Hx : x1 <= x <= x2) by (unfold x1, x2, minX, maxX; lia).
    assert (Hy : y1 <= y <= y2) by (unfold y1, y2, minY, maxY; lia).
    split; [ lia | ]. split; [ exact Hx | ].
    apply pixel_covered_exact; try assumption; lia.
Qed.

Lemma rasterizer_containment_witness :
  exists st' evs,
    DrawTriangle ge_constants host (Z.to_nat 32769)
      (gstate_with 3 false false false false GE_COMP_ALWAYS)
      (vertex 0 0 0 255) (vertex 10 0 0 255) (vertex 0 10 0 255)
      (state_with 0 0) = Done st'
    /\ trace st' = evs
    /\ mem st' = replay host
                   (gstate_with 3 false false false false GE_COMP_ALWAYS)
                   evs (mem (state_with 0 0))
    /\ color_written evs 0 0
    /\ color_written evs 1 1
    /\ ~ color_written evs 10 10.
Proof.
  destruct (rasterizer_containment ge_constants host (Z.to_nat 32769)
              (gstate_with 3 false false false false GE_COMP_ALWAYS)
              (vertex 0 0 0 255) (vertex 10 0 0 255) (vertex 0 10 0 255)
              (state_with 0 0))
    as (st' & evs & Hrun & Htr & Hmem & _ & Hw).
  - reflexivity.
  - left. reflexivity.
  - unfold coords_in_range. simpl. lia.
  - unfold coords_in_range. simpl. lia.
  - unfold coords_in_range. simpl. lia.
  - simpl. lia.
  - simpl. lia.
  - lia.
  - exists st', evs. split; [ exact Hrun | ]. split; [ exact Htr | ].
    split; [ exact Hmem | ].
    split; [ | split ].
    + apply Hw. unfold in_bounding_box, in_scissor, covered, edge. simpl. lia.
    + apply Hw. unfold in_bounding_box, in_scissor, covered, edge. simpl. lia.
    + intros Hc. apply Hw in Hc.
      unfold in_bounding_box, in_scissor, covered, edge in Hc. simpl in Hc.
      lia.
Defined.

(** *** Interpolation *)

(** C8, at pixel (1, 1) of the triangle (0,0), (400,0), (0,200) whose three
    vertices have depth 65535 and clip-space w = 1. The pixel is covered and
    the barycentric average of the depth is 65535, but [DrawTriangle]
    computes the depth 11847: the product [drawpos.z * w0] is formed in
    32-bit integers before the conversion to [float], and 65535 * 79400
    does not fit. *)
Theorem depth_interpolation_overflows :
  pixel_covered (vertex 0 0 65535 0) (vertex 400 0 65535 0)
    (vertex 0 200 65535 0) 1 1 = true
  /\ w0 (vertex 0 0 65535 0) (vertex 400 0 65535 0) (vertex 0 200 65535 0)
       1 1 = 79400
  /\ INT_MAX < 65535 * 79400
  /\ barycentric_average 65535 65535 65535
       (w0 (vertex 0 0 65535 0) (vertex 400 0 65535 0)
          (vertex 0 200 65535 0) 1 1)
       (w1 (vertex 0 0 65535 0) (vertex 400 0 65535 0)
          (vertex 0 200 65535 0) 1 1)
       (w2 (vertex 0 0 65535 0) (vertex 400 0 65535 0)
          (vertex 0 200 65535 0) 1 1) = 65535
  /\ pixel_z (vertex 0 0 65535 0) (vertex 400 0 65535 0)
       (vertex 0 200 65535 0) 1 1 = 11847.
Proof. repeat split; vm_compute; reflexivity. Qed.

(** Where no product overflows, rounding still separates the computed
    value from the exact average: on the triangle (0,0), (100,0), (0,100)
    at constant depth 65535 the pixel (1, 1) gets 65534. The denominator is
    formed with reciprocals, which differs from dividing in the last bit
    already for w = 5 and clip-space w = 3. *)
Remark interpolation_rounds :
  pixel_z (vertex 0 0 65535 0) (vertex 100 0 65535 0) (vertex 0 100 65535 0)
    1 1 = 65534
  /\ F32.mul (F32.div F32.one (F32.of_int 3)) (F32.of_int 5)
     <> F32.div (F32.of_int 5) (F32.of_int 3).
Proof. split; vm_compute; [ reflexivity | discriminate ]. Qed.

End RasterizerProofs.

(** ** The draw engine *)

Module BatchProofs.

Import DrawEngineVulkan BatchDesign BatchExamples.

(** *** Decoding touches the decode progress only *)

Lemma set_decoded_id (e : DrawEngine) :
  set_decoded e (decodedVerts_ e) (indexGen e) (decodeLog e)
    (decodeCounter_ e) = e.
Proof. destruct e. reflexivity. Qed.

Lemma DecodeVertsStep_shape C E (e : DrawEngine) :
  exists dv ig log c, DecodeVertsStep C E e = set_decoded e dv ig log c.
Proof.
  unfold DecodeVertsStep.
  destruct (indexType (call_at e (decodeCounter_ e)) =? _); [ eauto | ].
  destruct (merge_scan _ _ _ _ _ _) as [[lo hi] lastMatch].
  destruct (VERTEX_BUFFER_MAX C <? _); eauto.
Qed.

Lemma DecodeVerts_loop_shape C E (n : nat) :
  forall e, exists dv ig log c,
    DecodeVerts_loop C E n e = set_decoded e dv ig log c.
Proof.
  induction n as [ | n IH ]; intros e; simpl.
  - exists (decodedVerts_ e), (indexGen e), (decodeLog e), (decodeCounter_ e).
    symmetry. apply set_decoded_id.
  - destruct (decodeCounter_ e <? numDrawCalls e).
    + destruct (DecodeVertsStep_shape C E e) as (dv & ig & log & c & Hs).
      rewrite Hs.
      destruct (IH (bump_counter (set_decoded e dv ig log c)))
        as (dv' & ig' & log' & c' & Hl).
      rewrite Hl. exists dv', ig', log', c'. reflexivity.
    + exists (decodedVerts_ e), (indexGen e), (decodeLog e),
        (decodeCounter_ e).
      symmetry. apply set_decoded_id.
Qed.

Lemma DecodeVerts_shape C E (e : DrawEngine) :
  exists dv ig log c, DecodeVerts C E e = set_decoded e dv ig log c.
Proof.
  unfold DecodeVerts.
  destruct (DecodeVerts_loop_shape C E
              (Z.to_nat (numDrawCalls e - decodeCounter_ e)) e)
    as (dv & ig & log & c & Hl).
  rewrite Hl. destruct (prim_code _ <? 0); eauto.
Qed.

(** The look-ahead returns the cursor itself or the index of a call it
    looked at. *)
Lemma merge_scan_last (v : Z) (calls : list DeferredDrawCall) :
  forall lo hi lm j,
    lm < j ->
    lm <= snd (merge_scan v calls lo hi lm j)
    /\ (snd (merge_scan v calls lo hi lm j) = lm
        \/ snd (merge_scan v calls lo hi lm j)
           < j + Z.of_nat (length calls)).
Proof.
  induction calls as [ | c rest IH ]; intros lo hi lm j Hj; simpl.
  - lia.
  - destruct (negb (verts c =? v)); simpl; [ lia | ].
    specialize (IH (Z.min lo (indexLowerBound c))
                  (Z.max hi (indexUpperBound c)) j (j + 1)).
    lia.
Qed.

Lemma DecodeVertsStep_cursor C E (e : DrawEngine) :
  decodeCounter_ e < numDrawCalls e ->
  decodeCounter_ e <= decodeCounter_ (DecodeVertsStep C E e)
    < numDrawCalls e
  /\ numDrawCalls (DecodeVertsStep C E e) = numDrawCalls e.
Proof.
  intros Hlt. unfold DecodeVertsStep.
  destruct (indexType (call_at e (decodeCounter_ e)) =? _);
    [ simpl; lia | ].
  pose proof (merge_scan_last (verts (call_at e (decodeCounter_ e)))
                (calls_between e (decodeCounter_ e + 1) (numDrawCalls e - 1))
                (indexLowerBound (call_at e (decodeCounter_ e)))
                (indexUpperBound (call_at e (decodeCounter_ e)))
                (decodeCounter_ e) (decodeCounter_ e + 1) ltac:(lia))
    as Hscan.
  unfold calls_between in Hscan.
  rewrite length_map, length_seqZ in Hscan.
  destruct (merge_scan _ _ _ _ _ _) as [[lo hi] lastMatch].
  simpl in Hscan.
  destruct (VERTEX_BUFFER_MAX C <? _); simpl; lia.
Qed.

(** The loop of [DecodeVerts] leaves no call undecoded: it ends because the
    cursor has reached [numDrawCalls], not because it ran out of steps. *)
Lemma DecodeVerts_loop_done C E (n : nat) :
  forall e,
    numDrawCalls e <= INT_MAX ->
    INT_MIN <= decodeCounter_ e ->
    numDrawCalls e - decodeCounter_ e <= Z.of_nat n ->
    numDrawCalls e <= decodeCounter_ (DecodeVerts_loop C E n e).
Proof.
  induction n as [ | n IH ]; intros e Hmax Hmin Hn; simpl.
  - lia.
  - destruct (Z.ltb_spec (decodeCounter_ e) (numDrawCalls e)) as [Hlt | Hge];
      [ | lia ].
    destruct (DecodeVertsStep_cursor C E e Hlt) as [Hc Hnum].
    assert (Hnum' : numDrawCalls (bump_counter (DecodeVertsStep C E e))
                    = numDrawCalls e) by (simpl; exact Hnum).
    assert (Hb : decodeCounter_ (bump_counter (DecodeVertsStep C E e))
                 = decodeCounter_ (DecodeVertsStep C E e) + 1).
    { simpl. apply s32_small. unfold INT_MIN, INT_MAX in *. lia. }
    specialize (IH (bump_counter (DecodeVertsStep C E e))).
    rewrite Hnum', Hb in IH. apply IH; lia.
Qed.

(** *** Flushing *)

Lemma Flush_fields C E (e : DrawEngine) :
  numDrawCalls (Flush C E e) = 0
  /\ (vertexCountInDrawCalls (Flush C E e) = 0
      \/ (numDrawCalls e = 0
          /\ vertexCountInDrawCalls (Flush C E e)
             = vertexCountInDrawCalls e))
  /\ dec_ (Flush C E e) = dec_ e
  /\ lastVType_ (Flush C E e) = lastVType_ e
  /\ decoderMap_ (Flush C E e) = decoderMap_ e
  /\ drawCalls (Flush C E e) = drawCalls e.
Proof.
  unfold Flush. destruct (Z.eqb_spec (numDrawCalls e) 0) as [Hz | Hnz].
  - repeat split; auto.
  - unfold DoFlush.
    destruct (DecodeVerts_shape C E e) as (dv & ig & log & c & Hs).
    destruct (UseHWTransform E); rewrite Hs; simpl; repeat split; auto.
Qed.

(** *** The vertex decoder *)

Lemma vertTypeID_not_minus_one (E : Env) (vt : Z) :
  env_ok E -> vertTypeID E vt <> u32 (-1).
Proof.
  unfold env_ok, vertTypeID, u32. intros Huv.
  change 16777215 with (Z.ones 24).
  rewrite Z.land_ones by lia.
  assert (Hdisj : Z.land (vt mod 2 ^ 24) (Z.shiftl (getUVGenMode E) 24) = 0).
  { apply Z.bits_inj'. intros n Hn. rewrite Z.land_spec, Z.bits_0.
    destruct (Z_lt_le_dec n 24) as [Hlow | Hhigh].
    - rewrite Z.shiftl_spec_low by lia. apply andb_false_r.
    - rewrite Z.mod_pow2_bits_high by lia. reflexivity. }
  rewrite <- (Z.add_nocarry_lor _ _ Hdisj).
  rewrite Z.shiftl_mul_pow2 by lia.
  pose proof (Z.mod_pos_bound vt (2 ^ 24) ltac:(lia)) as Hm.
  rewrite Z.mod_small by lia.
  change ((-1) mod 2 ^ 32) with 4294967295. lia.
Qed.

Lemma Setup_decoder E (e : DrawEngine) (vt : Z) :
  env_ok E -> decoder_wf e ->
  let e' := SetupVertexDecoderInternal E e vt in
  decoder_wf e'
  /\ (exists d, dec_ e' = Some d /\ dec_vtype d = vertTypeID E vt)
  /\ numDrawCalls e' = numDrawCalls e
  /\ vertexCountInDrawCalls e' = vertexCountInDrawCalls e
  /\ drawCalls e' = drawCalls e
  /\ prevPrim_ e' = prevPrim_ e.
Proof.
  intros Henv [Hmap Hdec]. unfold SetupVertexDecoderInternal.
  fold (vertTypeID E vt).
  destruct (Z.eqb_spec (vertTypeID E vt) (lastVType_ e)) as [Heq | Hne];
    simpl.
  - split; [ split; assumption | ].
    split; [ | auto ].
    destruct (dec_ e) as [d | ].
    + exists d. split; [ reflexivity | congruence ].
    + exfalso. apply (vertTypeID_not_minus_one E vt Henv). congruence.
  - unfold GetVertexDecoder.
    destruct (decoderMap_ e !! vertTypeID E vt) as [d | ] eqn:Hlook; simpl.
    + split; [ split; [ exact Hmap | simpl; eauto ] | ].
      split; [ eauto | auto ].
    + split.
      * split; simpl; [ | reflexivity ].
        intros k d Hk. apply lookup_insert_Some in Hk.
        destruct Hk as [[<- <-] | [_ Hk]]; [ reflexivity | eauto ].
      * split; [ eauto | auto ].
Qed.

(** *** The prologue of a submission *)

Lemma prologue_spec C E (e : DrawEngine) (s : Submission) :
  env_ok E -> decoder_wf e ->
  exists e1 d,
    submit_prologue C E e (sub_prim s) (sub_vertexCount s) (sub_vertType s)
      = (e1, effective_prim C E e s)
    /\ dec_ e1 = Some d
    /\ dec_vtype d = vertTypeID E (sub_vertType s)
    /\ decoder_wf e1
    /\ numDrawCalls e1 = numDrawCalls (after_flush_check C E e s)
    /\ vertexCountInDrawCalls e1
       = vertexCountInDrawCalls (after_flush_check C E e s)
    /\ drawCalls e1 = drawCalls e.
Proof.
  intros Henv Hwf. unfold submit_prologue, effective_prim.
  fold (after_flush_check C E e s).
  set (e0 := after_flush_check C E e s).
  assert (Hwf0 : decoder_wf e0 /\ drawCalls e0 = drawCalls e).
  { unfold e0, after_flush_check. destruct (must_flush _ _ _ _ _);
      [ | auto ].
    destruct (Flush_fields C E e) as (_ & _ & Hd & Hl & Hm & Hc).
    unfold decoder_wf. rewrite Hd, Hl, Hm. auto. }
  destruct Hwf0 as [Hwf0 Hcalls0].
  destruct (resolve_prim e0 (sub_prim s)) as [p prev] eqn:Hres.
  assert (Hwf1 : decoder_wf (with_prevPrim e0 prev)) by exact Hwf0.
  destruct (Setup_decoder E (with_prevPrim e0 prev) (sub_vertType s)
              Henv Hwf1) as (Hwf2 & (d & Hd & Hv) & Hn & Hvc & Hdc & _).
  exists (SetupVertexDecoderInternal E (with_prevPrim e0 prev)
            (sub_vertType s)), d.
  simpl. repeat split; try assumption; try apply Hwf2.
  rewrite Hdc. exact Hcalls0.
Qed.

(** *** A whole submission *)

Lemma below_design_minimum_rejected (p : GEPrimitiveType) (n : Z) :
  below_design_minimum p n -> below_minimum p n = true.
Proof.
  unfold below_minimum, prim_eqb.
  destruct p; simpl; intros Hn; try contradiction;
    repeat match goal with
           | |- context [?a <? ?b] => destruct (Z.ltb_spec a b); simpl
           end; try reflexivity; lia.
Qed.

Lemma SubmitPrim_unfold C E (e : DrawEngine) (s : Submission) e1 d :
  submit_prologue C E e (sub_prim s) (sub_vertexCount s) (sub_vertType s)
    = (e1, effective_prim C E e s) ->
  dec_ e1 = Some d ->
  Submit C E e s =
  Done (if below_minimum (effective_prim C E e s) (sub_vertexCount s)
        then e1
        else submit_epilogue C E
               (append_call C E e1 (sub_verts s) (sub_inds s)
                  (effective_prim C E e s) (sub_vertexCount s)
                  (sub_vertType s))
               (effective_prim C E e s) (sub_vertType s),
        s32 (sub_vertexCount s * VertexSizeOf E (dec_vtype d))).
Proof.
  intros Hpro Hdec. unfold Submit, SubmitPrim. rewrite Hpro, Hdec.
  destruct (below_minimum _ _); reflexivity.
Qed.

Lemma append_call_fields C E (e : DrawEngine) (v i : Z)
    (p : GEPrimitiveType) (n vt : Z) :
  let e' := append_call C E e v i p n vt in
  numDrawCalls e' = s32 (numDrawCalls e + 1)
  /\ vertexCountInDrawCalls e' = s32 (vertexCountInDrawCalls e + n)
  /\ dec_ e' = dec_ e
  /\ lastVType_ e' = lastVType_ e
  /\ decoderMap_ e' = decoderMap_ e.
Proof.
  unfold append_call.
  destruct (if negb (i =? 0) then _ else _) as [lo hi].
  simpl. auto.
Qed.

Lemma submit_epilogue_fields C E (e : DrawEngine) (p : GEPrimitiveType)
    (vt : Z) :
  let e' := submit_epilogue C E e p vt in
  dec_ e' = dec_ e
  /\ lastVType_ e' = lastVType_ e
  /\ decoderMap_ e' = decoderMap_ e
  /\ ((numDrawCalls e' = numDrawCalls e
       /\ vertexCountInDrawCalls e' = vertexCountInDrawCalls e)
      \/ (numDrawCalls e' = 0
          /\ (vertexCountInDrawCalls e' = 0 \/ numDrawCalls e = 0))).
Proof.
  unfold submit_epilogue.
  set (e1 := if bSoftwareSkinning E && _ then _ else e).
  assert (H1 : dec_ e1 = dec_ e /\ lastVType_ e1 = lastVType_ e
               /\ decoderMap_ e1 = decoderMap_ e
               /\ numDrawCalls e1 = numDrawCalls e
               /\ vertexCountInDrawCalls e1 = vertexCountInDrawCalls e).
  { unfold e1. destruct (bSoftwareSkinning E && _); [ | auto ].
    destruct (DecodeVertsStep_shape C E e) as (dv & ig & log & c & Hs).
    rewrite Hs. simpl. auto. }
  destruct H1 as (Hd & Hl & Hm & Hn & Hv).
  assert (Hsame : dec_ e1 = dec_ e /\ lastVType_ e1 = lastVType_ e
                  /\ decoderMap_ e1 = decoderMap_ e
                  /\ ((numDrawCalls e1 = numDrawCalls e
                       /\ vertexCountInDrawCalls e1
                          = vertexCountInDrawCalls e)
                      \/ (numDrawCalls e1 = 0
                          /\ (vertexCountInDrawCalls e1 = 0
                              \/ numDrawCalls e = 0))))
    by (repeat (split; [ assumption | ]); left; split; assumption).
  destruct (prim_eqb p GE_PRIM_RECTANGLES && _); [ | exact Hsame ].
  destruct (negb (bDisableSlowFramebufEffects E)); [ | exact Hsame ].
  destruct (Flush_fields C E
              (with_textureChanged e1
                 (Z.lor (textureChanged e1) (TEXCHANGE_PARAMSONLY C))))
    as (Fn & Fv & Fd & Fl & Fm & _).
  simpl in Fv, Fd, Fl, Fm.
  split; [ congruence | ]. split; [ congruence | ].
  split; [ congruence | ].
  right. split; [ exact Fn | ].
  destruct Fv as [Fv | [Fz _]]; [ auto | right; congruence ].
Qed.

(** The counters the flush check leaves make room for the submission. *)
Lemma after_flush_check_room C E (e : DrawEngine) (s : Submission) :
  constants_ok C -> batch_wf C e ->
  0 <= sub_vertexCount s <= VERTEX_BUFFER_MAX C ->
  let e0 := after_flush_check C E e s in
  0 <= numDrawCalls e0 < MAX_DEFERRED_DRAW_CALLS C
  /\ 0 <= vertexCountInDrawCalls e0
  /\ vertexCountInDrawCalls e0 + sub_vertexCount s <= VERTEX_BUFFER_MAX C
  /\ (numDrawCalls e0 = 0 -> vertexCountInDrawCalls e0 = 0).
Proof.
  intros [Hmax Hvbm] (Hn & Hv & Hz & _) Hs. unfold after_flush_check.
  destruct (must_flush C E e (sub_prim s) (sub_vertexCount s)) eqn:Hmf.
  - destruct (Flush_fields C E e) as (Fn & Fv & _).
    assert (vertexCountInDrawCalls (Flush C E e) = 0)
      by (destruct Fv as [Fv | [Fz Fv]]; [ exact Fv | rewrite Fv; auto ]).
    simpl. lia.
  - unfold must_flush in Hmf.
    apply orb_false_elim in Hmf. destruct Hmf as [Hmf Hcap].
    apply orb_false_elim in Hmf. destruct Hmf as [_ Hfull].
    apply Z.leb_gt in Hfull. apply Z.ltb_ge in Hcap.
    rewrite s32_small in Hcap by (unfold INT_MIN, INT_MAX; lia).
    simpl. repeat split; try lia; exact Hz.
Qed.

Lemma Submit_batch_wf C E (e : DrawEngine) (s : Submission) :
  constants_ok C -> env_ok E -> batch_wf C e ->
  0 <= sub_vertexCount s <= VERTEX_BUFFER_MAX C ->
  exists e' bytes, Submit C E e s = Done (e', bytes) /\ batch_wf C e'.
Proof.
  intros Hc Henv Hwf Hs.
  destruct (prologue_spec C E e s Henv (proj2 (proj2 (proj2 Hwf))))
    as (e1 & d & Hpro & Hdec & _ & Hwf1 & Hn1 & Hv1 & _).
  destruct (after_flush_check_room C E e s Hc Hwf Hs)
    as (Hn0 & Hv0 & Hroom & Hz0).
  rewrite (SubmitPrim_unfold C E e s e1 d Hpro Hdec).
  destruct Hc as [Hmax Hvbm].
  destruct (below_minimum _ _).
  - eexists _, _. split; [ reflexivity | ].
    unfold batch_wf. rewrite Hn1, Hv1.
    repeat split; try lia; try apply Hwf1; exact Hz0.
  - eexists _, _. split; [ reflexivity | ].
    set (e2 := append_call C E e1 (sub_verts s) (sub_inds s)
                 (effective_prim C E e s) (sub_vertexCount s)
                 (sub_vertType s)).
    destruct (append_call_fields C E e1 (sub_verts s) (sub_inds s)
                (effective_prim C E e s) (sub_vertexCount s)
                (sub_vertType s)) as (An & Av & Ad & Al & Am).
    fold e2 in An, Av, Ad, Al, Am.
    rewrite Hn1 in An. rewrite Hv1 in Av.
    rewrite s32_small in An by (unfold INT_MIN, INT_MAX; lia).
    rewrite s32_small in Av by (unfold INT_MIN, INT_MAX; lia).
    destruct (submit_epilogue_fields C E e2 (effective_prim C E e s)
                (sub_vertType s)) as (Ed & El & Em & Ec).
    unfold batch_wf, decoder_wf. rewrite Ed, El, Em, Ad, Al, Am.
    destruct Ec as [[En Ev] | [En Ev]].
    + rewrite En, Ev, An, Av. repeat split; try lia; apply Hwf1.
    + assert (vertexCountInDrawCalls
                (submit_epilogue C E e2 (effective_prim C E e s)
                   (sub_vertType s)) = 0)
        by (destruct Ev as [Ev | Ev]; [ exact Ev | lia ]).
      repeat split; try lia; apply Hwf1.
Qed.

Lemma initial_batch_wf C : constants_ok C -> batch_wf C (initial C).
Proof.
  intros [Hmax Hvbm]. unfold batch_wf, decoder_wf. simpl.
  repeat split; try lia.
  intros k d Hk. rewrite lookup_empty in Hk. discriminate Hk.
Qed.

Lemma SubmitAll_batch_wf C E (subs : list Submission) :
  constants_ok C -> env_ok E ->
  Forall (fun s => 0 <= sub_vertexCount s <= VERTEX_BUFFER_MAX C) subs ->
  forall e, batch_wf C e ->
  exists e', SubmitAll C E e subs = Done e' /\ batch_wf C e'.
Proof.
  intros Hc Henv Hall. induction Hall as [ | s subs Hs _ IH ]; intros e Hwf.
  - exists e. split; [ reflexivity | exact Hwf ].
  - destruct (Submit_batch_wf C E e s Hc Henv Hwf Hs)
      as (e1 & bytes & Hrun & Hwf1).
    destruct (IH e1 Hwf1) as (e2 & Hrun2 & Hwf2).
    exists e2. simpl. rewrite Hrun. simpl. auto.
Qed.

(** C3, as the code has it. Starting from the constructor's state, after
    every prefix of a sequence of submissions whose vertex counts lie
    between 0 and [VERTEX_BUFFER_MAX], the engine has returned and
    [numDrawCalls <= MAX_DEFERRED_DRAW_CALLS] and
    [vertexCountInDrawCalls <= VERTEX_BUFFER_MAX] hold. *)
Theorem capacity_invariant_holds C E (subs : list Submission) (n : nat) :
  constants_ok C -> env_ok E ->
  Forall (fun s => 0 <= sub_vertexCount s <= VERTEX_BUFFER_MAX C) subs ->
  exists e',
    SubmitAll C E (initial C) (take n subs) = Done e'
    /\ capacity_invariant C e'.
Proof.
  intros Hc Henv Hall.
  assert (Htake : Forall (fun s => 0 <= sub_vertexCount s
                                   <= VERTEX_BUFFER_MAX C) (take n subs)).
  { apply Forall_take. exact Hall. }
  destruct (SubmitAll_batch_wf C E (take n subs) Hc Henv Htake (initial C)
              (initial_batch_wf C Hc)) as (e' & Hrun & Hwf).
  exists e'. split; [ exact Hrun | ].
  unfold capacity_invariant. destruct Hwf as (Hn & Hv & _). lia.
Qed.

Lemma capacity_invariant_holds_witness :
  exists e',
    SubmitAll constants env (initial constants)
      (take 2 [submission 100 0 GE_PRIM_POINTS 65536 0;
               submission 100 0 GE_PRIM_POINTS 1 0;
               submission 100 0 GE_PRIM_POINTS 7 0]) = Done e'
    /\ capacity_invariant constants e'.
Proof.
  apply (capacity_invariant_holds constants env
           [submission 100 0 GE_PRIM_POINTS 65536 0;
            submission 100 0 GE_PRIM_POINTS 1 0;
            submission 100 0 GE_PRIM_POINTS 7 0] 2).
  - unfold constants_ok. simpl. lia.
  - unfold env_ok. simpl. lia.
  - repeat constructor; simpl; lia.
Defined.

(** C3, as the design document states it, fails: one submission of 65537
    points is accepted after the flush check and leaves
    [vertexCountInDrawCalls = 65537 > VERTEX_BUFFER_MAX]. *)
Lemma capacity_claim_fails : ~ capacity_claim constants env.
Proof.
  intros Hclaim.
  specialize (Hclaim [submission 100 0 GE_PRIM_POINTS 65537 0]
                (engine_after [submission 100 0 GE_PRIM_POINTS 65537 0])).
  assert (Hv : vertexCountInDrawCalls
                 (engine_after [submission 100 0 GE_PRIM_POINTS 65537 0])
               = 65537) by (vm_compute; reflexivity).
  destruct Hclaim as [_ Hcap].
  - repeat constructor; simpl; lia.
  - unfold engine_after.
    destruct (SubmitAll constants env (initial constants)
                [submission 100 0 GE_PRIM_POINTS 65537 0]) eqn:Hrun;
      [ reflexivity | | ]; vm_compute in Hrun; discriminate Hrun.
  - rewrite Hv in Hcap. simpl in Hcap. lia.
Qed.

Lemma submit_epilogue_not_rectangle C E (e : DrawEngine)
    (p : GEPrimitiveType) (vt : Z) :
  prim_eqb p GE_PRIM_RECTANGLES = false ->
  numDrawCalls (submit_epilogue C E e p vt) = numDrawCalls e
  /\ vertexCountInDrawCalls (submit_epilogue C E e p vt)
     = vertexCountInDrawCalls e.
Proof.
  intros Hp. unfold submit_epilogue. rewrite Hp. simpl.
  destruct (bSoftwareSkinning E && _); [ | auto ].
  destruct (DecodeVertsStep_shape C E e) as (dv & ig & log & c & Hs).
  rewrite Hs. simpl. auto.
Qed.

(** Whatever the two capacities are, the capacity claim of the design
    document fails at one submission of [VERTEX_BUFFER_MAX + 1] points. *)
Lemma capacity_claim_fails_for_all_constants C E :
  constants_ok C -> env_ok E -> ~ capacity_claim C E.
Proof.
  intros Hc Henv Hclaim.
  set (s := {| sub_verts := 0; sub_inds := 0; sub_prim := GE_PRIM_POINTS;
               sub_vertexCount := VERTEX_BUFFER_MAX C + 1;
               sub_vertType := 0 |}).
  pose proof (initial_batch_wf C Hc) as Hwf.
  destruct (prologue_spec C E (initial C) s Henv
              (proj2 (proj2 (proj2 Hwf))))
    as (e1 & d & Hpro & Hdec & _ & _ & Hn1 & Hv1 & _).
  assert (Hv0 : vertexCountInDrawCalls (after_flush_check C E (initial C) s)
                = 0).
  { unfold after_flush_check. destruct (must_flush _ _ _ _ _);
      reflexivity. }
  assert (Hp : effective_prim C E (initial C) s = GE_PRIM_POINTS)
    by reflexivity.
  pose proof (SubmitPrim_unfold C E (initial C) s e1 d Hpro Hdec) as Hrun.
  rewrite Hp in Hrun.
  assert (Hacc : below_minimum GE_PRIM_POINTS (sub_vertexCount s) = false).
  { unfold below_minimum. simpl. rewrite !andb_false_r. reflexivity. }
  rewrite Hacc in Hrun.
  set (e2 := submit_epilogue C E
               (append_call C E e1 (sub_verts s) (sub_inds s) GE_PRIM_POINTS
                  (sub_vertexCount s) (sub_vertType s))
               GE_PRIM_POINTS (sub_vertType s)) in Hrun.
  assert (Hv2 : vertexCountInDrawCalls e2 = VERTEX_BUFFER_MAX C + 1).
  { unfold e2.
    destruct (submit_epilogue_not_rectangle C E
                (append_call C E e1 (sub_verts s) (sub_inds s)
                   GE_PRIM_POINTS (sub_vertexCount s) (sub_vertType s))
                GE_PRIM_POINTS (sub_vertType s) eq_refl) as [_ Hv].
    rewrite Hv.
    destruct (append_call_fields C E e1 (sub_verts s) (sub_inds s)
                GE_PRIM_POINTS (sub_vertexCount s) (sub_vertType s))
      as (_ & Av & _).
    rewrite Av, Hv1, Hv0. destruct Hc as [_ Hvbm]. simpl.
    apply s32_small. unfold INT_MIN, INT_MAX. lia. }
  destruct (Hclaim [s] e2) as [_ Hcap].
  - constructor; [ | constructor ]. destruct Hc as [_ Hvbm]. simpl. lia.
  - simpl. rewrite Hrun. reflexivity.
  - lia.
Qed.

(** A submission keeps the decoder cache consistent. *)
Lemma Submit_decoder_wf C E (e : DrawEngine) (s : Submission) e' bytes :
  env_ok E -> decoder_wf e ->
  Submit C E e s = Done (e', bytes) -> decoder_wf e'.
Proof.
  intros Henv Hwf Hrun.
  destruct (prologue_spec C E e s Henv Hwf)
    as (e1 & d & Hpro & Hdec & _ & Hwf1 & _).
  rewrite (SubmitPrim_unfold C E e s e1 d Hpro Hdec) in Hrun.
  destruct (below_minimum _ _); inversion Hrun as [[He' Hb]];
    [ rewrite <- He'; exact Hwf1 | ].
  destruct (append_call_fields C E e1 (sub_verts s) (sub_inds s)
              (effective_prim C E e s) (sub_vertexCount s) (sub_vertType s))
    as (_ & _ & Ad & Al & Am).
  destruct (submit_epilogue_fields C E
              (append_call C E e1 (sub_verts s) (sub_inds s)
                 (effective_prim C E e s) (sub_vertexCount s)
                 (sub_vertType s))
              (effective_prim C E e s) (sub_vertType s))
    as (Ed & El & Em & _).
  unfold decoder_wf. rewrite Ed, El, Em, Ad, Al, Am. exact Hwf1.
Qed.

(** C10. Every submission that reaches a consistent decoder cache returns,
    and its [bytesRead] is the vertex count times the byte size the decoder
    of the effective vertex format reports, whether the submission is
    accepted or rejected (the product being an [int]). *)
Theorem bytesRead_is_count_times_vertex_size C E (e : DrawEngine)
    (s : Submission) :
  env_ok E -> decoder_wf e ->
  INT_MIN <= sub_vertexCount s
             * VertexSizeOf E (vertTypeID E (sub_vertType s)) <= INT_MAX ->
  exists e',
    Submit C E e s
    = Done (e', sub_vertexCount s
                * VertexSizeOf E (vertTypeID E (sub_vertType s)))
    /\ (below_minimum (effective_prim C E e s) (sub_vertexCount s) = true ->
        numDrawCalls e' = numDrawCalls (after_flush_check C E e s)
        /\ drawCalls e' = drawCalls e).
Proof.
  intros Henv Hwf Hfit.
  destruct (prologue_spec C E e s Henv Hwf)
    as (e1 & d & Hpro & Hdec & Hvt & _ & Hn1 & _ & Hc1).
  rewrite (SubmitPrim_unfold C E e s e1 d Hpro Hdec).
  rewrite Hvt, (s32_small _ Hfit).
  eexists. split; [ reflexivity | ].
  intros Hrej. rewrite Hrej. auto.
Qed.

Lemma bytesRead_is_count_times_vertex_size_witness :
  exists e',
    Submit constants env (initial constants)
      (submission 100 0 GE_PRIM_LINES 1 0) = Done (e', 12)
    /\ numDrawCalls e' = 0.
Proof.
  destruct (bytesRead_is_count_times_vertex_size constants env
              (initial constants) (submission 100 0 GE_PRIM_LINES 1 0))
    as (e' & Hrun & Hrej).
  - unfold env_ok. simpl. lia.
  - apply initial_batch_wf. unfold constants_ok. simpl. lia.
  - unfold INT_MIN, INT_MAX. simpl. lia.
  - exists e'. split; [ exact Hrun | ].
    destruct Hrej as [Hn _]; [ reflexivity | ].
    rewrite Hn. reflexivity.
Defined.

(** What a rejected submission leaves behind. *)
Lemma Submit_rejected C E (e : DrawEngine) (s : Submission) :
  env_ok E -> decoder_wf e ->
  below_design_minimum (effective_prim C E e s) (sub_vertexCount s) ->
  exists e' bytes,
    Submit C E e s = Done (e', bytes)
    /\ drawCalls e' = drawCalls e
    /\ numDrawCalls e' = numDrawCalls (after_flush_check C E e s)
    /\ vertexCountInDrawCalls e'
       = vertexCountInDrawCalls (after_flush_check C E e s).
Proof.
  intros Henv Hwf Hbelow.
  destruct (prologue_spec C E e s Henv Hwf)
    as (e1 & d & Hpro & Hdec & _ & _ & Hn1 & Hv1 & Hc1).
  rewrite (SubmitPrim_unfold C E e s e1 d Hpro Hdec).
  rewrite (below_design_minimum_rejected _ _ Hbelow).
  eexists _, _. split; [ reflexivity | auto ].
Qed.

(** The rejection test of line 142 is the minimum of the design document
    for every primitive kind a submission can be in effect with. *)
Lemma below_minimum_iff_design (p : GEPrimitiveType) (n : Z) :
  p <> GE_PRIM_KEEP_PREVIOUS ->
  (below_minimum p n = true <-> below_design_minimum p n).
Proof.
  intros Hp. split; [ | apply below_design_minimum_rejected ].
  unfold below_minimum, prim_eqb.
  destruct p; simpl; try congruence;
    repeat match goal with
           | |- context [?a <? ?b] => destruct (Z.ltb_spec a b); simpl
           end; intros Hb; try discriminate Hb; lia.
Qed.

(** The counters after lines 175-186. *)
Lemma submit_epilogue_counters C E (e : DrawEngine) (p : GEPrimitiveType)
    (vt : Z) :
  (samples_render_target E p = false ->
   numDrawCalls (submit_epilogue C E e p vt) = numDrawCalls e
   /\ vertexCountInDrawCalls (submit_epilogue C E e p vt)
      = vertexCountInDrawCalls e)
  /\ (samples_render_target E p = true ->
      numDrawCalls (submit_epilogue C E e p vt) = 0).
Proof.
  unfold submit_epilogue, samples_render_target.
  set (e1 := if bSoftwareSkinning E && _ then _ else e).
  assert (H1 : numDrawCalls e1 = numDrawCalls e
               /\ vertexCountInDrawCalls e1 = vertexCountInDrawCalls e).
  { unfold e1. destruct (bSoftwareSkinning E && _); [ | auto ].
    destruct (DecodeVertsStep_shape C E e) as (dv & ig & log & c & Hs).
    rewrite Hs. simpl. auto. }
  destruct (prim_eqb p GE_PRIM_RECTANGLES && _); simpl.
  - destruct (negb (bDisableSlowFramebufEffects E)); simpl.
    + split; [ discriminate | intros _ ].
      destruct (Flush_fields C E
                  (with_textureChanged e1
                     (Z.lor (textureChanged e1) (TEXCHANGE_PARAMSONLY C))))
        as (Fn & _).
      exact Fn.
    + split; [ intros _; exact H1 | discriminate ].
  - split; [ intros _; exact H1 | discriminate ].
Qed.

(** C9, as the code has it. Every submission returns. One below the
    minimum vertex count of its primitive kind (2 for the line kinds and for
    rectangles, 3 for triangles, strips and fans) appends no deferred call,
    and the counters are those the flush check of line 128 leaves: unchanged
    when the check does not flush, zero when it does. One that is not below
    its minimum, a rectangle of two vertices included, is appended: both
    counters grow, unless the rectangle samples the render target and is
    flushed at once. *)
Theorem rejected_submission_appends_nothing C E (e : DrawEngine)
    (s : Submission) :
  env_ok E -> batch_wf C e ->
  exists e' bytes,
    Submit C E e s = Done (e', bytes)
    /\ (below_design_minimum (effective_prim C E e s) (sub_vertexCount s) ->
        drawCalls e' = drawCalls e
        /\ (must_flush C E e (sub_prim s) (sub_vertexCount s) = false ->
            numDrawCalls e' = numDrawCalls e
            /\ vertexCountInDrawCalls e' = vertexCountInDrawCalls e)
        /\ (must_flush C E e (sub_prim s) (sub_vertexCount s) = true ->
            numDrawCalls e' = 0 /\ vertexCountInDrawCalls e' = 0))
    /\ (~ below_design_minimum (effective_prim C E e s) (sub_vertexCount s) ->
        effective_prim C E e s <> GE_PRIM_KEEP_PREVIOUS ->
        constants_ok C ->
        0 <= sub_vertexCount s <= VERTEX_BUFFER_MAX C ->
        (samples_render_target E (effective_prim C E e s) = false ->
         numDrawCalls e' = numDrawCalls (after_flush_check C E e s) + 1
         /\ vertexCountInDrawCalls e'
            = vertexCountInDrawCalls (after_flush_check C E e s)
              + sub_vertexCount s)
        /\ (samples_render_target E (effective_prim C E e s) = true ->
            numDrawCalls e' = 0)).
Proof.
  intros Henv Hwf.
  destruct (prologue_spec C E e s Henv (proj2 (proj2 (proj2 Hwf))))
    as (e1 & d & Hpro & Hdec & _ & _ & Hn1 & Hv1 & Hc1).
  pose proof (SubmitPrim_unfold C E e s e1 d Hpro Hdec) as Hrun.
  eexists _, _. split; [ exact Hrun | ]. split.
  - intros Hbelow.
    rewrite (below_design_minimum_rejected _ _ Hbelow).
    split; [ exact Hc1 | ].
    rewrite Hn1, Hv1. unfold after_flush_check.
    split; intros Hmf; rewrite Hmf.
    + auto.
    + destruct (Flush_fields C E e) as (Fn & Fv & _).
      split; [ exact Fn | ].
      destruct Fv as [Fv | [Fz Fv]]; [ exact Fv | ].
      destruct Hwf as (_ & _ & Hz & _). rewrite Fv. auto.
  - intros Hnot Hkeep Hc Hs.
    assert (Hacc : below_minimum (effective_prim C E e s)
                     (sub_vertexCount s) = false).
    { destruct (below_minimum (effective_prim C E e s)
                  (sub_vertexCount s)) eqn:Hb; [ | reflexivity ].
      exfalso. apply Hnot.
      apply (below_minimum_iff_design _ _ Hkeep). exact Hb. }
    rewrite Hacc.
    destruct (after_flush_check_room C E e s Hc Hwf Hs)
      as (Hn0 & Hv0 & Hroom & _).
    destruct Hc as [Hmax Hvbm].
    destruct (append_call_fields C E e1 (sub_verts s) (sub_inds s)
                (effective_prim C E e s) (sub_vertexCount s)
                (sub_vertType s)) as (An & Av & _).
    rewrite Hn1 in An. rewrite Hv1 in Av.
    rewrite s32_small in An by (unfold INT_MIN, INT_MAX; lia).
    rewrite s32_small in Av by (unfold INT_MIN, INT_MAX; lia).
    destruct (submit_epilogue_counters C E
                (append_call C E e1 (sub_verts s) (sub_inds s)
                   (effective_prim C E e s) (sub_vertexCount s)
                   (sub_vertType s))
                (effective_prim C E e s) (sub_vertType s)) as [Ekeep Eflush].
    split.
    + intros Hno. destruct (Ekeep Hno) as [En Ev].
      rewrite En, Ev, An, Av. auto.
    + exact Eflush.
Qed.

Lemma full_batch_wf : batch_wf constants full_batch.
Proof.
  assert (Hc : constants_ok constants) by (unfold constants_ok; simpl; lia).
  assert (Henv : env_ok env) by (unfold env_ok; simpl; lia).
  destruct (SubmitAll_batch_wf constants env
              [submission 100 0 GE_PRIM_POINTS 65536 0] Hc Henv
              ltac:(repeat constructor; simpl; lia)
              (initial constants) (initial_batch_wf constants Hc))
    as (e' & Hrun & Hwf).
  unfold full_batch, engine_after. rewrite Hrun. exact Hwf.
Qed.

Lemma rejected_submission_appends_nothing_witness :
  (exists e' bytes,
     Submit constants env full_batch (submission 100 0 GE_PRIM_LINES 1 0)
       = Done (e', bytes)
     /\ drawCalls e' = drawCalls full_batch
     /\ numDrawCalls e' = 0 /\ vertexCountInDrawCalls e' = 0)
  /\ (exists e' bytes,
        Submit constants env (initial constants)
          (submission 100 0 GE_PRIM_RECTANGLES 2 0) = Done (e', bytes)
        /\ numDrawCalls e' = 1 /\ vertexCountInDrawCalls e' = 2).
Proof.
  split.
  - destruct (rejected_submission_appends_nothing constants env full_batch
                (submission 100 0 GE_PRIM_LINES 1 0))
      as (e' & bytes & Hrun & Hrej & _).
    + unfold env_ok. simpl. lia.
    + exact full_batch_wf.
    + exists e', bytes. split; [ exact Hrun | ].
      destruct Hrej as (Hcalls & _ & Hflush).
      * assert (Hp : effective_prim constants env full_batch
                       (submission 100 0 GE_PRIM_LINES 1 0) = GE_PRIM_LINES)
          by (vm_compute; reflexivity).
        rewrite Hp. simpl. lia.
      * split; [ exact Hcalls | ].
        apply Hflush. vm_compute. reflexivity.
  - destruct (rejected_submission_appends_nothing constants env
                (initial constants)
                (submission 100 0 GE_PRIM_RECTANGLES 2 0))
      as (e' & bytes & Hrun & _ & Hacc).
    + unfold env_ok. simpl. lia.
    + apply initial_batch_wf. unfold constants_ok. simpl. lia.
    + exists e', bytes. split; [ exact Hrun | ].
      assert (Hp : effective_prim constants env (initial constants)
                     (submission 100 0 GE_PRIM_RECTANGLES 2 0)
                   = GE_PRIM_RECTANGLES) by (vm_compute; reflexivity).
      destruct Hacc as [Hgrow _].
      * rewrite Hp. simpl. lia.
      * rewrite Hp. discriminate.
      * unfold constants_ok. simpl. lia.
      * simpl. lia.
      * destruct Hgrow as [Hn Hv]; [ rewrite Hp; vm_compute; reflexivity | ].
        split; [ rewrite Hn | rewrite Hv ]; vm_compute; reflexivity.
Defined.

(** C9, as the design document states it, fails: a batch that holds
    [VERTEX_BUFFER_MAX] vertices in one call is flushed by the flush check
    before the one-vertex line is rejected, so [numDrawCalls] goes from 1
    to 0. *)
Lemma rejection_claim_fails : ~ rejection_claim constants env.
Proof.
  intros Hclaim.
  assert (Henv : env_ok env) by (unfold env_ok; simpl; lia).
  assert (Hp : effective_prim constants env full_batch
                 (submission 100 0 GE_PRIM_LINES 1 0) = GE_PRIM_LINES)
    by (vm_compute; reflexivity).
  assert (Hbelow : below_design_minimum
                     (effective_prim constants env full_batch
                        (submission 100 0 GE_PRIM_LINES 1 0))
                     (sub_vertexCount (submission 100 0 GE_PRIM_LINES 1 0)))
    by (rewrite Hp; simpl; lia).
  destruct (Submit_rejected constants env full_batch
              (submission 100 0 GE_PRIM_LINES 1 0) Henv
              (proj2 (proj2 (proj2 full_batch_wf))) Hbelow)
    as (e' & bytes & Hrun & _ & Hn & _).
  destruct (Hclaim full_batch (submission 100 0 GE_PRIM_LINES 1 0) e' bytes
              full_batch_wf Hbelow Hrun) as [Hsame _].
  rewrite Hn in Hsame. vm_compute in Hsame. discriminate Hsame.
Qed.

(** *** The indexed path of [DecodeVertsStep] *)

(** C7, as the code has it. In the indexed path, a merged range that would
    take the decoded vertex count past [VERTEX_BUFFER_MAX] is dropped: the
    step returns with no decoder call, the decoded vertex count and the
    cursor unchanged. Hence an indexed step never takes the decoded vertex
    count from at most [VERTEX_BUFFER_MAX] to above it. *)
Theorem overflowing_range_is_dropped C E (e : DrawEngine) :
  indexType (call_at e (decodeCounter_ e)) <> idx_none C ->
  INT_MIN <= decodedVerts_ e + merged_vertex_count e <= INT_MAX ->
  (VERTEX_BUFFER_MAX C < decodedVerts_ e + merged_vertex_count e ->
   decodedVerts_ (DecodeVertsStep C E e) = decodedVerts_ e
   /\ decodeLog (DecodeVertsStep C E e) = decodeLog e
   /\ decodeCounter_ (DecodeVertsStep C E e) = decodeCounter_ e)
  /\ (decodedVerts_ e <= VERTEX_BUFFER_MAX C ->
      decodedVerts_ (DecodeVertsStep C E e) <= VERTEX_BUFFER_MAX C).
Proof.
  intros Hidx Hint. unfold DecodeVertsStep, merged_vertex_count in *.
  apply Z.eqb_neq in Hidx. unfold idx_none in Hidx. rewrite Hidx.
  destruct (merge_scan _ _ _ _ _ _) as [[lo hi] lastMatch].
  rewrite (s32_small _ Hint).
  destruct (Z.ltb_spec (VERTEX_BUFFER_MAX C)
              (decodedVerts_ e + (hi - lo + 1))) as [Hover | Hfit]; simpl.
  - auto.
  - split; [ lia | intros _; exact Hfit ].
Qed.

Lemma overflowing_range_is_dropped_witness :
  decodedVerts_ (DecodeVertsStep constants env bogus_index_range) = 1
  /\ decodeLog (DecodeVertsStep constants env bogus_index_range)
     = decodeLog bogus_index_range
  /\ decodeCounter_ (DecodeVertsStep constants env bogus_index_range) = 1.
Proof.
  destruct (overflowing_range_is_dropped constants env bogus_index_range)
    as [Hdrop _].
  - vm_compute. discriminate.
  - vm_compute. split; discriminate.
  - destruct Hdrop as (Hv & Hl & Hc).
    + vm_compute. reflexivity.
    + split; [ rewrite Hv; vm_compute; reflexivity | ].
      split; [ exact Hl | rewrite Hc; vm_compute; reflexivity ].
Defined.

(** C7, as the design document states it, fails: the decoded vertex count
    does exceed [VERTEX_BUFFER_MAX]. An indexed call of two points whose
    indices are 0 and 65535 fills the decoded-vertex buffer, and ten
    non-indexed points, whose path has no guard, take the count to
    65546. *)
Lemma decoded_count_claim_fails : ~ decoded_count_claim constants env.
Proof.
  intros Hclaim.
  assert (Hv : decodedVerts_ (DecodeVerts constants env mixed_batch) = 65546)
    by (vm_compute; reflexivity).
  assert (Hle : decodedVerts_ (DecodeVerts constants env mixed_batch)
                <= VERTEX_BUFFER_MAX constants).
  { apply (Hclaim [submission 1000 2030 GE_PRIM_POINTS 2 4096;
                   submission 100 0 GE_PRIM_POINTS 10 0]).
    - repeat constructor; simpl; lia.
    - unfold mixed_batch, engine_after.
      destruct (SubmitAll constants env (initial constants)
                  [submission 1000 2030 GE_PRIM_POINTS 2 4096;
                   submission 100 0 GE_PRIM_POINTS 10 0]) eqn:Hrun;
        [ reflexivity | | ]; vm_compute in Hrun; discriminate Hrun. }
  rewrite Hv in Hle. simpl in Hle. lia.
Qed.

(** The non-indexed path has no such guard: after an indexed call whose
    range fills the buffer, ten non-indexed points take the decoded vertex
    count to 65546. *)
Remark non_indexed_path_is_unguarded :
  vertexCountInDrawCalls mixed_batch = 12
  /\ decodedVerts_ (DecodeVerts constants env mixed_batch) = 65546.
Proof. split; vm_compute; reflexivity. Qed.

(** *** Index bounds *)

Lemma read_indices_range (m : Z -> Z) (width ptr n : Z) :
  Forall (fun r => 0 <= r < 65536) (read_indices m width ptr n).
Proof.
  unfold read_indices. apply Forall_map. apply Forall_forall. intros k _.
  simpl. unfold u8.
  destruct (width =? 1).
  - pose proof (Z.mod_pos_bound (m (ptr + k)) (2 ^ 8) ltac:(lia)). lia.
  - pose proof (Z.mod_pos_bound (m (ptr + 2 * k)) (2 ^ 8) ltac:(lia)) as Hlo.
    pose proof (Z.mod_pos_bound (m (ptr + 2 * k + 1)) (2 ^ 8) ltac:(lia))
      as Hhi.
    assert (Hdisj : Z.land (m (ptr + 2 * k) mod 2 ^ 8)
                      (Z.shiftl (m (ptr + 2 * k + 1) mod 2 ^ 8) 8) = 0).
    { apply Z.bits_inj'. intros i Hi. rewrite Z.land_spec, Z.bits_0.
      destruct (Z_lt_le_dec i 8) as [Hlow | Hhigh].
      - rewrite Z.shiftl_spec_low by lia. apply andb_false_r.
      - rewrite Z.mod_pow2_bits_high by lia. reflexivity. }
    rewrite <- (Z.add_nocarry_lor _ _ Hdisj).
    rewrite Z.shiftl_mul_pow2 by lia. lia.
Qed.

Lemma fold_right_min_bound (l : list Z) :
  Forall (fun r => 0 <= r < 65536) l ->
  0 <= fold_right Z.min 65535 l < 65536
  /\ Forall (fun r => fold_right Z.min 65535 l <= r) l.
Proof.
  induction 1 as [ | r l Hr _ IH ]; simpl.
  - split; [ lia | constructor ].
  - destruct IH as [Hb Hall]. split; [ lia | ].
    constructor; [ lia | ].
    eapply Forall_impl; [ | exact Hall ]. simpl. intros; lia.
Qed.

Lemma fold_right_max_bound (l : list Z) :
  Forall (fun r => 0 <= r < 65536) l ->
  0 <= fold_right Z.max 0 l < 65536
  /\ Forall (fun r => r <= fold_right Z.max 0 l) l.
Proof.
  induction 1 as [ | r l Hr _ IH ]; simpl.
  - split; [ lia | constructor ].
  - destruct IH as [Hb Hall]. split; [ lia | ].
    constructor; [ lia | ].
    eapply Forall_impl; [ | exact Hall ]. simpl. intros; lia.
Qed.

(** The bounds an accepted indexed call is given enclose its indices, read
    at the index width of its vertex type. *)
Lemma append_call_bounds_enclose C E (e : DrawEngine) (v i : Z)
    (p : GEPrimitiveType) (n vt : Z) :
  i <> 0 ->
  (Z.to_nat (numDrawCalls e) < length (drawCalls e))%nat ->
  bounds_enclose E (index_width C vt)
    (call_at (append_call C E e v i p n vt) (numDrawCalls e)).
Proof.
  intros Hi Hlen. unfold append_call.
  apply Z.eqb_neq in Hi. rewrite Hi. simpl negb. cbv iota.
  unfold GetIndexBounds, call_at. simpl drawCalls.
  rewrite list_lookup_insert_eq by exact Hlen. simpl.
  unfold bounds_enclose. simpl.
  pose proof (read_indices_range (hostmem E) (index_width C vt) i n) as Hr.
  destruct (fold_right_min_bound _ Hr) as [Hlo Hlos].
  destruct (fold_right_max_bound _ Hr) as [Hhi Hhis].
  rewrite !u16_small by lia.
  rewrite Forall_forall in Hlos, Hhis. apply Forall_forall.
  intros r Hin. split; [ apply Hlos | apply Hhis ]; exact Hin.
Qed.













(** The index type must be 8-bit or 16-bit: for a call whose vertex type
    has both index bits set, the switch of lines 237-248 has no case, so
    no index is translated, yet the range is decoded and the count
    advanced. *)
Remark both_index_bits_translate_nothing :
  indexType (call_at both_index_bits 0) = 3
  /\ idx_none constants = 0 /\ idx_8bit constants = 1
  /\ idx_16bit constants = 2
  /\ decodedVerts_ (DecodeVertsStep constants env both_index_bits) = 1798
  /\ ig_inds (indexGen (DecodeVertsStep constants env both_index_bits)) = [].
Proof. repeat split; vm_compute; reflexivity. Qed.

(** The indices of the whole run are read at the index width of its first
    call, and the bounds of a call enclose its indices at the call's own
    width only: behind a 16-bit call over the same vertex buffer, the 8-bit
    indices 5, 7, 6 are read as 1797, 6, 0, and 1797 is none of the eight
    decoded vertices. *)
Remark mixed_width_run_leaves_the_range :
  maximal_run mixed_width_run 1
  /\ indexed_with_width constants mixed_width_run 2
  /\ bounds_enclose env 1 (call_at mixed_width_run 1)
  /\ decodedVerts_ (DecodeVertsStep constants env mixed_width_run) = 8
  /\ ig_inds (indexGen (DecodeVertsStep constants env mixed_width_run))
     = [0; 0; 0; 1797; 6; 0].
Proof.
  split; [ | split; [ | split; [ | split ] ] ].
  - unfold maximal_run. vm_compute.
    split; [ split; discriminate | ].
    split; [ reflexivity | ].
    split; [ repeat constructor | left; reflexivity ].
  - unfold indexed_with_width. vm_compute.
    split; [ discriminate | right ].
    split; [ reflexivity | ]. split; [ reflexivity | discriminate ].
  - unfold bounds_enclose. vm_compute. repeat constructor; discriminate.
  - vm_compute. reflexivity.
  - vm_compute. reflexivity.
Qed.

End BatchProofs.

(** ** Further properties of the rasterizer *)

Module RasterizerMoreProofs.

Import Rasterizer Design Examples RasterizerMore.

(** *** Memory *)

Lemma u8_u8 (v : Z) : u8 (u8 v) = u8 v.
Proof. unfold u8. apply Z.mod_mod. lia. Qed.

Lemma load8_store8 (m : Memory) (a v a' : Z) :
  load8 (store8 m a v) a' = if a' =? a then u8 v else load8 m a'.
Proof.
  unfold load8, store8. destruct (a' =? a); [ apply u8_u8 | reflexivity ].
Qed.

Lemma split_halves (v k : Z) :
  0 < k ->
  Z.lor (v mod 2 ^ k) (Z.shiftl (Z.shiftr v k mod 2 ^ k) k)
  = v mod 2 ^ (2 * k).
Proof.
  intros Hk. apply Z.bits_inj'. intros n Hn.
  rewrite Z.lor_spec.
  destruct (Z_lt_le_dec n k) as [Hlow | Hhigh].
  - rewrite Z.shiftl_spec_low by lia.
    rewrite !Z.mod_pow2_bits_low by lia. apply orb_false_r.
  - rewrite (Z.mod_pow2_bits_high v k n) by lia.
    rewrite Z.shiftl_spec by lia. simpl.
    destruct (Z_lt_le_dec n (2 * k)) as [Hmid | Htop].
    + rewrite !Z.mod_pow2_bits_low by lia.
      rewrite Z.shiftr_spec by lia. f_equal. lia.
    + rewrite !Z.mod_pow2_bits_high by lia. reflexivity.
Qed.

Lemma load16_store16 (m : Memory) (a v : Z) :
  load16 (store16 m a v) a = u16 v.
Proof.
  unfold load16, store16. rewrite !load8_store8.
  rewrite Z.eqb_refl.
  replace (a =? a + 1) with false by (symmetry; apply Z.eqb_neq; lia).
  rewrite Z.eqb_refl. unfold u8, u16.
  apply (split_halves v 8). lia.
Qed.

Lemma load8_store16_other (m : Memory) (a v a' : Z) :
  a' <> a -> a' <> a + 1 ->
  load8 (store16 m a v) a' = load8 m a'.
Proof.
  intros H0 H1. unfold store16. rewrite !load8_store8.
  apply Z.eqb_neq in H0. apply Z.eqb_neq in H1. rewrite H0, H1.
  reflexivity.
Qed.

Lemma load8_store32_other (m : Memory) (a v a' : Z) :
  a' < a \/ a + 3 < a' ->
  load8 (store32 m a v) a' = load8 m a'.
Proof.
  intros Hout. unfold store32.
  rewrite (load8_store16_other _ (a + 2) _ a') by lia.
  apply load8_store16_other; lia.
Qed.

Lemma load32_store32 (m : Memory) (a v : Z) :
  load32 (store32 m a v) a = u32 v.
Proof.
  unfold load32, store32.
  rewrite load16_store16.
  assert (Hlow : load16 (store16 (store16 m a v) (a + 2) (Z.shiftr v 16)) a
                 = u16 v).
  { unfold load16.
    rewrite (load8_store16_other _ (a + 2) _ a) by lia.
    rewrite (load8_store16_other _ (a + 2) _ (a + 1)) by lia.
    apply load16_store16. }
  rewrite Hlow. unfold u16, u32. apply (split_halves v 16). lia.
Qed.

(** X1. A pixel reads back what was stored in it: [GetPixelColor] after
    [SetPixelColor] at the same position gives the value as a 32-bit word,
    [GetPixelDepth] after [SetPixelDepth] gives it as a 16-bit word. *)
Theorem pixel_round_trip H gs (x y v : Z) (st : RState) :
  GetPixelColor H gs (SetPixelColor H gs x y v st) x y = u32 v
  /\ GetPixelDepth H gs (SetPixelDepth H gs x y v st) x y = u16 v.
Proof.
  unfold GetPixelColor, SetPixelColor, GetPixelDepth, SetPixelDepth. simpl.
  split; [ apply load32_store32 | apply load16_store16 ].
Qed.

Lemma load32_store32_other (m : Memory) (a v a' : Z) :
  a' + 3 < a \/ a + 3 < a' ->
  load32 (store32 m a v) a' = load32 m a'.
Proof.
  intros Hout. unfold load32, load16.
  rewrite (load8_store32_other m a v a') by lia.
  rewrite (load8_store32_other m a v (a' + 1)) by lia.
  rewrite (load8_store32_other m a v (a' + 2)) by lia.
  rewrite (load8_store32_other m a v (a' + 2 + 1)) by lia.
  reflexivity.
Qed.

Lemma load16_store16_other (m : Memory) (a v a' : Z) :
  a' + 1 < a \/ a + 1 < a' ->
  load16 (store16 m a v) a' = load16 m a'.
Proof.
  intros Hout. unfold load16.
  rewrite (load8_store16_other m a v a') by lia.
  rewrite (load8_store16_other m a v (a' + 1)) by lia.
  reflexivity.
Qed.

Lemma row_major_injective (s x y x' y' : Z) :
  0 <= x < s -> 0 <= x' < s ->
  x <> x' \/ y <> y' ->
  x + y * s <> x' + y' * s.
Proof.
  intros Hx Hx' Hne Heq.
  assert (Hy : y = y') by nia.
  subst y'. assert (x = x') by lia. lia.
Qed.

(** X2. In a row-major buffer whose stride exceeds the x coordinates used,
    a store to one pixel leaves every other pixel as it was, in the
    framebuffer and in the depth buffer. The coordinates are not negative
    and the offsets of both pixels are [int]s, as the code computes
    them. *)
Theorem distinct_pixels_do_not_interfere H gs (x y x' y' v : Z)
    (st : RState) :
  x <> x' \/ y <> y' ->
  offsets_fit gs x y -> offsets_fit gs x' y' ->
  (x < FrameBufStride gs -> x' < FrameBufStride gs ->
   GetPixelColor H gs (SetPixelColor H gs x y v st) x' y'
   = GetPixelColor H gs st x' y')
  /\ (x < DepthBufStride gs -> x' < DepthBufStride gs ->
      GetPixelDepth H gs (SetPixelDepth H gs x y v st) x' y'
      = GetPixelDepth H gs st x' y').
Proof.
  intros Hne (Hx0 & Hy0 & _) (Hx0' & Hy0' & _). split; intros Hx Hx'.
  - unfold GetPixelColor, SetPixelColor. simpl.
    apply load32_store32_other.
    pose proof (row_major_injective (FrameBufStride gs) x y x' y'
                  ltac:(lia) ltac:(lia) Hne).
    lia.
  - unfold GetPixelDepth, SetPixelDepth. simpl.
    apply load16_store16_other.
    pose proof (row_major_injective (DepthBufStride gs) x y x' y'
                  ltac:(lia) ltac:(lia) Hne).
    lia.
Qed.

Lemma distinct_pixels_do_not_interfere_witness :
  GetPixelColor host (gstate_with 3 false false false false GE_COMP_ALWAYS)
    (SetPixelColor host
       (gstate_with 3 false false false false GE_COMP_ALWAYS) 511 0 7
       (state_with 0 0)) 0 1
  = GetPixelColor host (gstate_with 3 false false false false GE_COMP_ALWAYS)
      (state_with 0 0) 0 1.
Proof.
  apply (distinct_pixels_do_not_interfere host
           (gstate_with 3 false false false false GE_COMP_ALWAYS)
           511 0 0 1 7 (state_with 0 0)).
  - left. lia.
  - unfold offsets_fit, INT_MAX. simpl. lia.
  - unfold offsets_fit, INT_MAX. simpl. lia.
  - simpl. lia.
  - simpl. lia.
Defined.


(** *** Texture formats *)

Lemma load8_range (m : Memory) (a : Z) : 0 <= load8 m a < 256.
Proof.
  unfold load8, u8. change (2 ^ 8) with 256. apply Z.mod_pos_bound. lia.
Qed.

Lemma lor_concat (hi lo k : Z) :
  0 <= k -> 0 <= lo < 2 ^ k ->
  Z.lor (hi * 2 ^ k) lo = hi * 2 ^ k + lo.
Proof.
  intros Hk Hlo. rewrite <- Z.shiftl_mul_pow2 by lia.
  symmetry. apply Z.add_nocarry_lor.
  apply Z.bits_inj'. intros n Hn. rewrite Z.land_spec, Z.bits_0.
  destruct (Z_lt_le_dec n k) as [Hlow | Hhigh].
  - rewrite Z.shiftl_spec_low by lia. reflexivity.
  - rewrite <- (Z.mod_small lo (2 ^ k)) by lia.
    rewrite Z.mod_pow2_bits_high by lia. apply andb_false_r.
Qed.

Lemma pack_rgba_sum (r g b a : Z) :
  0 <= r < 256 -> 0 <= g < 256 -> 0 <= b < 256 -> 0 <= a < 256 ->
  pack_rgba r g b a = r * 2 ^ 24 + g * 2 ^ 16 + b * 2 ^ 8 + a.
Proof.
  intros Hr Hg Hb Ha. unfold pack_rgba.
  rewrite !Z.shiftl_mul_pow2 by lia.
  rewrite (lor_concat r (g * 2 ^ 16) 24) by lia.
  replace (r * 2 ^ 24 + g * 2 ^ 16) with ((r * 2 ^ 8 + g) * 2 ^ 16) by ring.
  rewrite (lor_concat (r * 2 ^ 8 + g) (b * 2 ^ 8) 16) by lia.
  replace ((r * 2 ^ 8 + g) * 2 ^ 16 + b * 2 ^ 8)
    with ((r * 2 ^ 16 + g * 2 ^ 8 + b) * 2 ^ 8) by ring.
  rewrite (lor_concat (r * 2 ^ 16 + g * 2 ^ 8 + b) a 8) by lia.
  unfold u32. rewrite Z.mod_small by lia. ring.
Qed.

(** X3. [SampleNearest] returns a value exactly for the four formats it
    has a branch for; for any other value of the low four bits of the
    format register control reaches the end of the function without a
    [return]. *)
Theorem SampleNearest_defined_iff_supported K H gs m level s t :
  (exists c, SampleNearest K H gs m level s t = Done c)
  <-> format_supported K gs.
Proof.
  split.
  - unfold format_supported, SampleNearest. cbv zeta. intros [c Hc].
    destruct (Z.eqb_spec (Z.land (texformat gs) 15) (GE_TFMT_4444 K));
      [ tauto | ].
    destruct (Z.eqb_spec (Z.land (texformat gs) 15) (GE_TFMT_5551 K));
      [ tauto | ].
    destruct (Z.eqb_spec (Z.land (texformat gs) 15) (GE_TFMT_5650 K));
      [ tauto | ].
    destruct (Z.eqb_spec (Z.land (texformat gs) 15) (GE_TFMT_8888 K));
      [ tauto | ].
    discriminate Hc.
  - apply RasterizerProofs.SampleNearest_supported.
Qed.

(** X4. An 8-8-8-8 texel is returned with its first byte in memory (red)
    in the top eight bits and its fourth byte (alpha) in the low eight
    bits: the bytes at the texel address are read as a big-endian word. *)
Theorem SampleNearest_8888_is_big_endian K H gs m level s t :
  selects_8888 K gs ->
  SampleNearest K H gs m level s t
  = Done (load8 m (texel_address H gs level s t 4) * 2 ^ 24
          + load8 m (texel_address H gs level s t 4 + 1) * 2 ^ 16
          + load8 m (texel_address H gs level s t 4 + 2) * 2 ^ 8
          + load8 m (texel_address H gs level s t 4 + 3)).
Proof.
  intros (H1 & H2 & H3 & H4). unfold SampleNearest, texel_address. cbv zeta.
  apply Z.eqb_neq in H1. apply Z.eqb_neq in H2. apply Z.eqb_neq in H3.
  rewrite H1, H2, H3. apply Z.eqb_eq in H4. rewrite H4.
  f_equal. apply pack_rgba_sum; apply load8_range.
Qed.

Lemma SampleNearest_8888_is_big_endian_witness :
  SampleNearest ge_constants host
    (gstate_with 3 false false false false GE_COMP_ALWAYS)
    (memory_with 18 52) 0 F32.zero F32.zero
  = Done (18 * 2 ^ 24 + 52 * 2 ^ 16).
Proof.
  rewrite (SampleNearest_8888_is_big_endian ge_constants host
             (gstate_with 3 false false false false GE_COMP_ALWAYS)
             (memory_with 18 52) 0 F32.zero F32.zero).
  - vm_compute. reflexivity.
  - unfold selects_8888. repeat split; vm_compute; congruence.
Defined.

Lemma nibble_replicate (n : Z) :
  0 <= n < 16 -> u8 (Z.lor (Z.shiftl n 4) n) = 17 * n.
Proof.
  intros Hn. rewrite Z.shiftl_mul_pow2 by lia.
  rewrite (lor_concat n n 4) by lia.
  unfold u8. rewrite Z.mod_small; lia.
Qed.

Lemma high_nibble (b : Z) : 0 <= b < 256 -> u8 (Z.shiftr b 4) = b / 16.
Proof.
  intros Hb. rewrite Z.shiftr_div_pow2 by lia. change (2 ^ 4) with 16.
  unfold u8. apply Z.mod_small.
  pose proof (Z.div_pos b 16 ltac:(lia) ltac:(lia)).
  assert (b / 16 < 16) by (apply Z.div_lt_upper_bound; lia). lia.
Qed.

Lemma low_nibble (b : Z) : 0 <= b < 256 -> u8 (Z.land b 15) = b mod 16.
Proof.
  intros Hb. change 15 with (Z.ones 4). rewrite Z.land_ones by lia.
  change (2 ^ 4) with 16. unfold u8. apply Z.mod_small.
  pose proof (Z.mod_pos_bound b 16 ltac:(lia)). lia.
Qed.

(** X5. A 4-4-4-4 texel: each four-bit channel [n] is widened to the byte
    [17 * n] (0 stays 0, 15 becomes 255); red and green are the high and
    low nibble of the first byte, blue and alpha those of the second. *)
Theorem SampleNearest_4444_widens_nibbles K H gs m level s t :
  selects_4444 K gs ->
  SampleNearest K H gs m level s t
  = Done (17 * (load8 m (texel_address H gs level s t 2) / 16) * 2 ^ 24
          + 17 * (load8 m (texel_address H gs level s t 2) mod 16) * 2 ^ 16
          + 17 * (load8 m (texel_address H gs level s t 2 + 1) / 16) * 2 ^ 8
          + 17 * (load8 m (texel_address H gs level s t 2 + 1) mod 16)).
Proof.
  intros H1. unfold selects_4444 in H1.
  unfold SampleNearest, texel_address. cbv zeta.
  apply Z.eqb_eq in H1. rewrite H1.
  set (p := GetPointer H _ + _).
  pose proof (load8_range m p) as Hb0.
  pose proof (load8_range m (p + 1)) as Hb1.
  rewrite !high_nibble, !low_nibble by assumption.
  assert (Hd0 : 0 <= load8 m p / 16 < 16)
    by (split; [ apply Z.div_pos; lia | apply Z.div_lt_upper_bound; lia ]).
  assert (Hd1 : 0 <= load8 m (p + 1) / 16 < 16)
    by (split; [ apply Z.div_pos; lia | apply Z.div_lt_upper_bound; lia ]).
  pose proof (Z.mod_pos_bound (load8 m p) 16 ltac:(lia)) as Hm0.
  pose proof (Z.mod_pos_bound (load8 m (p + 1)) 16 ltac:(lia)) as Hm1.
  rewrite !nibble_replicate by assumption.
  f_equal. apply pack_rgba_sum; lia.
Qed.

Lemma SampleNearest_4444_widens_nibbles_witness :
  SampleNearest ge_constants host
    (gstate_with 2 false false false false GE_COMP_ALWAYS)
    (memory_with 31 240) 0 F32.zero F32.zero
  = Done (17 * 2 ^ 24 + 255 * 2 ^ 16 + 255 * 2 ^ 8).
Proof.
  rewrite (SampleNearest_4444_widens_nibbles ge_constants host
             (gstate_with 2 false false false false GE_COMP_ALWAYS)
             (memory_with 31 240) 0 F32.zero F32.zero).
  - vm_compute. reflexivity.
  - unfold selects_4444. simpl. reflexivity.
Defined.

Lemma pack_rgba_alpha (r g b a : Z) :
  0 <= a < 256 -> pack_rgba (u8 r) (u8 g) (u8 b) a mod 256 = a.
Proof.
  intros Ha.
  assert (Hu : forall z, 0 <= u8 z < 256)
    by (intros z; unfold u8; change (2 ^ 8) with 256;
        apply Z.mod_pos_bound; lia).
  rewrite pack_rgba_sum by (try apply Hu; exact Ha).
  replace (u8 r * 2 ^ 24 + u8 g * 2 ^ 16 + u8 b * 2 ^ 8 + a)
    with (a + (u8 r * 2 ^ 16 + u8 g * 2 ^ 8 + u8 b) * 256) by ring.
  rewrite Z.mod_add by lia. apply Z.mod_small. exact Ha.
Qed.

(** X6. A 5-6-5 texel: the sample is opaque (low byte 255), and it is a
    function of the first byte of the texel and of the low three bits of
    the second byte only. The five bits of the second byte that hold the
    blue field do not reach the result. *)
Theorem SampleNearest_5650_ignores_blue_field K H gs m m' level s t :
  selects_5650 K gs ->
  load8 m (texel_address H gs level s t 2)
  = load8 m' (texel_address H gs level s t 2) ->
  Z.land (load8 m (texel_address H gs level s t 2 + 1)) 7
  = Z.land (load8 m' (texel_address H gs level s t 2 + 1)) 7 ->
  SampleNearest K H gs m level s t = SampleNearest K H gs m' level s t
  /\ exists c, SampleNearest K H gs m level s t = Done c /\ c mod 256 = 255.
Proof.
  intros (H1 & H2 & H3). unfold SampleNearest, texel_address. cbv zeta.
  apply Z.eqb_neq in H1. apply Z.eqb_neq in H2. apply Z.eqb_eq in H3.
  rewrite H1, H2, H3. intros Hb0 Hb1. rewrite Hb0, Hb1.
  split; [ reflexivity | ].
  eexists. split; [ reflexivity | ]. apply pack_rgba_alpha. lia.
Qed.

Lemma SampleNearest_5650_ignores_blue_field_witness :
  SampleNearest ge_constants host
    (gstate_with 0 false false false false GE_COMP_ALWAYS)
    (memory_with 0 0) 0 F32.zero F32.zero
  = SampleNearest ge_constants host
      (gstate_with 0 false false false false GE_COMP_ALWAYS)
      (memory_with 0 248) 0 F32.zero F32.zero.
Proof.
  apply (SampleNearest_5650_ignores_blue_field ge_constants host
           (gstate_with 0 false false false false GE_COMP_ALWAYS)
           (memory_with 0 0) (memory_with 0 248) 0 F32.zero F32.zero).
  - unfold selects_5650. repeat split; vm_compute; congruence.
  - vm_compute. reflexivity.
  - vm_compute. reflexivity.
Defined.

(** X7. A 5-5-5-1 texel: the low byte of the sample is 255 when the top
    bit of the second byte is set and 0 otherwise, and the sample is a
    function of the first byte, of the low two bits of the second byte and
    of its top bit only. The five bits in between, which hold the blue
    field, do not reach the result. *)
Theorem SampleNearest_5551_ignores_blue_field K H gs m m' level s t :
  selects_5551 K gs ->
  load8 m (texel_address H gs level s t 2)
  = load8 m' (texel_address H gs level s t 2) ->
  Z.land (load8 m (texel_address H gs level s t 2 + 1)) 3
  = Z.land (load8 m' (texel_address H gs level s t 2 + 1)) 3 ->
  Z.shiftr (load8 m (texel_address H gs level s t 2 + 1)) 7
  = Z.shiftr (load8 m' (texel_address H gs level s t 2 + 1)) 7 ->
  SampleNearest K H gs m level s t = SampleNearest K H gs m' level s t
  /\ exists c, SampleNearest K H gs m level s t = Done c
       /\ c mod 256
          = if 128 <=? load8 m (texel_address H gs level s t 2 + 1)
            then 255 else 0.
Proof.
  intros (H1 & H2). unfold SampleNearest, texel_address. cbv zeta.
  apply Z.eqb_neq in H1. apply Z.eqb_eq in H2.
  rewrite H1, H2. intros Hb0 Hb1 Hb7. rewrite Hb0, Hb1, Hb7.
  split; [ reflexivity | ].
  eexists. split; [ reflexivity | ].
  set (p := GetPointer H _ + _) in *.
  pose proof (load8_range m (p + 1)) as Hr.
  rewrite <- Hb7.
  assert (Htop : u8 (Z.shiftr (load8 m (p + 1)) 7)
                 = if 128 <=? load8 m (p + 1) then 1 else 0).
  { rewrite Z.shiftr_div_pow2 by lia. change (2 ^ 7) with 128.
    destruct (Z.leb_spec 128 (load8 m (p + 1))) as [Hge | Hlt].
    - assert (load8 m (p + 1) / 128 = 1)
        by (symmetry; apply (Z.div_unique _ _ 1 (load8 m (p + 1) - 128)); lia).
      rewrite H0. reflexivity.
    - rewrite Z.div_small by lia. reflexivity. }
  rewrite Htop.
  destruct (128 <=? load8 m (p + 1)); simpl Z.eqb; cbv iota;
    apply pack_rgba_alpha; lia.
Qed.

Lemma SampleNearest_5551_ignores_blue_field_witness :
  SampleNearest ge_constants host
    (gstate_with 1 false false false false GE_COMP_ALWAYS)
    (memory_with 0 0) 0 F32.zero F32.zero
  = SampleNearest ge_constants host
      (gstate_with 1 false false false false GE_COMP_ALWAYS)
      (memory_with 0 124) 0 F32.zero F32.zero.
Proof.
  apply (SampleNearest_5551_ignores_blue_field ge_constants host
           (gstate_with 1 false false false false GE_COMP_ALWAYS)
           (memory_with 0 0) (memory_with 0 124) 0 F32.zero F32.zero).
  - unfold selects_5551. repeat split; vm_compute; congruence.
  - vm_compute. reflexivity.
  - vm_compute. reflexivity.
  - vm_compute. reflexivity.
Defined.


(** *** The base colour *)

(** X8. Under flat shading the base colour has the red channel of the
    last vertex in its low byte and alpha in its top byte, the reverse of
    the byte order in which [SampleNearest] returns a texel. *)
Theorem flat_base_color_has_red_in_low_byte K gs vd0 vd1 vd2 a b c d :
  Z.land (shademodel gs) 1 <> GE_SHADE_GOURAUD K ->
  0 <= color0_r vd2 < 256 -> 0 <= color0_g vd2 < 256 ->
  0 <= color0_b vd2 < 256 -> 0 <= color0_a vd2 < 256 ->
  base_color K gs vd0 vd1 vd2 a b c d
  = color0_r vd2 + color0_g vd2 * 2 ^ 8 + color0_b vd2 * 2 ^ 16
    + color0_a vd2 * 2 ^ 24.
Proof.
  intros Hflat Hr Hg Hb Ha. unfold base_color.
  apply Z.eqb_neq in Hflat. rewrite Hflat.
  rewrite !Z.shiftl_mul_pow2 by lia.
  rewrite (Z.lor_comm (color0_r vd2)).
  rewrite (lor_concat (color0_g vd2) (color0_r vd2) 8) by lia.
  rewrite (Z.lor_comm _ (color0_b vd2 * 2 ^ 16)).
  rewrite (lor_concat (color0_b vd2) _ 16) by lia.
  rewrite (Z.lor_comm _ (color0_a vd2 * 2 ^ 24)).
  rewrite (lor_concat (color0_a vd2) _ 24) by lia.
  unfold u32. rewrite Z.mod_small by lia. ring.
Qed.

Lemma flat_base_color_has_red_in_low_byte_witness :
  base_color ge_constants
    (gstate_with 3 false false false false GE_COMP_ALWAYS)
    (vertex 0 0 0 1) (vertex 10 0 0 2) (vertex 0 10 0 255) 0 0 0 F32.zero
  = 255.
Proof.
  rewrite (flat_base_color_has_red_in_low_byte ge_constants
             (gstate_with 3 false false false false GE_COMP_ALWAYS)
             (vertex 0 0 0 1) (vertex 10 0 0 2) (vertex 0 10 0 255)
             0 0 0 F32.zero).
  - reflexivity.
  - vm_compute. discriminate.
  - simpl. lia.
  - simpl. lia.
  - simpl. lia.
  - simpl. lia.
Defined.

(** *** The weights of a pixel *)

Lemma edge_sum (v0 v1 v2 : DrawingCoords) (x y : Z) :
  edge v1 v2 x y + edge v2 v0 x y + edge v0 v1 x y
  = edge v0 v1 (dc_x v2) (dc_y v2).
Proof. unfold edge. ring. Qed.

Lemma orientation_exact (v0 v1 v2 : DrawingCoords) :
  coords_in_range v0 -> coords_in_range v1 -> coords_in_range v2 ->
  orient2d v0 v1 v2 = edge v0 v1 (dc_x v2) (dc_y v2).
Proof.
  intros H0 H1 H2.
  exact (RasterizerProofs.orient2d_exact v0 v1 (dc_x v2) (dc_y v2)
           H0 H1 (proj1 H2) (proj2 H2)).
Qed.

(** X9. The three weights that [DrawTriangle] computes at a pixel add up
    to the orientation of the triangle, [orient2d] of its three vertices:
    the sum is the same at every pixel. Coordinates are below 2^15, where
    the 32-bit products do not overflow. *)
Theorem weights_sum_to_orientation (vd0 vd1 vd2 : VertexData) (x y : Z) :
  coords_in_range (drawpos vd0) -> coords_in_range (drawpos vd1) ->
  coords_in_range (drawpos vd2) ->
  0 <= x < 32768 -> 0 <= y < 32768 ->
  w0 vd0 vd1 vd2 x y + w1 vd0 vd1 vd2 x y + w2 vd0 vd1 vd2 x y
  = orient2d (drawpos vd0) (drawpos vd1) (drawpos vd2).
Proof.
  intros H0 H1 H2 Hx Hy. unfold w0, w1, w2.
  rewrite !RasterizerProofs.orient2d_exact by assumption.
  rewrite orientation_exact by assumption. apply edge_sum.
Qed.

Lemma weights_sum_to_orientation_witness :
  w0 (vertex 0 0 0 0) (vertex 10 0 0 0) (vertex 0 10 0 0) 3 4
  + w1 (vertex 0 0 0 0) (vertex 10 0 0 0) (vertex 0 10 0 0) 3 4
  + w2 (vertex 0 0 0 0) (vertex 10 0 0 0) (vertex 0 10 0 0) 3 4
  = 100.
Proof.
  rewrite (weights_sum_to_orientation (vertex 0 0 0 0) (vertex 10 0 0 0)
             (vertex 0 10 0 0) 3 4).
  - vm_compute. reflexivity.
  - unfold coords_in_range. simpl. lia.
  - unfold coords_in_range. simpl. lia.
  - unfold coords_in_range. simpl. lia.
  - lia.
  - lia.
Defined.

(** *** The loops *)

Lemma for_each_total {St : Type} (body : Z -> St -> outcome St) :
  (forall i s, exists s', body i s = Done s') ->
  forall (l : list Z) (s : St), exists s', for_each body l s = Done s'.
Proof.
  intros Hbody. induction l as [ | i l IH ]; intros s; simpl.
  - eauto.
  - destruct (Hbody i s) as [s1 Hs1]. rewrite Hs1. simpl. apply IH.
Qed.

Lemma for_each_preserves {St : Type} (P : St -> Prop)
    (body : Z -> St -> outcome St) (l : list Z) :
  (forall i s s', In i l -> P s -> body i s = Done s' -> P s') ->
  forall s s', P s -> for_each body l s = Done s' -> P s'.
Proof.
  induction l as [ | i l IH ]; intros Hbody s s' Hs Hrun; simpl in Hrun.
  - inversion Hrun. subst. exact Hs.
  - destruct (body i s) as [ s1 | | ] eqn:Hb; simpl in Hrun;
      try discriminate Hrun.
    apply (IH (fun j t t' Hj => Hbody j t t' (or_intror Hj)) s1 s');
      [ | exact Hrun ].
    apply (Hbody i s s1); [ left; reflexivity | exact Hs | exact Hb ].
Qed.

Lemma for_each_unchanged {St : Type} (body : Z -> St -> outcome St)
    (l : list Z) :
  (forall i s, In i l -> body i s = Done s) ->
  forall s, for_each body l s = Done s.
Proof.
  induction l as [ | i l IH ]; intros Hbody s; simpl.
  - reflexivity.
  - rewrite (Hbody i s) by (left; reflexivity). simpl.
    apply IH. intros j t Hj. apply Hbody. right. exact Hj.
Qed.

Lemma for_u16_runs_forever {St : Type} (body : Z -> St -> outcome St) :
  (forall i s, body i s <> Undef) ->
  forall (fuel : nat) (i hi : Z) (s : St),
    0 <= i < 65536 -> 65535 <= hi ->
    for_u16 fuel i hi body s = Timeout.
Proof.
  intros Hbody. induction fuel as [ | fuel IH ]; intros i hi s Hi Hhi;
    simpl; [ reflexivity | ].
  destruct (Z.leb_spec i hi) as [ _ | Hgt ]; [ | lia ].
  destruct (body i s) as [ s1 | | ] eqn:Hb; simpl.
  - apply IH; [ | exact Hhi ].
    unfold u16. change (2 ^ 16) with 65536. apply Z.mod_pos_bound. lia.
  - exfalso. exact (Hbody i s Hb).
  - reflexivity.
Qed.

Lemma for_u16_not_undef {St : Type} (body : Z -> St -> outcome St) :
  (forall i s, body i s <> Undef) ->
  forall (fuel : nat) (i hi : Z) (s : St),
    for_u16 fuel i hi body s <> Undef.
Proof.
  intros Hbody. induction fuel as [ | fuel IH ]; intros i hi s; simpl;
    [ discriminate | ].
  destruct (i <=? hi); [ | discriminate ].
  destruct (body i s) as [ s1 | | ] eqn:Hb; simpl.
  - apply IH.
  - exfalso. exact (Hbody i s Hb).
  - discriminate.
Qed.

(** *** One pixel *)

Lemma depth_then_color_app (e1 e2 : list Event) :
  depth_then_color e1 -> depth_then_color e2 -> depth_then_color (e1 ++ e2).
Proof.
  intros H1 H2. induction H1; simpl.
  - exact H2.
  - constructor. exact IHdepth_then_color.
  - constructor. exact IHdepth_then_color.
Qed.

Lemma depth_stage_effect H gs vd0 vd1 vd2 x y a b c d st st1 :
  depth_stage H gs vd0 vd1 vd2 x y a b c d st = Some st1 ->
  st1 = st \/ exists z, st1 = SetPixelDepth H gs x y z st.
Proof.
  unfold depth_stage.
  destruct (isDepthTestEnabled gs && negb (isModeThrough gs)
            || isModeClear gs).
  - destruct (negb (DepthTestPassed _ _ _ _ _ _)); [ discriminate | ].
    destruct (isDepthWriteEnabled gs || _); intros Heq; inversion Heq.
    + right. eexists. reflexivity.
    + left. reflexivity.
  - intros Heq. inversion Heq. left. reflexivity.
Qed.

Lemma color_stage_effect K H gs vd0 vd1 vd2 x y a b c d st st' :
  color_stage K H gs vd0 vd1 vd2 x y a b c d st = Done st' ->
  exists v, st' = SetPixelColor H gs x y v st.
Proof.
  unfold color_stage.
  destruct (isTextureMapEnabled gs && negb (isModeClear gs)).
  - destruct (SampleNearest _ _ _ _ _ _ _) as [ smp | | ]; simpl;
      intros Heq; inversion Heq. eauto.
  - simpl. intros Heq. inversion Heq. eauto.
Qed.

Lemma color_stage_returns K H gs vd0 vd1 vd2 x y a b c d st :
  texture_defined K gs ->
  exists st', color_stage K H gs vd0 vd1 vd2 x y a b c d st = Done st'.
Proof.
  intros Htex. unfold color_stage.
  destruct (isTextureMapEnabled gs && negb (isModeClear gs)) eqn:Hon.
  - apply andb_true_iff in Hon. destruct Hon as [Hen Hcl].
    apply negb_true_iff in Hcl.
    destruct Htex as [Hoff | [Hclear | Hfmt]]; [ congruence | congruence | ].
    match goal with
    | |- context [SampleNearest K H gs ?m ?l ?s ?t] =>
        destruct (RasterizerProofs.SampleNearest_supported K H gs m l s t Hfmt)
          as [smp Hsmp]; rewrite Hsmp
    end.
    simpl. eauto.
  - simpl. eauto.
Qed.

Lemma DrawPixel_returns K H gs vd0 vd1 vd2 x y st :
  texture_defined K gs ->
  exists st', DrawPixel K H gs vd0 vd1 vd2 x y st = Done st'.
Proof.
  intros Htex. rewrite RasterizerProofs.DrawPixel_unfold.
  destruct (pixel_after_depth H gs vd0 vd1 vd2 x y st) as [ st1 | ].
  - apply color_stage_returns. exact Htex.
  - eauto.
Qed.

Lemma DrawPixel_effect K H gs vd0 vd1 vd2 x y st st' :
  DrawPixel K H gs vd0 vd1 vd2 x y st = Done st' ->
  exists evs,
    trace st' = trace st ++ evs
    /\ mem st' = replay H gs evs (mem st)
    /\ pixel_stores x y evs
    /\ (evs <> [] -> pixel_covered vd0 vd1 vd2 x y = true).
Proof.
  rewrite RasterizerProofs.DrawPixel_unfold. unfold pixel_after_depth.
  destruct (pixel_covered vd0 vd1 vd2 x y) eqn:Hcov.
  - destruct (depth_stage _ _ _ _ _ _ _ _ _ _ _ _) as [ st1 | ] eqn:Hd.
    + intros Hc. apply color_stage_effect in Hc. destruct Hc as [v ->].
      apply depth_stage_effect in Hd. destruct Hd as [-> | [z ->]].
      * exists [WriteColor x y v]. simpl.
        split; [ reflexivity | ]. split; [ reflexivity | ].
        split; [ right; left; eauto | reflexivity ].
      * exists [WriteDepth x y z; WriteColor x y v]. simpl.
        split; [ rewrite <- app_assoc; reflexivity | ].
        split; [ reflexivity | ].
        split; [ right; right; eauto | reflexivity ].
    + intros Heq. inversion Heq. subst st'. exists [].
      split; [ symmetry; apply app_nil_r | ]. split; [ reflexivity | ].
      split; [ left; reflexivity | congruence ].
  - intros Heq. inversion Heq. subst st'. exists [].
    split; [ symmetry; apply app_nil_r | ]. split; [ reflexivity | ].
    split; [ left; reflexivity | congruence ].
Qed.

Lemma drawn_since_refl H gs Q (st : RState) : drawn_since H gs Q st st.
Proof.
  exists []. split; [ symmetry; apply app_nil_r | ].
  split; [ reflexivity | ]. split; constructor.
Qed.

Lemma DrawPixel_drawn_since K H gs vd0 vd1 vd2 (st0 : RState) x y st st' :
  minX gs vd0 vd1 vd2 <= x <= maxX gs vd0 vd1 vd2 ->
  minY gs vd0 vd1 vd2 <= y <= maxY gs vd0 vd1 vd2 ->
  drawn_since H gs (store_in_loop gs vd0 vd1 vd2) st0 st ->
  DrawPixel K H gs vd0 vd1 vd2 x y st = Done st' ->
  drawn_since H gs (store_in_loop gs vd0 vd1 vd2) st0 st'.
Proof.
  intros Hx Hy (evs & Htr & Hmem & Hall & Hdtc) Hrun.
  apply DrawPixel_effect in Hrun.
  destruct Hrun as (evs' & Htr' & Hmem' & Hshape & Hcov).
  exists (evs ++ evs').
  split; [ rewrite Htr', Htr; symmetry; apply app_assoc | ].
  split; [ rewrite Hmem', Hmem; symmetry; apply RasterizerProofs.replay_app | ].
  assert (Hin : store_in_loop gs vd0 vd1 vd2 (WriteColor x y 0)
                \/ evs' = []).
  { destruct evs' as [ | ev evs'' ]; [ right; reflexivity | left ].
    simpl. split; [ exact Hx | ]. split; [ exact Hy | ].
    apply Hcov. discriminate. }
  split.
  - apply Forall_app. split; [ exact Hall | ].
    destruct Hshape as [-> | [[c ->] | (z & c & ->)]].
    + constructor.
    + destruct Hin as [Hin | Hnil]; [ | discriminate Hnil ].
      constructor; [ exact Hin | constructor ].
    + destruct Hin as [Hin | Hnil]; [ | discriminate Hnil ].
      constructor; [ exact Hin | ].
      constructor; [ exact Hin | constructor ].
  - apply depth_then_color_app; [ exact Hdtc | ].
    destruct Hshape as [-> | [[c ->] | (z & c & ->)]]; repeat constructor.
Qed.


(** *** The two loops *)

Lemma for_each_ext {St : Type} (body body' : Z -> St -> outcome St)
    (l : list Z) :
  (forall i s, body i s = body' i s) ->
  forall s, for_each body l s = for_each body' l s.
Proof.
  intros Hext. induction l as [ | i l IH ]; intros s; simpl.
  - reflexivity.
  - rewrite Hext. destruct (body' i s); simpl; auto.
Qed.

Lemma loop_bounds gs vd0 vd1 vd2 :
  coords_in_range (drawpos vd0) -> coords_in_range (drawpos vd1) ->
  coords_in_range (drawpos vd2) ->
  getScissorX1 gs < 65536 -> getScissorY1 gs < 65536 ->
  0 <= minX gs vd0 vd1 vd2 < 65536 /\ 0 <= minY gs vd0 vd1 vd2 < 65536
  /\ maxX gs vd0 vd1 vd2 < 32768 /\ maxY gs vd0 vd1 vd2 < 32768.
Proof.
  unfold coords_in_range, minX, minY, maxX, maxY. lia.
Qed.

Lemma DrawTriangle_as_for_each K H (fuel : nat) gs vd0 vd1 vd2 st :
  coords_in_range (drawpos vd0) -> coords_in_range (drawpos vd1) ->
  coords_in_range (drawpos vd2) ->
  getScissorX1 gs < 65536 -> getScissorY1 gs < 65536 ->
  32768 < Z.of_nat fuel ->
  DrawTriangle K H fuel gs vd0 vd1 vd2 st
  = for_each
      (fun y s =>
         for_each (fun x s' => DrawPixel K H gs vd0 vd1 vd2 x y s')
           (seqZ (minX gs vd0 vd1 vd2)
                 (maxX gs vd0 vd1 vd2 + 1 - minX gs vd0 vd1 vd2)) s)
      (seqZ (minY gs vd0 vd1 vd2)
            (maxY gs vd0 vd1 vd2 + 1 - minY gs vd0 vd1 vd2)) st.
Proof.
  intros H0 H1 H2 Hsx Hsy Hfuel.
  destruct (loop_bounds gs vd0 vd1 vd2 H0 H1 H2 Hsx Hsy)
    as (Hx1 & Hy1 & Hx2 & Hy2).
  unfold DrawTriangle.
  rewrite (u16_small (minX gs vd0 vd1 vd2)) by assumption.
  rewrite (u16_small (minY gs vd0 vd1 vd2)) by assumption.
  rewrite RasterizerProofs.for_u16_no_wrap by lia.
  apply for_each_ext. intros y s.
  apply RasterizerProofs.for_u16_no_wrap; lia.
Qed.

Lemma store_in_loop_region gs vd0 vd1 vd2 (ev : Event) :
  coords_in_range (drawpos vd0) -> coords_in_range (drawpos vd1) ->
  coords_in_range (drawpos vd2) ->
  getScissorX1 gs < 65536 -> getScissorY1 gs < 65536 ->
  store_in_loop gs vd0 vd1 vd2 ev -> store_in_region gs vd0 vd1 vd2 ev.
Proof.
  intros H0 H1 H2 Hsx Hsy.
  destruct (loop_bounds gs vd0 vd1 vd2 H0 H1 H2 Hsx Hsy)
    as (Hx1 & Hy1 & Hx2 & Hy2).
  assert (Hgen : forall x y,
            minX gs vd0 vd1 vd2 <= x <= maxX gs vd0 vd1 vd2
            /\ minY gs vd0 vd1 vd2 <= y <= maxY gs vd0 vd1 vd2
            /\ pixel_covered vd0 vd1 vd2 x y = true ->
            in_bounding_box (drawpos vd0) (drawpos vd1) (drawpos vd2) x y
            /\ in_scissor gs x y
            /\ covered (drawpos vd0) (drawpos vd1) (drawpos vd2) x y).
  { intros x y (Hx & Hy & Hcov).
    apply RasterizerProofs.pixel_covered_exact in Hcov;
      try assumption; try lia.
    unfold in_bounding_box, in_scissor.
    unfold minX, maxX in Hx. unfold minY, maxY in Hy.
    split; [ lia | ]. split; [ lia | exact Hcov ]. }
  destruct ev as [ x y v | x y v ]; simpl; apply Hgen.
Qed.

Lemma DrawTriangle_drawn K H (fuel : nat) gs vd0 vd1 vd2 st :
  texture_defined K gs ->
  coords_in_range (drawpos vd0) -> coords_in_range (drawpos vd1) ->
  coords_in_range (drawpos vd2) ->
  getScissorX1 gs < 65536 -> getScissorY1 gs < 65536 ->
  32768 < Z.of_nat fuel ->
  exists st' evs,
    DrawTriangle K H fuel gs vd0 vd1 vd2 st = Done st'
    /\ trace st' = trace st ++ evs
    /\ mem st' = replay H gs evs (mem st)
    /\ Forall (store_in_region gs vd0 vd1 vd2) evs
    /\ depth_then_color evs.
Proof.
  intros Htex H0 H1 H2 Hsx Hsy Hfuel.
  rewrite DrawTriangle_as_for_each by assumption.
  match goal with
  | |- exists st' evs, for_each ?body ?ys st = Done st' /\ _ =>
      destruct (for_each_total body
                  ltac:(intros y s; apply for_each_total; intros x s';
                        apply DrawPixel_returns; exact Htex) ys st)
        as [st' Hrun];
      assert (Hinv : drawn_since H gs (store_in_loop gs vd0 vd1 vd2) st st')
  end.
  { refine (for_each_preserves
              (drawn_since H gs (store_in_loop gs vd0 vd1 vd2) st)
              _ _ _ st st' (drawn_since_refl H gs _ st) Hrun).
    intros y s s1 Hy Hs Hrow.
    apply list_elem_of_In, elem_of_seqZ in Hy.
    refine (for_each_preserves
              (drawn_since H gs (store_in_loop gs vd0 vd1 vd2) st)
              _ _ _ s s1 Hs Hrow).
    intros x t t1 Hx Ht Hpix.
    apply list_elem_of_In, elem_of_seqZ in Hx.
    apply (DrawPixel_drawn_since K H gs vd0 vd1 vd2 st x y t t1);
      [ lia | lia | exact Ht | exact Hpix ]. }
  destruct Hinv as (evs & Htr & Hmem & Hall & Hdtc).
  exists st', evs. split; [ exact Hrun | ]. split; [ exact Htr | ].
  split; [ exact Hmem | ]. split; [ | exact Hdtc ].
  eapply Forall_impl; [ | exact Hall ].
  intros ev. apply store_in_loop_region; assumption.
Qed.

(** X10. In every mode (depth test on or off, clear mode, textured or
    not) [DrawTriangle] returns, and every store it makes, to the depth
    buffer as well as to the framebuffer, is at a pixel inside the bounding
    box and the scissor rectangle where the three edge functions are
    non-negative. A depth store is always directly followed by the colour
    store of the same pixel. The texture unit is off, or the mode is clear
    mode, or the texture format is one that [SampleNearest] handles. *)
Theorem DrawTriangle_stores_inside_triangle K H (fuel : nat) gs
    vd0 vd1 vd2 st :
  texture_defined K gs ->
  coords_in_range (drawpos vd0) -> coords_in_range (drawpos vd1) ->
  coords_in_range (drawpos vd2) ->
  getScissorX1 gs < 65536 -> getScissorY1 gs < 65536 ->
  32768 < Z.of_nat fuel ->
  exists st' evs,
    DrawTriangle K H fuel gs vd0 vd1 vd2 st = Done st'
    /\ trace st' = trace st ++ evs
    /\ Forall (store_in_region gs vd0 vd1 vd2) evs
    /\ depth_then_color evs.
Proof.
  intros Htex H0 H1 H2 Hsx Hsy Hfuel.
  destruct (DrawTriangle_drawn K H fuel gs vd0 vd1 vd2 st
              Htex H0 H1 H2 Hsx Hsy Hfuel)
    as (st' & evs & Hrun & Htr & _ & Hall & Hdtc).
  exists st', evs. auto.
Qed.

Lemma DrawTriangle_stores_inside_triangle_witness :
  exists st' evs,
    DrawTriangle ge_constants host (Z.to_nat 32769)
      (gstate_with 3 true false true true GE_COMP_LEQUAL)
      (vertex 0 0 0 255) (vertex 10 0 0 255) (vertex 0 10 0 255)
      (state_with 0 0) = Done st'
    /\ trace st' = evs
    /\ Forall (store_in_region
                 (gstate_with 3 true false true true GE_COMP_LEQUAL)
                 (vertex 0 0 0 255) (vertex 10 0 0 255) (vertex 0 10 0 255))
              evs
    /\ depth_then_color evs.
Proof.
  destruct (DrawTriangle_stores_inside_triangle ge_constants host
              (Z.to_nat 32769)
              (gstate_with 3 true false true true GE_COMP_LEQUAL)
              (vertex 0 0 0 255) (vertex 10 0 0 255) (vertex 0 10 0 255)
              (state_with 0 0))
    as (st' & evs & Hrun & Htr & Hall & Hdtc).
  - right. right. unfold format_supported. simpl. tauto.
  - unfold coords_in_range. simpl. lia.
  - unfold coords_in_range. simpl. lia.
  - unfold coords_in_range. simpl. lia.
  - simpl. lia.
  - simpl. lia.
  - lia.
  - exists st', evs. split; [ exact Hrun | ]. split; [ exact Htr | ].
    split; [ exact Hall | exact Hdtc ].
Defined.

Lemma store8_other (m : Memory) (a v a' : Z) :
  a' <> a -> store8 m a v a' = m a'.
Proof.
  intros Hne. unfold store8. apply Z.eqb_neq in Hne. rewrite Hne.
  reflexivity.
Qed.

Lemma store16_other (m : Memory) (a v a' : Z) :
  a' < a \/ a + 1 < a' -> store16 m a v a' = m a'.
Proof.
  intros Hout. unfold store16. rewrite !store8_other by lia. reflexivity.
Qed.

Lemma store32_other (m : Memory) (a v a' : Z) :
  a' < a \/ a + 3 < a' -> store32 m a v a' = m a'.
Proof.
  intros Hout. unfold store32. rewrite !store16_other by lia. reflexivity.
Qed.

Lemma replay_frame H gs vd0 vd1 vd2 (a : Z) :
  ~ in_drawn_bytes H gs vd0 vd1 vd2 a ->
  forall (evs : list Event) (m : Memory),
    Forall (store_in_region gs vd0 vd1 vd2) evs ->
    replay H gs evs m a = m a.
Proof.
  intros Hout. induction evs as [ | ev evs IH ]; intros m Hall.
  - reflexivity.
  - inversion Hall as [ | ev' evs' Hev Hrest ]; subst.
    change (replay H gs (ev :: evs) m)
      with (replay H gs evs (event_store H gs ev m)).
    rewrite IH by exact Hrest.
    destruct ev as [ x y v | x y v ]; simpl in Hev |- *;
      destruct Hev as (Hbb & Hsc & Hcov).
    + apply store32_other.
      destruct (Z_lt_le_dec a (fb H + (4 * x + 4 * y * FrameBufStride gs)))
        as [Hlt | Hge]; [ left; exact Hlt | right ].
      destruct (Z_lt_le_dec
                  (fb H + (4 * x + 4 * y * FrameBufStride gs) + 3) a)
        as [Hgt | Hle]; [ exact Hgt | exfalso ].
      apply Hout. exists x, y. split; [ exact Hbb | ].
      split; [ exact Hsc | ]. split; [ exact Hcov | ].
      left. unfold color_bytes. lia.
    + apply store16_other.
      destruct (Z_lt_le_dec a
                  (depthbuf H + (2 * x + 2 * y * DepthBufStride gs)))
        as [Hlt | Hge]; [ left; exact Hlt | right ].
      destruct (Z_lt_le_dec
                  (depthbuf H + (2 * x + 2 * y * DepthBufStride gs) + 1) a)
        as [Hgt | Hle]; [ exact Hgt | exfalso ].
      apply Hout. exists x, y. split; [ exact Hbb | ].
      split; [ exact Hsc | ]. split; [ exact Hcov | ].
      right. unfold depth_bytes. lia.
Qed.

(** X11. The memory [DrawTriangle] leaves is the memory it started from
    with its stores applied in order, a 32-bit store per colour and a
    16-bit store per depth; every byte that is not in the colour word or
    the depth halfword of a covered pixel inside the bounding box and the
    scissor rectangle keeps its content. In particular texture memory
    outside those bytes is never written. *)
Theorem DrawTriangle_memory K H (fuel : nat) gs vd0 vd1 vd2 st :
  texture_defined K gs ->
  coords_in_range (drawpos vd0) -> coords_in_range (drawpos vd1) ->
  coords_in_range (drawpos vd2) ->
  getScissorX1 gs < 65536 -> getScissorY1 gs < 65536 ->
  32768 < Z.of_nat fuel ->
  exists st' evs,
    DrawTriangle K H fuel gs vd0 vd1 vd2 st = Done st'
    /\ trace st' = trace st ++ evs
    /\ mem st' = replay H gs evs (mem st)
    /\ (forall a, ~ in_drawn_bytes H gs vd0 vd1 vd2 a ->
                  mem st' a = mem st a).
Proof.
  intros Htex H0 H1 H2 Hsx Hsy Hfuel.
  destruct (DrawTriangle_drawn K H fuel gs vd0 vd1 vd2 st
              Htex H0 H1 H2 Hsx Hsy Hfuel)
    as (st' & evs & Hrun & Htr & Hmem & Hall & _).
  exists st', evs. split; [ exact Hrun | ]. split; [ exact Htr | ].
  split; [ exact Hmem | ].
  intros a Hout. rewrite Hmem.
  apply (replay_frame H gs vd0 vd1 vd2 a Hout evs (mem st) Hall).
Qed.

Lemma DrawTriangle_memory_witness :
  exists st',
    DrawTriangle ge_constants host (Z.to_nat 32769)
      (gstate_with 3 true false true true GE_COMP_LEQUAL)
      (vertex 0 0 0 255) (vertex 10 0 0 255) (vertex 0 10 0 255)
      (state_with 18 52) = Done st'
    /\ mem st' 1 = 52.
Proof.
  destruct (DrawTriangle_memory ge_constants host (Z.to_nat 32769)
              (gstate_with 3 true false true true GE_COMP_LEQUAL)
              (vertex 0 0 0 255) (vertex 10 0 0 255) (vertex 0 10 0 255)
              (state_with 18 52))
    as (st' & evs & Hrun & Htr & Hmem & Hframe).
  - right. right. unfold format_supported. simpl. tauto.
  - unfold coords_in_range. simpl. lia.
  - unfold coords_in_range. simpl. lia.
  - unfold coords_in_range. simpl. lia.
  - simpl. lia.
  - simpl. lia.
  - lia.
  - exists st'. split; [ exact Hrun | ].
    rewrite Hframe; [ reflexivity | ].
    intros (x & y & Hbb & Hsc & _ & Hbytes).
    unfold in_bounding_box in Hbb. unfold color_bytes, depth_bytes in Hbytes.
    simpl in Hbb, Hbytes. lia.
Defined.

(** X12. A triangle of negative orientation draws nothing: no pixel has
    three non-negative weights, so [DrawTriangle] returns the state it was
    given, in every mode and without consulting the texture unit. *)
Theorem back_facing_triangle_draws_nothing K H (fuel : nat) gs
    vd0 vd1 vd2 st :
  coords_in_range (drawpos vd0) -> coords_in_range (drawpos vd1) ->
  coords_in_range (drawpos vd2) ->
  getScissorX1 gs < 65536 -> getScissorY1 gs < 65536 ->
  32768 < Z.of_nat fuel ->
  orient2d (drawpos vd0) (drawpos vd1) (drawpos vd2) < 0 ->
  DrawTriangle K H fuel gs vd0 vd1 vd2 st = Done st.
Proof.
  intros H0 H1 H2 Hsx Hsy Hfuel Hneg.
  rewrite DrawTriangle_as_for_each by assumption.
  destruct (loop_bounds gs vd0 vd1 vd2 H0 H1 H2 Hsx Hsy)
    as (Hx1 & Hy1 & Hx2 & Hy2).
  rewrite orientation_exact in Hneg by assumption.
  apply for_each_unchanged. intros y s Hy.
  apply list_elem_of_In, elem_of_seqZ in Hy.
  apply for_each_unchanged. intros x s' Hx.
  apply list_elem_of_In, elem_of_seqZ in Hx.
  rewrite RasterizerProofs.DrawPixel_unfold. unfold pixel_after_depth.
  destruct (pixel_covered vd0 vd1 vd2 x y) eqn:Hcov; [ | reflexivity ].
  exfalso.
  apply RasterizerProofs.pixel_covered_exact in Hcov;
    try assumption; try lia.
  destruct Hcov as (Hw0 & Hw1 & Hw2).
  pose proof (edge_sum (drawpos vd0) (drawpos vd1) (drawpos vd2) x y).
  lia.
Qed.

Lemma back_facing_triangle_draws_nothing_witness :
  DrawTriangle ge_constants host (Z.to_nat 32769)
    (gstate_with 3 false false false false GE_COMP_ALWAYS)
    (vertex 0 0 0 255) (vertex 0 10 0 255) (vertex 10 0 0 255)
    (state_with 0 0)
  = Done (state_with 0 0).
Proof.
  apply (back_facing_triangle_draws_nothing ge_constants host
           (Z.to_nat 32769)
           (gstate_with 3 false false false false GE_COMP_ALWAYS)
           (vertex 0 0 0 255) (vertex 0 10 0 255) (vertex 10 0 0 255)
           (state_with 0 0)).
  - unfold coords_in_range. simpl. lia.
  - unfold coords_in_range. simpl. lia.
  - unfold coords_in_range. simpl. lia.
  - simpl. lia.
  - simpl. lia.
  - lia.
  - vm_compute. reflexivity.
Defined.

Lemma DrawPixel_not_undef K H gs vd0 vd1 vd2 x y st :
  texture_defined K gs -> DrawPixel K H gs vd0 vd1 vd2 x y st <> Undef.
Proof.
  intros Htex.
  destruct (DrawPixel_returns K H gs vd0 vd1 vd2 x y st Htex) as [st' ->].
  discriminate.
Qed.

(** X13. When the last row of the loop range is 65535 the row loop never
    ends: its 16-bit variable wraps to 0 instead of exceeding the bound, so
    [DrawTriangle] does not return whatever the number of iterations it is
    given. *)
Theorem DrawTriangle_runs_forever_at_last_row K H gs vd0 vd1 vd2 :
  texture_defined K gs ->
  65535 <= maxY gs vd0 vd1 vd2 ->
  forall (fuel : nat) (st : RState),
    DrawTriangle K H fuel gs vd0 vd1 vd2 st = Timeout.
Proof.
  intros Htex Hlast fuel st. unfold DrawTriangle.
  apply for_u16_runs_forever.
  - intros y s. apply for_u16_not_undef. intros x s'.
    apply DrawPixel_not_undef. exact Htex.
  - unfold u16. change (2 ^ 16) with 65536. apply Z.mod_pos_bound. lia.
  - exact Hlast.
Qed.

Lemma DrawTriangle_runs_forever_at_last_row_witness :
  DrawTriangle ge_constants host 4 gstate_full_scissor
    (vertex 0 65530 0 255) (vertex 3 65530 0 255) (vertex 0 65535 0 255)
    (state_with 0 0)
  = Timeout.
Proof.
  apply (DrawTriangle_runs_forever_at_last_row ge_constants host
           gstate_full_scissor
           (vertex 0 65530 0 255) (vertex 3 65530 0 255)
           (vertex 0 65535 0 255)).
  - left. reflexivity.
  - vm_compute. discriminate.
Defined.

(** *** The depth test *)

(** X14. Outside clear mode the eight depth functions come in four pairs
    of opposites (never/always, equal/not-equal, less/greater-or-equal,
    less-or-equal/greater): at the same pixel and depth one of a pair
    passes exactly when the other fails. *)
Theorem opposite_depth_function_negates H gs st x y z f :
  isModeClear gs = false ->
  DepthTestPassed H (with_depth_func gs (opposite f)) st x y z
  = negb (DepthTestPassed H (with_depth_func gs f) st x y z).
Proof.
  intros Hclear. unfold DepthTestPassed, GetPixelDepth. simpl.
  rewrite Hclear.
  set (ref := load16 _ _).
  destruct f; simpl; try reflexivity.
  - symmetry. apply negb_involutive.
  - destruct (Z.ltb_spec z ref), (Z.leb_spec ref z); simpl;
      try reflexivity; lia.
  - destruct (Z.leb_spec z ref), (Z.ltb_spec ref z); simpl;
      try reflexivity; lia.
  - destruct (Z.leb_spec z ref), (Z.ltb_spec ref z); simpl;
      try reflexivity; lia.
  - destruct (Z.ltb_spec z ref), (Z.leb_spec ref z); simpl;
      try reflexivity; lia.
Qed.

Lemma opposite_depth_function_negates_witness :
  DepthTestPassed host
    (with_depth_func (gstate_with 3 false false true true GE_COMP_ALWAYS)
       (opposite GE_COMP_LESS)) (state_with 0 0) 0 0 5
  = negb (DepthTestPassed host
            (with_depth_func
               (gstate_with 3 false false true true GE_COMP_ALWAYS)
               GE_COMP_LESS) (state_with 0 0) 0 0 5).
Proof.
  apply (opposite_depth_function_negates host
           (gstate_with 3 false false true true GE_COMP_ALWAYS)
           (state_with 0 0) 0 0 5 GE_COMP_LESS).
  reflexivity.
Defined.


Lemma load16_store32_other (m : Memory) (a v a' : Z) :
  a' + 1 < a \/ a + 3 < a' ->
  load16 (store32 m a v) a' = load16 m a'.
Proof.
  intros Hout. unfold load16.
  rewrite (load8_store32_other m a v a') by lia.
  rewrite (load8_store32_other m a v (a' + 1)) by lia.
  reflexivity.
Qed.

Lemma pixel_z_is_u16 (vd0 vd1 vd2 : VertexData) (x y : Z) :
  u16 (pixel_z vd0 vd1 vd2 x y) = pixel_z vd0 vd1 vd2 x y.
Proof.
  unfold pixel_z, F32.to_u16, u16. apply Z.mod_mod. lia.
Qed.

(** C5. The depth test follows the table of the eight compare functions
    and passes unconditionally in clear mode. A covered pixel that fails it
    leaves the state untouched: no colour store, no depth store. A covered
    pixel that passes it is drawn, and its depth is stored in the depth
    buffer exactly when depth write is enabled or bit 6 of the clear mode
    (the bit line 180 tests) is set: the memory after the pixel is the
    memory before it with the 16-bit depth store, if any, and then the
    32-bit colour store applied, and the depth buffer reads back the new
    depth or the old one accordingly. *)
Theorem depth_test_and_depth_write K H gs vd0 vd1 vd2 x y st :
  (forall z, isModeClear gs = false ->
     (DepthTestPassed H gs st x y z = true
      <-> depth_table (getDepthTestFunc gs) z (GetPixelDepth H gs st x y)))
  /\ (forall z, isModeClear gs = true -> DepthTestPassed H gs st x y z = true)
  /\ (depth_test_applies gs = true ->
      pixel_covered vd0 vd1 vd2 x y = true ->
      DepthTestPassed H gs st x y (pixel_z vd0 vd1 vd2 x y) = false ->
      DrawPixel K H gs vd0 vd1 vd2 x y st = Done st)
  /\ (depth_test_applies gs = true ->
      pixel_covered vd0 vd1 vd2 x y = true ->
      DepthTestPassed H gs st x y (pixel_z vd0 vd1 vd2 x y) = true ->
      texture_defined K gs ->
      exists st' c,
        DrawPixel K H gs vd0 vd1 vd2 x y st = Done st'
        /\ mem st'
           = store32
               (if depth_write_in_effect gs
                then store16 (mem st) (depth_address H gs x y)
                       (pixel_z vd0 vd1 vd2 x y)
                else mem st)
               (color_address H gs x y) c
        /\ trace st'
           = trace st
             ++ (if depth_write_in_effect gs
                 then [WriteDepth x y (pixel_z vd0 vd1 vd2 x y)]
                 else [])
             ++ [WriteColor x y c]
        /\ (pixel_words_apart H gs x y ->
            GetPixelDepth H gs st' x y
            = if depth_write_in_effect gs
              then pixel_z vd0 vd1 vd2 x y
              else GetPixelDepth H gs st x y)).
Proof.
  split; [ | split; [ | split ] ].
  - intros z Hc. unfold DepthTestPassed. rewrite Hc.
    destruct (getDepthTestFunc gs); simpl; split; intros Ht;
      try discriminate; try contradiction; try exact I;
      try reflexivity; try lia.
  - intros z Hc. unfold DepthTestPassed. rewrite Hc. reflexivity.
  - intros Happ Hcov Hfail.
    rewrite RasterizerProofs.DrawPixel_unfold.
    unfold pixel_after_depth. rewrite Hcov.
    unfold depth_stage. unfold depth_test_applies in Happ. rewrite Happ.
    unfold pixel_z in Hfail. rewrite Hfail. reflexivity.
  - intros Happ Hcov Hpass Htex.
    rewrite RasterizerProofs.DrawPixel_unfold.
    unfold pixel_after_depth. rewrite Hcov.
    unfold depth_stage. unfold depth_test_applies in Happ. rewrite Happ.
    fold (den vd0 vd1 vd2 x y). fold (pixel_z vd0 vd1 vd2 x y).
    rewrite Hpass. simpl negb. cbv iota.
    rewrite land_bit6, negb_involutive.
    fold (depth_write_in_effect gs).
    set (st1 := if depth_write_in_effect gs
                then SetPixelDepth H gs x y (pixel_z vd0 vd1 vd2 x y) st
                else st).
    replace (if depth_write_in_effect gs
             then Some (SetPixelDepth H gs x y (pixel_z vd0 vd1 vd2 x y) st)
             else Some st) with (Some st1)
      by (unfold st1; destruct (depth_write_in_effect gs); reflexivity).
    destruct (color_stage_returns K H gs vd0 vd1 vd2 x y
                (w0 vd0 vd1 vd2 x y) (w1 vd0 vd1 vd2 x y)
                (w2 vd0 vd1 vd2 x y) (den vd0 vd1 vd2 x y) st1 Htex)
      as [st' Hrun].
    destruct (color_stage_effect K H gs vd0 vd1 vd2 x y _ _ _ _ st1 st' Hrun)
      as [c Hst'].
    exists st', c. split; [ exact Hrun | ].
    rewrite Hst'. unfold st1, color_address, depth_address.
    destruct (depth_write_in_effect gs); simpl.
    + split; [ reflexivity | ].
      split; [ rewrite <- app_assoc; reflexivity | ].
      intros Hapart. unfold GetPixelDepth. simpl.
      unfold pixel_words_apart, color_address, depth_address in Hapart.
      rewrite load16_store32_other by lia.
      rewrite load16_store16. apply pixel_z_is_u16.
    + split; [ reflexivity | ]. split; [ reflexivity | ].
      intros Hapart. unfold GetPixelDepth. simpl.
      unfold pixel_words_apart, color_address, depth_address in Hapart.
      apply load16_store32_other. lia.
Qed.

Lemma depth_test_and_depth_write_witness :
  DrawPixel ge_constants host
    (gstate_with 3 false false true true GE_COMP_LESS)
    (vertex 0 0 5 255) (vertex 1 0 5 255) (vertex 0 1 5 255) 0 0
    (state_with 0 0) = Done (state_with 0 0)
  /\ (exists st' c,
        DrawPixel ge_constants host
          (gstate_with 3 false false true true GE_COMP_GEQUAL)
          (vertex 0 0 5 255) (vertex 1 0 5 255) (vertex 0 1 5 255) 0 0
          (state_with 0 0) = Done st'
        /\ trace st' = [WriteDepth 0 0 5; WriteColor 0 0 c]
        /\ GetPixelDepth host
             (gstate_with 3 false false true true GE_COMP_GEQUAL) st' 0 0
           = 5)
  /\ DepthTestPassed host
       (gstate_with 3 false true false false GE_COMP_NEVER)
       (state_with 0 0) 0 0 7 = true
  /\ (DepthTestPassed host
        (gstate_with 3 false false true true GE_COMP_LESS)
        (state_with 0 0) 0 0 5 = true
      <-> 5 < 0).
Proof.
  split; [ | split; [ | split ] ].
  - apply (depth_test_and_depth_write ge_constants host
             (gstate_with 3 false false true true GE_COMP_LESS)
             (vertex 0 0 5 255) (vertex 1 0 5 255) (vertex 0 1 5 255) 0 0
             (state_with 0 0)).
    + reflexivity.
    + vm_compute. reflexivity.
    + vm_compute. reflexivity.
  - destruct (depth_test_and_depth_write ge_constants host
                (gstate_with 3 false false true true GE_COMP_GEQUAL)
                (vertex 0 0 5 255) (vertex 1 0 5 255) (vertex 0 1 5 255) 0 0
                (state_with 0 0)) as (_ & _ & _ & Hpass).
    destruct Hpass as (st' & c & Hrun & _ & Htr & Hread).
    + reflexivity.
    + vm_compute. reflexivity.
    + vm_compute. reflexivity.
    + left. reflexivity.
    + exists st', c. split; [ exact Hrun | ].
      split; [ rewrite Htr; vm_compute; reflexivity | ].
      rewrite Hread; [ vm_compute; reflexivity | ].
      unfold pixel_words_apart, color_address, depth_address. simpl. lia.
  - apply (depth_test_and_depth_write ge_constants host
             (gstate_with 3 false true false false GE_COMP_NEVER)
             (vertex 0 0 5 255) (vertex 1 0 5 255) (vertex 0 1 5 255) 0 0
             (state_with 0 0)).
    reflexivity.
  - destruct (depth_test_and_depth_write ge_constants host
                (gstate_with 3 false false true true GE_COMP_LESS)
                (vertex 0 0 5 255) (vertex 1 0 5 255) (vertex 0 1 5 255) 0 0
                (state_with 0 0)) as (Htable & _).
    apply (Htable 5). reflexivity.
Defined.

End RasterizerMoreProofs.

(** ** Further properties of the draw engine *)

Module DrawEngineMoreProofs.

Import DrawEngineVulkan BatchDesign BatchExamples DrawEngineMore.

(** *** Decoding *)





(** *** The decode cursor across submissions *)

Lemma Flush_cursor C E (e : DrawEngine) :
  decodeCounter_ (Flush C E e)
  = (if numDrawCalls e =? 0 then decodeCounter_ e else 0)
  /\ decodedVerts_ (Flush C E e)
     = (if numDrawCalls e =? 0 then decodedVerts_ e else 0)
  /\ prevPrim_ (Flush C E e)
     = (if numDrawCalls e =? 0 then prevPrim_ e else GE_PRIM_INVALID).
Proof.
  unfold Flush. destruct (numDrawCalls e =? 0); auto.
Qed.

Lemma Flush_cursor_wf C E (e : DrawEngine) :
  cursor_wf C e -> cursor_wf C (Flush C E e).
Proof.
  intros [Hc Hlen]. unfold cursor_wf.
  destruct (BatchProofs.Flush_fields C E e) as (Fn & _ & _ & _ & _ & Fc).
  destruct (Flush_cursor C E e) as (Fcur & _).
  rewrite Fn, Fcur, Fc. split; [ | exact Hlen ].
  destruct (Z.eqb_spec (numDrawCalls e) 0); lia.
Qed.

Lemma Setup_keeps_batch E (e : DrawEngine) (vt : Z) :
  decodeCounter_ (SetupVertexDecoderInternal E e vt) = decodeCounter_ e
  /\ decodedVerts_ (SetupVertexDecoderInternal E e vt) = decodedVerts_ e
  /\ numDrawCalls (SetupVertexDecoderInternal E e vt) = numDrawCalls e
  /\ drawCalls (SetupVertexDecoderInternal E e vt) = drawCalls e
  /\ prevPrim_ (SetupVertexDecoderInternal E e vt) = prevPrim_ e.
Proof.
  unfold SetupVertexDecoderInternal.
  destruct (negb _); [ | auto ].
  destruct (GetVertexDecoder e _) as [d map']. simpl. auto.
Qed.

Lemma prologue_cursor_wf C E (e : DrawEngine) (s : Submission) :
  cursor_wf C e ->
  let e1 := fst (submit_prologue C E e (sub_prim s) (sub_vertexCount s)
                   (sub_vertType s)) in
  decodeCounter_ e1 <= numDrawCalls e1
  /\ 0 <= decodeCounter_ e1
  /\ length (drawCalls e1) = Z.to_nat (MAX_DEFERRED_DRAW_CALLS C)
  /\ numDrawCalls e1 = numDrawCalls (after_flush_check C E e s).
Proof.
  intros Hwf. unfold submit_prologue. fold (after_flush_check C E e s).
  assert (Hwf0 : cursor_wf C (after_flush_check C E e s)).
  { unfold after_flush_check. destruct (must_flush _ _ _ _ _);
      [ apply Flush_cursor_wf | ]; exact Hwf. }
  destruct (resolve_prim (after_flush_check C E e s) (sub_prim s))
    as [p prev].
  destruct (Setup_keeps_batch E
              (with_prevPrim (after_flush_check C E e s) prev)
              (sub_vertType s)) as (Sc & _ & Sn & Sd & _).
  simpl in Sc, Sn, Sd |- *. rewrite Sc, Sn, Sd.
  destruct Hwf0 as [Hc Hlen]. repeat split; try lia; exact Hlen.
Qed.

Lemma submit_epilogue_cursor C E (e : DrawEngine) (p : GEPrimitiveType)
    (vt : Z) :
  0 <= decodeCounter_ e < numDrawCalls e ->
  numDrawCalls e <= INT_MAX ->
  0 <= decodeCounter_ (submit_epilogue C E e p vt)
    <= numDrawCalls (submit_epilogue C E e p vt)
  /\ drawCalls (submit_epilogue C E e p vt) = drawCalls e.
Proof.
  intros Hc Hmax. unfold submit_epilogue.
  set (e1 := if bSoftwareSkinning E && _ then _ else e).
  assert (H1 : 0 <= decodeCounter_ e1 <= numDrawCalls e1
               /\ drawCalls e1 = drawCalls e).
  { unfold e1. destruct (bSoftwareSkinning E && _); [ | split; [ lia | auto ] ].
    destruct (BatchProofs.DecodeVertsStep_cursor C E e ltac:(lia))
      as [Hs Hn].
    destruct (BatchProofs.DecodeVertsStep_shape C E e)
      as (dv & ig & log & c & Hshape).
    simpl. rewrite Hn.
    rewrite s32_small by (unfold INT_MIN, INT_MAX in *; lia).
    split; [ lia | ]. rewrite Hshape. reflexivity. }
  destruct H1 as [Hc1 Hd1].
  destruct (prim_eqb p GE_PRIM_RECTANGLES && _); [ | auto ].
  destruct (negb (bDisableSlowFramebufEffects E)); [ | auto ].
  set (e2 := with_textureChanged e1 _).
  destruct (BatchProofs.Flush_fields C E e2) as (Fn & _ & _ & _ & _ & Fc).
  destruct (Flush_cursor C E e2) as (Fcur & _).
  rewrite Fn, Fcur, Fc. split; [ | exact Hd1 ].
  change (numDrawCalls e2) with (numDrawCalls e1).
  change (decodeCounter_ e2) with (decodeCounter_ e1).
  destruct (Z.eqb_spec (numDrawCalls e1) 0); lia.
Qed.

Lemma append_call_cursor C E (e : DrawEngine) (v i : Z)
    (p : GEPrimitiveType) (n vt : Z) :
  decodeCounter_ (append_call C E e v i p n vt) = decodeCounter_ e
  /\ length (drawCalls (append_call C E e v i p n vt))
     = length (drawCalls e).
Proof.
  unfold append_call.
  destruct (if negb (i =? 0) then _ else _) as [lo hi].
  simpl. split; [ reflexivity | apply length_insert ].
Qed.

Lemma Submit_cursor_wf C E (e : DrawEngine) (s : Submission) :
  constants_ok C -> env_ok E -> batch_wf C e -> cursor_wf C e ->
  0 <= sub_vertexCount s <= VERTEX_BUFFER_MAX C ->
  exists e' bytes,
    Submit C E e s = Done (e', bytes) /\ batch_wf C e' /\ cursor_wf C e'.
Proof.
  intros Hc Henv Hwf Hcur Hs.
  destruct (BatchProofs.Submit_batch_wf C E e s Hc Henv Hwf Hs)
    as (e' & bytes & Hrun & Hwf').
  exists e', bytes. split; [ exact Hrun | ]. split; [ exact Hwf' | ].
  destruct (BatchProofs.prologue_spec C E e s Henv
              (proj2 (proj2 (proj2 Hwf))))
    as (e1 & d & Hpro & Hdec & _ & _ & Hn1 & _).
  pose proof (prologue_cursor_wf C E e s Hcur) as Hp1.
  rewrite Hpro in Hp1. simpl in Hp1.
  destruct Hp1 as (Hc1 & Hc0 & Hlen1 & _).
  destruct (BatchProofs.after_flush_check_room C E e s Hc Hwf Hs)
    as (Hn0 & _).
  rewrite (BatchProofs.SubmitPrim_unfold C E e s e1 d Hpro Hdec) in Hrun.
  destruct Hc as [Hmax Hvbm].
  destruct (below_minimum _ _); inversion Hrun as [[He' Hb]];
    rewrite <- ?He'; clear He'.
  - split; [ lia | exact Hlen1 ].
  - clear Hrun.
    set (e2 := append_call C E e1 (sub_verts s) (sub_inds s)
                 (effective_prim C E e s) (sub_vertexCount s)
                 (sub_vertType s)).
    destruct (BatchProofs.append_call_fields C E e1 (sub_verts s)
                (sub_inds s) (effective_prim C E e s) (sub_vertexCount s)
                (sub_vertType s)) as (An & _).
    destruct (append_call_cursor C E e1 (sub_verts s) (sub_inds s)
                (effective_prim C E e s) (sub_vertexCount s)
                (sub_vertType s)) as (Ac & Al).
    fold e2 in An, Ac, Al.
    rewrite Hn1 in An.
    rewrite s32_small in An by (unfold INT_MIN, INT_MAX; lia).
    destruct (submit_epilogue_cursor C E e2 (effective_prim C E e s)
                (sub_vertType s)) as (Ec & Ed).
    + rewrite Ac, An. lia.
    + rewrite An. unfold INT_MAX. lia.
    + split; [ exact Ec | ]. rewrite Ed, Al. exact Hlen1.
Qed.

Lemma initial_cursor_wf C : constants_ok C -> cursor_wf C (initial C).
Proof.
  intros _. unfold cursor_wf. simpl. split; [ lia | ].
  apply length_replicate.
Qed.

(** X16. From the constructor's state, after any sequence of submissions
    whose vertex counts lie between 0 and [VERTEX_BUFFER_MAX], the decode
    cursor lies within the pending calls
    ([0 <= decodeCounter_ <= numDrawCalls]), also when software skinning
    decodes eagerly, and the array of deferred calls still has
    [MAX_DEFERRED_DRAW_CALLS] entries. *)
Theorem decode_cursor_stays_within_batch C E (subs : list Submission) :
  constants_ok C -> env_ok E ->
  Forall (fun s => 0 <= sub_vertexCount s <= VERTEX_BUFFER_MAX C) subs ->
  exists e',
    SubmitAll C E (initial C) subs = Done e'
    /\ 0 <= decodeCounter_ e' <= numDrawCalls e'
    /\ length (drawCalls e') = Z.to_nat (MAX_DEFERRED_DRAW_CALLS C).
Proof.
  intros Hc Henv Hall.
  assert (Hgen : forall e, batch_wf C e -> cursor_wf C e ->
            exists e', SubmitAll C E e subs = Done e'
                       /\ batch_wf C e' /\ cursor_wf C e').
  { induction Hall as [ | s subs Hs _ IH ]; intros e Hwf Hcur.
    - exists e. auto.
    - destruct (Submit_cursor_wf C E e s Hc Henv Hwf Hcur Hs)
        as (e1 & bytes & Hrun & Hwf1 & Hcur1).
      destruct (IH e1 Hwf1 Hcur1) as (e2 & Hrun2 & Hwf2 & Hcur2).
      exists e2. simpl. rewrite Hrun. simpl. auto. }
  destruct (Hgen (initial C) (BatchProofs.initial_batch_wf C Hc)
              (initial_cursor_wf C Hc)) as (e' & Hrun & _ & Hcur).
  exists e'. split; [ exact Hrun | exact Hcur ].
Qed.

Lemma decode_cursor_stays_within_batch_witness :
  exists e',
    SubmitAll constants env (initial constants)
      [submission 100 0 GE_PRIM_POINTS 65536 0;
       submission 100 0 GE_PRIM_POINTS 1 0] = Done e'
    /\ 0 <= decodeCounter_ e' <= numDrawCalls e'
    /\ length (drawCalls e') = 128%nat.
Proof.
  apply (decode_cursor_stays_within_batch constants env
           [submission 100 0 GE_PRIM_POINTS 65536 0;
            submission 100 0 GE_PRIM_POINTS 1 0]).
  - unfold constants_ok. simpl. lia.
  - unfold env_ok. simpl. lia.
  - repeat constructor; simpl; lia.
Defined.


(** *** The decoder cache *)

Lemma after_flush_check_decoder C E (e : DrawEngine) (s : Submission) :
  decoderMap_ (after_flush_check C E e s) = decoderMap_ e
  /\ lastVType_ (after_flush_check C E e s) = lastVType_ e
  /\ dec_ (after_flush_check C E e s) = dec_ e.
Proof.
  unfold after_flush_check. destruct (must_flush _ _ _ _ _); [ | auto ].
  destruct (BatchProofs.Flush_fields C E e) as (_ & _ & Hd & Hl & Hm & _).
  auto.
Qed.

Lemma prologue_decoder_map C E (e : DrawEngine) (s : Submission) :
  decoderMap_ (fst (submit_prologue C E e (sub_prim s) (sub_vertexCount s)
                      (sub_vertType s)))
  = (if vertTypeID E (sub_vertType s) =? lastVType_ e
     then decoderMap_ e
     else match decoderMap_ e !! vertTypeID E (sub_vertType s) with
          | Some _ => decoderMap_ e
          | None =>
              <[vertTypeID E (sub_vertType s)
                := {| dec_vtype := vertTypeID E (sub_vertType s) |}]>
                (decoderMap_ e)
          end).
Proof.
  unfold submit_prologue. fold (after_flush_check C E e s).
  destruct (after_flush_check_decoder C E e s) as (Hm & Hl & _).
  destruct (resolve_prim (after_flush_check C E e s) (sub_prim s))
    as [p prev].
  unfold SetupVertexDecoderInternal. fold (vertTypeID E (sub_vertType s)).
  simpl lastVType_. rewrite Hl.
  destruct (vertTypeID E (sub_vertType s) =? lastVType_ e); simpl.
  - exact Hm.
  - unfold GetVertexDecoder. simpl decoderMap_. rewrite Hm.
    destruct (decoderMap_ e !! vertTypeID E (sub_vertType s));
      reflexivity.
Qed.

Lemma Submit_decoder_map C E (e : DrawEngine) (s : Submission) e' bytes :
  Submit C E e s = Done (e', bytes) ->
  decoderMap_ e'
  = decoderMap_ (fst (submit_prologue C E e (sub_prim s)
                        (sub_vertexCount s) (sub_vertType s))).
Proof.
  unfold Submit, SubmitPrim.
  destruct (submit_prologue C E e (sub_prim s) (sub_vertexCount s)
              (sub_vertType s)) as [e1 p].
  destruct (dec_ e1) as [d | ]; [ | discriminate ].
  destruct (below_minimum p (sub_vertexCount s)); intros Hrun;
    inversion Hrun as [[He' Hb]]; [ reflexivity | ].
  destruct (BatchProofs.append_call_fields C E e1 (sub_verts s) (sub_inds s)
              p (sub_vertexCount s) (sub_vertType s))
    as (_ & _ & _ & _ & Am).
  destruct (BatchProofs.submit_epilogue_fields C E
              (append_call C E e1 (sub_verts s) (sub_inds s) p
                 (sub_vertexCount s) (sub_vertType s)) p (sub_vertType s))
    as (_ & _ & Em & _).
  simpl. congruence.
Qed.

(** X17. A submission never evicts a vertex decoder: every decoder that
    was cached before is cached after, under the same key, and the only
    key that can be new is the effective vertex format of the
    submission. *)
Theorem Submit_keeps_cached_decoders C E (e : DrawEngine) (s : Submission)
    e' bytes :
  Submit C E e s = Done (e', bytes) ->
  decoderMap_ e ⊆ decoderMap_ e'
  /\ (forall k, k <> vertTypeID E (sub_vertType s) ->
                decoderMap_ e' !! k = decoderMap_ e !! k).
Proof.
  intros Hrun. rewrite (Submit_decoder_map C E e s e' bytes Hrun).
  rewrite prologue_decoder_map.
  destruct (vertTypeID E (sub_vertType s) =? lastVType_ e);
    [ split; [ reflexivity | auto ] | ].
  destruct (decoderMap_ e !! vertTypeID E (sub_vertType s)) eqn:Hlook;
    [ split; [ reflexivity | auto ] | ].
  split.
  - apply insert_subseteq. exact Hlook.
  - intros k Hk. apply lookup_insert_ne. auto.
Qed.

Lemma Submit_keeps_cached_decoders_witness :
  decoderMap_ (engine_after [submission 100 0 GE_PRIM_POINTS 1 0]) !! 0
  = Some {| dec_vtype := 0 |}
  /\ decoderMap_ (engine_after [submission 100 0 GE_PRIM_POINTS 1 0])
     ⊆ decoderMap_ (engine_after [submission 100 0 GE_PRIM_POINTS 1 0;
                                  submission 100 0 GE_PRIM_POINTS 1 7])
  /\ decoderMap_ (engine_after [submission 100 0 GE_PRIM_POINTS 1 0;
                                submission 100 0 GE_PRIM_POINTS 1 7]) !! 0
     = Some {| dec_vtype := 0 |}.
Proof.
  assert (Hcached :
            decoderMap_ (engine_after [submission 100 0 GE_PRIM_POINTS 1 0])
              !! 0 = Some {| dec_vtype := 0 |})
    by (vm_compute; reflexivity).
  destruct (Submit_keeps_cached_decoders constants env
              (engine_after [submission 100 0 GE_PRIM_POINTS 1 0])
              (submission 100 0 GE_PRIM_POINTS 1 7)
              (engine_after [submission 100 0 GE_PRIM_POINTS 1 0;
                             submission 100 0 GE_PRIM_POINTS 1 7]) 12)
    as [Hsub Hsame].
  - vm_compute. reflexivity.
  - split; [ exact Hcached | ]. split; [ exact Hsub | ].
    rewrite Hsame; [ exact Hcached | ].
    vm_compute. discriminate.
Defined.

(** X18. Setting up the vertex decoder for the same vertex type twice in
    a row changes nothing the second time. *)
Theorem SetupVertexDecoderInternal_idempotent E (e : DrawEngine) (vt : Z) :
  SetupVertexDecoderInternal E (SetupVertexDecoderInternal E e vt) vt
  = SetupVertexDecoderInternal E e vt.
Proof.
  unfold SetupVertexDecoderInternal.
  set (id := u32 _).
  destruct (id =? lastVType_ e) eqn:Hb; simpl.
  - rewrite Hb. reflexivity.
  - destruct (GetVertexDecoder e id) as [d map']. simpl.
    rewrite Z.eqb_refl. reflexivity.
Qed.

Lemma Resized_decoder_wf (e : DrawEngine) : decoder_wf (Resized e).
Proof.
  unfold decoder_wf, Resized. simpl. split; [ | reflexivity ].
  intros k d Hk. rewrite lookup_empty in Hk. discriminate Hk.
Qed.

(** *** The decoder behind each decode call *)

Lemma DecodeVertsStep_log C E (e : DrawEngine) :
  dec_ (DecodeVertsStep C E e) = dec_ e
  /\ exists new,
       decodeLog (DecodeVertsStep C E e) = decodeLog e ++ new
       /\ Forall (fun c => dd_decoder c = dec_ e) new.
Proof.
  unfold DecodeVertsStep.
  destruct (indexType (call_at e (decodeCounter_ e)) =? _).
  - simpl. split; [ reflexivity | ].
    eexists. split; [ reflexivity | ]. repeat constructor.
  - destruct (merge_scan _ _ _ _ _ _) as [[lo hi] lastMatch].
    destruct (VERTEX_BUFFER_MAX C <? _); simpl.
    + split; [ reflexivity | ].
      exists []. split; [ symmetry; apply app_nil_r | constructor ].
    + split; [ reflexivity | ].
      eexists. split; [ reflexivity | ]. repeat constructor.
Qed.

Lemma DecodeVerts_loop_log C E (n : nat) :
  forall e,
    dec_ (DecodeVerts_loop C E n e) = dec_ e
    /\ exists new,
         decodeLog (DecodeVerts_loop C E n e) = decodeLog e ++ new
         /\ Forall (fun c => dd_decoder c = dec_ e) new.
Proof.
  induction n as [ | n IH ]; intros e; simpl.
  - split; [ reflexivity | ].
    exists []. split; [ symmetry; apply app_nil_r | constructor ].
  - destruct (decodeCounter_ e <? numDrawCalls e).
    + destruct (DecodeVertsStep_log C E e) as (Hd & new1 & Hl1 & Hall1).
      destruct (IH (bump_counter (DecodeVertsStep C E e)))
        as (Hd2 & new2 & Hl2 & Hall2).
      simpl in Hd2, Hl2, Hall2. rewrite Hd in Hd2, Hall2.
      split; [ exact Hd2 | ].
      exists (new1 ++ new2). rewrite Hl2, Hl1.
      split; [ symmetry; apply app_assoc | ].
      apply Forall_app. split; assumption.
    + split; [ reflexivity | ].
      exists []. split; [ symmetry; apply app_nil_r | constructor ].
Qed.

Lemma Flush_log C E (e : DrawEngine) :
  exists new,
    decodeLog (Flush C E e) = decodeLog e ++ new
    /\ Forall (fun c => dd_decoder c = dec_ e) new.
Proof.
  unfold Flush. destruct (numDrawCalls e =? 0).
  - exists []. split; [ symmetry; apply app_nil_r | constructor ].
  - destruct (DecodeVerts_loop_log C E
                (Z.to_nat (numDrawCalls e - decodeCounter_ e)) e)
      as (_ & new & Hl & Hall).
    exists new. split; [ | exact Hall ].
    unfold DoFlush, DecodeVerts.
    destruct (UseHWTransform E); destruct (prim_code _ <? 0); simpl;
      exact Hl.
Qed.

Lemma submit_epilogue_log C E (e : DrawEngine) (p : GEPrimitiveType)
    (vt : Z) :
  exists new,
    decodeLog (submit_epilogue C E e p vt) = decodeLog e ++ new
    /\ Forall (fun c => dd_decoder c = dec_ e) new.
Proof.
  unfold submit_epilogue.
  set (e1 := if bSoftwareSkinning E && _ then _ else e).
  assert (H1 : dec_ e1 = dec_ e
               /\ exists new, decodeLog e1 = decodeLog e ++ new
                    /\ Forall (fun c => dd_decoder c = dec_ e) new).
  { unfold e1. destruct (bSoftwareSkinning E && _).
    - destruct (DecodeVertsStep_log C E e) as (Hd & new & Hl & Hall).
      simpl. split; [ exact Hd | ]. exists new. auto.
    - split; [ reflexivity | ].
      exists []. split; [ symmetry; apply app_nil_r | constructor ]. }
  destruct H1 as (Hd1 & new1 & Hl1 & Hall1).
  destruct (prim_eqb p GE_PRIM_RECTANGLES && _); [ | eauto ].
  destruct (negb (bDisableSlowFramebufEffects E)); [ | eauto ].
  destruct (Flush_log C E
              (with_textureChanged e1
                 (Z.lor (textureChanged e1) (TEXCHANGE_PARAMSONLY C))))
    as (new2 & Hl2 & Hall2).
  simpl in Hl2, Hall2. rewrite Hd1 in Hall2.
  exists (new1 ++ new2). rewrite Hl2, Hl1.
  split; [ symmetry; apply app_assoc | ].
  apply Forall_app. split; assumption.
Qed.

Lemma prologue_without_flush_log C E (e : DrawEngine) (s : Submission) :
  numDrawCalls e = 0
  \/ must_flush C E e (sub_prim s) (sub_vertexCount s) = false ->
  decodeLog (fst (submit_prologue C E e (sub_prim s) (sub_vertexCount s)
                    (sub_vertType s)))
  = decodeLog e.
Proof.
  intros Hno. unfold submit_prologue.
  assert (He0 : (if must_flush C E e (sub_prim s) (sub_vertexCount s)
                 then Flush C E e else e) = e).
  { destruct (must_flush C E e (sub_prim s) (sub_vertexCount s));
      [ | reflexivity ].
    destruct Hno as [Hz | Hf]; [ | discriminate Hf ].
    unfold Flush. rewrite Hz. reflexivity. }
  rewrite He0.
  destruct (resolve_prim e (sub_prim s)) as [p prev].
  unfold SetupVertexDecoderInternal. simpl.
  destruct (negb _); [ | reflexivity ].
  destruct (GetVertexDecoder _ _) as [d map']. reflexivity.
Qed.

Lemma append_call_log C E (e : DrawEngine) (v i : Z)
    (p : GEPrimitiveType) (n vt : Z) :
  decodeLog (append_call C E e v i p n vt) = decodeLog e.
Proof.
  unfold append_call.
  destruct (if negb (i =? 0) then _ else _) as [lo hi]. reflexivity.
Qed.

(** X19. After [Resized], a submission that does not have to flush
    pending calls (none are pending, or the flush check of line 128 does
    not fire) returns with a decoder built for its own effective vertex
    format, which is then the only cached decoder, and every decoder call
    the submission makes goes through that decoder. With calls pending and
    the flush check firing, the pending calls are decoded before the
    decoder is rebuilt. *)
Theorem Resized_then_Submit_rebuilds_decoder C E (e : DrawEngine)
    (s : Submission) :
  env_ok E ->
  numDrawCalls e = 0
  \/ must_flush C E (Resized e) (sub_prim s) (sub_vertexCount s) = false ->
  exists e' bytes new,
    Submit C E (Resized e) s = Done (e', bytes)
    /\ dec_ e' = Some {| dec_vtype := vertTypeID E (sub_vertType s) |}
    /\ decoderMap_ e'
       = {[ vertTypeID E (sub_vertType s)
            := {| dec_vtype := vertTypeID E (sub_vertType s) |} ]}
    /\ decodeLog e' = decodeLog e ++ new
    /\ Forall (fun c => dd_decoder c
                        = Some {| dec_vtype
                                  := vertTypeID E (sub_vertType s) |})
              new.
Proof.
  intros Henv Hno.
  pose proof (Resized_decoder_wf e) as Hwf.
  destruct (BatchProofs.prologue_spec C E (Resized e) s Henv Hwf)
    as (e1 & d & Hpro & Hdec & Hv & _).
  pose proof (BatchProofs.SubmitPrim_unfold C E (Resized e) s e1 d Hpro Hdec)
    as Hrun.
  pose proof (prologue_without_flush_log C E (Resized e) s Hno) as Hlog1.
  rewrite Hpro in Hlog1. simpl in Hlog1.
  destruct d as [k]. simpl in Hv. subst k.
  assert (Hres : exists new,
            dec_ (if below_minimum (effective_prim C E (Resized e) s)
                       (sub_vertexCount s)
                  then e1
                  else submit_epilogue C E
                         (append_call C E e1 (sub_verts s) (sub_inds s)
                            (effective_prim C E (Resized e) s)
                            (sub_vertexCount s) (sub_vertType s))
                         (effective_prim C E (Resized e) s) (sub_vertType s))
            = Some {| dec_vtype := vertTypeID E (sub_vertType s) |}
            /\ decodeLog
                 (if below_minimum (effective_prim C E (Resized e) s)
                       (sub_vertexCount s)
                  then e1
                  else submit_epilogue C E
                         (append_call C E e1 (sub_verts s) (sub_inds s)
                            (effective_prim C E (Resized e) s)
                            (sub_vertexCount s) (sub_vertType s))
                         (effective_prim C E (Resized e) s) (sub_vertType s))
               = decodeLog e ++ new
            /\ Forall (fun c => dd_decoder c
                                = Some {| dec_vtype
                                          := vertTypeID E (sub_vertType s) |})
                      new).
  { destruct (below_minimum _ _).
    - exists []. split; [ exact Hdec | ].
      split; [ rewrite Hlog1; symmetry; apply app_nil_r | constructor ].
    - destruct (BatchProofs.append_call_fields C E e1 (sub_verts s)
                  (sub_inds s) (effective_prim C E (Resized e) s)
                  (sub_vertexCount s) (sub_vertType s))
        as (_ & _ & Ad & _).
      pose proof (append_call_log C E e1 (sub_verts s) (sub_inds s)
                    (effective_prim C E (Resized e) s) (sub_vertexCount s)
                    (sub_vertType s)) as Al.
      destruct (BatchProofs.submit_epilogue_fields C E
                  (append_call C E e1 (sub_verts s) (sub_inds s)
                     (effective_prim C E (Resized e) s) (sub_vertexCount s)
                     (sub_vertType s))
                  (effective_prim C E (Resized e) s) (sub_vertType s))
        as (Ed & _).
      destruct (submit_epilogue_log C E
                  (append_call C E e1 (sub_verts s) (sub_inds s)
                     (effective_prim C E (Resized e) s) (sub_vertexCount s)
                     (sub_vertType s))
                  (effective_prim C E (Resized e) s) (sub_vertType s))
        as (new & El & Eall).
      exists new. split; [ congruence | ].
      split; [ rewrite El, Al, Hlog1; reflexivity | ].
      rewrite Ad, Hdec in Eall. exact Eall. }
  destruct Hres as (new & Hd' & Hl' & Hall').
  eexists _, _, new. split; [ exact Hrun | ].
  split; [ exact Hd' | ]. split; [ | split; [ exact Hl' | exact Hall' ] ].
  rewrite (Submit_decoder_map C E (Resized e) s _ _ Hrun).
  rewrite prologue_decoder_map. simpl lastVType_. simpl decoderMap_.
  pose proof (BatchProofs.vertTypeID_not_minus_one E (sub_vertType s) Henv)
    as Hne.
  apply Z.eqb_neq in Hne. rewrite Hne.
  rewrite lookup_empty. apply insert_empty.
Qed.

Lemma Resized_then_Submit_rebuilds_decoder_witness :
  exists e' bytes,
    Submit constants env (Resized three_indexed_calls)
      (submission 100 0 GE_PRIM_POINTS 1 7) = Done (e', bytes)
    /\ dec_ e' = Some {| dec_vtype := 7 |}
    /\ Forall (fun c => dd_decoder c = Some {| dec_vtype := 7 |})
              (decodeLog e').
Proof.
  destruct (Resized_then_Submit_rebuilds_decoder constants env
              three_indexed_calls (submission 100 0 GE_PRIM_POINTS 1 7))
    as (e' & bytes & new & Hrun & Hdec & _ & Hlog & Hall).
  - unfold env_ok. simpl. lia.
  - right. vm_compute. reflexivity.
  - exists e', bytes. split; [ exact Hrun | ]. split; [ exact Hdec | ].
    rewrite Hlog. exact Hall.
Defined.

(** With calls pending and the flush check firing, the flush decodes the
    pending calls while the decoder is still the null one [Resized]
    left. *)
Remark Resized_mid_batch_flush_decodes_through_null :
  exists e' bytes,
    Submit constants env (Resized three_indexed_calls)
      (submission 100 0 GE_PRIM_POINTS 65536 7) = Done (e', bytes)
    /\ map dd_decoder (decodeLog e') = [None; None].
Proof.
  eexists _, _. split; [ vm_compute; reflexivity | ].
  vm_compute. reflexivity.
Qed.

(** *** What a submission stores *)

Lemma append_call_stored C E (e : DrawEngine) (v i : Z)
    (p : GEPrimitiveType) (n vt : Z) :
  (Z.to_nat (numDrawCalls e) < length (drawCalls e))%nat ->
  verts (call_at (append_call C E e v i p n vt) (numDrawCalls e)) = v
  /\ inds (call_at (append_call C E e v i p n vt) (numDrawCalls e)) = i
  /\ vertType (call_at (append_call C E e v i p n vt) (numDrawCalls e)) = vt
  /\ prim (call_at (append_call C E e v i p n vt) (numDrawCalls e)) = p
  /\ vertexCount (call_at (append_call C E e v i p n vt) (numDrawCalls e))
     = n
  /\ (i = 0 ->
      indexLowerBound
        (call_at (append_call C E e v i p n vt) (numDrawCalls e)) = 0
      /\ indexUpperBound
           (call_at (append_call C E e v i p n vt) (numDrawCalls e))
         = u16 (n - 1)).
Proof.
  intros Hlt. unfold call_at, append_call.
  destruct (Z.eqb_spec i 0) as [Hz | Hnz]; simpl negb; cbv iota.
  - simpl. rewrite list_lookup_insert_eq by exact Hlt. simpl. auto 10.
  - destruct (GetIndexBounds C (hostmem E) i n vt) as [lo hi].
    simpl. rewrite list_lookup_insert_eq by exact Hlt. simpl.
    repeat split; try reflexivity; contradiction.
Qed.

(** X20. An accepted submission of a kind other than rectangles is
    stored in [drawCalls] at the index [numDrawCalls] had after the flush
    check, which is inside the array: the last pending call then carries the
    submission's vertex and index pointers, vertex type and count and the
    primitive kind in effect. Without an index buffer its bounds are 0 and
    the vertex count minus one as a 16-bit number. *)
Theorem accepted_call_is_stored C E (e : DrawEngine) (s : Submission) :
  constants_ok C -> env_ok E -> batch_wf C e -> cursor_wf C e ->
  0 <= sub_vertexCount s <= VERTEX_BUFFER_MAX C ->
  accepted C E e s ->
  prim_eqb (effective_prim C E e s) GE_PRIM_RECTANGLES = false ->
  exists e' bytes,
    Submit C E e s = Done (e', bytes)
    /\ numDrawCalls e' = numDrawCalls (after_flush_check C E e s) + 1
    /\ numDrawCalls e' <= MAX_DEFERRED_DRAW_CALLS C
    /\ verts (call_at e' (numDrawCalls e' - 1)) = sub_verts s
    /\ inds (call_at e' (numDrawCalls e' - 1)) = sub_inds s
    /\ vertType (call_at e' (numDrawCalls e' - 1)) = sub_vertType s
    /\ prim (call_at e' (numDrawCalls e' - 1)) = effective_prim C E e s
    /\ vertexCount (call_at e' (numDrawCalls e' - 1)) = sub_vertexCount s
    /\ (sub_inds s = 0 ->
        indexLowerBound (call_at e' (numDrawCalls e' - 1)) = 0
        /\ indexUpperBound (call_at e' (numDrawCalls e' - 1))
           = u16 (sub_vertexCount s - 1)).
Proof.
  intros Hc Henv Hwf Hcur Hs Hacc Hrect. unfold accepted in Hacc.
  destruct (BatchProofs.prologue_spec C E e s Henv
              (proj2 (proj2 (proj2 Hwf))))
    as (e1 & d & Hpro & Hdec & _ & _ & Hn1 & _).
  pose proof (prologue_cursor_wf C E e s Hcur) as Hp1.
  rewrite Hpro in Hp1. simpl in Hp1.
  destruct Hp1 as (Hc1 & Hc0 & Hlen1 & _).
  destruct (BatchProofs.after_flush_check_room C E e s Hc Hwf Hs)
    as (Hn0 & _).
  pose proof (BatchProofs.SubmitPrim_unfold C E e s e1 d Hpro Hdec) as Hrun.
  rewrite Hacc in Hrun.
  destruct Hc as [Hmax Hvbm].
  set (e2 := append_call C E e1 (sub_verts s) (sub_inds s)
               (effective_prim C E e s) (sub_vertexCount s)
               (sub_vertType s)) in *.
  destruct (BatchProofs.append_call_fields C E e1 (sub_verts s)
              (sub_inds s) (effective_prim C E e s) (sub_vertexCount s)
              (sub_vertType s)) as (An & _).
  destruct (append_call_cursor C E e1 (sub_verts s) (sub_inds s)
              (effective_prim C E e s) (sub_vertexCount s)
              (sub_vertType s)) as (Ac & _).
  fold e2 in An, Ac.
  rewrite Hn1 in An.
  rewrite s32_small in An by (unfold INT_MIN, INT_MAX; lia).
  destruct (BatchProofs.submit_epilogue_not_rectangle C E e2
              (effective_prim C E e s) (sub_vertType s) Hrect) as [En _].
  destruct (submit_epilogue_cursor C E e2 (effective_prim C E e s)
              (sub_vertType s)) as (_ & Ed);
    [ rewrite Ac, An; lia | rewrite An; unfold INT_MAX; lia | ].
  eexists _, _. split; [ exact Hrun | ].
  rewrite En, An. split; [ reflexivity | ]. split; [ lia | ].
  replace (numDrawCalls (after_flush_check C E e s) + 1 - 1)
    with (numDrawCalls e1) by lia.
  unfold call_at. rewrite Ed. fold (call_at e2 (numDrawCalls e1)).
  apply append_call_stored. lia.
Qed.

Lemma accepted_call_is_stored_witness :
  exists e' bytes,
    Submit constants env (initial constants)
      (submission 100 0 GE_PRIM_POINTS 0 0) = Done (e', bytes)
    /\ numDrawCalls e' = 1
    /\ indexUpperBound (call_at e' 0) = 65535.
Proof.
  destruct (accepted_call_is_stored constants env (initial constants)
              (submission 100 0 GE_PRIM_POINTS 0 0))
    as (e' & bytes & Hrun & Hn & _ & _ & _ & _ & _ & _ & Hb).
  - unfold constants_ok. simpl. lia.
  - unfold env_ok. simpl. lia.
  - apply BatchProofs.initial_batch_wf. unfold constants_ok. simpl. lia.
  - apply initial_cursor_wf. unfold constants_ok. simpl. lia.
  - simpl. lia.
  - vm_compute. reflexivity.
  - vm_compute. reflexivity.
  - exists e', bytes. split; [ exact Hrun | ].
    assert (Hn' : numDrawCalls e' = 1) by (rewrite Hn; vm_compute; reflexivity).
    split; [ exact Hn' | ].
    rewrite Hn' in Hb. apply (Hb eq_refl).
Defined.

(** X21. A [KEEP_PREVIOUS] submission that forces a flush of pending
    calls is drawn as points, whatever the previous primitive kind was: the
    flush resets [prevPrim_] before the kind is resolved, and it is still
    [GE_PRIM_INVALID] afterwards. *)
Theorem keep_previous_after_flush_is_points C E (e : DrawEngine)
    (n vt : Z) :
  must_flush C E e GE_PRIM_KEEP_PREVIOUS n = true ->
  numDrawCalls e <> 0 ->
  snd (submit_prologue C E e GE_PRIM_KEEP_PREVIOUS n vt) = GE_PRIM_POINTS
  /\ prevPrim_ (fst (submit_prologue C E e GE_PRIM_KEEP_PREVIOUS n vt))
     = GE_PRIM_INVALID.
Proof.
  intros Hmf Hn. unfold submit_prologue. rewrite Hmf.
  destruct (Flush_cursor C E e) as (_ & _ & Hprev).
  apply Z.eqb_neq in Hn. rewrite Hn in Hprev.
  unfold resolve_prim. rewrite Hprev.
  change (prim_eqb GE_PRIM_KEEP_PREVIOUS GE_PRIM_KEEP_PREVIOUS) with true.
  change (prim_eqb GE_PRIM_INVALID GE_PRIM_INVALID) with true.
  cbv iota. simpl negb. cbv iota. simpl snd. simpl fst.
  split; [ reflexivity | ].
  destruct (Setup_keeps_batch E
              (with_prevPrim (Flush C E e) GE_PRIM_INVALID) vt)
    as (_ & _ & _ & _ & Sp).
  exact Sp.
Qed.

Lemma keep_previous_after_flush_is_points_witness :
  prevPrim_ full_batch = GE_PRIM_POINTS
  /\ snd (submit_prologue constants env
            (with_prevPrim full_batch GE_PRIM_TRIANGLES)
            GE_PRIM_KEEP_PREVIOUS 3 0) = GE_PRIM_POINTS.
Proof.
  split; [ vm_compute; reflexivity | ].
  apply (keep_previous_after_flush_is_points constants env
           (with_prevPrim full_batch GE_PRIM_TRIANGLES) 3 0).
  - vm_compute. reflexivity.
  - vm_compute. discriminate.
Defined.

(** *** Clearing *)

(** X22. The [SW_CLEAR] branch of [DoFlush] never passes the
    depth-stencil attachment to [vkCmdClearAttachments]: the slot is filled
    in but [count] is not advanced past it. The call covers one colour
    attachment when the colour or the alpha mask is set and nothing
    otherwise, while the depth buffer is reported as updated whenever the
    depth mask is set. *)
Theorem sw_clear_never_clears_depth (colorMask alphaMask depthMask : bool) :
  ~ In (Some ASPECT_DEPTH_STENCIL)
       (cleared (sw_clear colorMask alphaMask depthMask))
  /\ cleared (sw_clear colorMask alphaMask depthMask)
     = (if colorMask || alphaMask then [Some ASPECT_COLOR] else [])
  /\ depth_updated (sw_clear colorMask alphaMask depthMask) = depthMask.
Proof.
  destruct colorMask, alphaMask, depthMask; vm_compute;
    (split; [ intuition discriminate | split; reflexivity ]).
Qed.

(** *** Hashing *)

Lemma u32_add_l (a b : Z) : u32 (u32 a + b) = u32 (a + b).
Proof. unfold u32. apply Zplus_mod_idemp_l. Qed.

(** X23. For a range of more than 100 words [ComputeMiniHashRange]
    returns, and its result is the 32-bit sum of the hashes taken at the
    word offsets 0, q, 2q and 3q, with q a quarter of the word count
    rounded down, and at 4q as well when the word count is not a multiple
    of four. *)
Theorem ComputeMiniHashRange_samples (h : Z -> Z -> Z -> Z)
    (m : Rasterizer.Memory) (ptr sz : Z) :
  100 < Z.shiftr sz 2 ->
  ComputeMiniHashRange h m ptr sz
  = Done (u32 (h ptr 100 977582532
               + h (ptr + 4 * (Z.shiftr sz 2 / 4)) 100 977582532
               + h (ptr + 4 * (2 * (Z.shiftr sz 2 / 4))) 100 977582532
               + h (ptr + 4 * (3 * (Z.shiftr sz 2 / 4))) 100 977582532
               + (if Z.shiftr sz 2 mod 4 =? 0 then 0
                  else h (ptr + 4 * (4 * (Z.shiftr sz 2 / 4))) 100
                         977582532))).
Proof.
  intros Hbig. unfold ComputeMiniHashRange. cbv zeta.
  set (w := Z.shiftr sz 2) in *.
  apply Z.ltb_lt in Hbig. rewrite Hbig. apply Z.ltb_lt in Hbig.
  set (q := w / 4).
  assert (Hq : w = 4 * q + w mod 4) by (unfold q; apply Z.div_mod; lia).
  pose proof (Z.mod_pos_bound w 4 ltac:(lia)) as Hr.
  destruct (Z.to_nat w) as [ | [ | [ | [ | [ | f ] ] ] ] ] eqn:Hf;
    try lia.
  cbn [hash_samples].
  replace (0 <? w) with true by (symmetry; apply Z.ltb_lt; lia).
  replace (0 + q <? w) with true by (symmetry; apply Z.ltb_lt; lia).
  replace (0 + q + q <? w) with true by (symmetry; apply Z.ltb_lt; lia).
  replace (0 + q + q + q <? w) with true
    by (symmetry; apply Z.ltb_lt; lia).
  replace (0 + q + q + q + q + q <? w) with false
    by (symmetry; apply Z.ltb_ge; lia).
  replace (ptr + 4 * 0) with ptr by lia.
  replace (ptr + 4 * (0 + q)) with (ptr + 4 * q) by lia.
  replace (ptr + 4 * (0 + q + q)) with (ptr + 4 * (2 * q)) by lia.
  replace (ptr + 4 * (0 + q + q + q)) with (ptr + 4 * (3 * q)) by lia.
  replace (ptr + 4 * (0 + q + q + q + q)) with (ptr + 4 * (4 * q)) by lia.
  set (h0 := h ptr 100 977582532).
  set (h1 := h (ptr + 4 * q) 100 977582532).
  set (h2 := h (ptr + 4 * (2 * q)) 100 977582532).
  set (h3 := h (ptr + 4 * (3 * q)) 100 977582532).
  set (h4 := h (ptr + 4 * (4 * q)) 100 977582532).
  rewrite (u32_add_l (0 + h0) h1), (u32_add_l (0 + h0 + h1) h2),
    (u32_add_l (0 + h0 + h1 + h2) h3).
  destruct (Z.eqb_spec (w mod 4) 0) as [Hz | Hnz].
  - replace (0 + q + q + q + q <? w) with false
      by (symmetry; apply Z.ltb_ge; lia).
    do 2 f_equal. lia.
  - replace (0 + q + q + q + q <? w) with true
      by (symmetry; apply Z.ltb_lt; lia).
    rewrite (u32_add_l (0 + h0 + h1 + h2 + h3) h4).
    do 2 f_equal.
Qed.

Lemma ComputeMiniHashRange_samples_witness :
  ComputeMiniHashRange (fun p _ _ => p) (fun _ => 0) 0 412 = Done 1000.
Proof.
  rewrite (ComputeMiniHashRange_samples (fun p _ _ => p) (fun _ => 0) 0 412).
  - vm_compute. reflexivity.
  - vm_compute. reflexivity.
Defined.


(** *** The clear colour *)

Lemma channel_byte_range (color shift : Z) :
  0 <= Z.land (Z.shiftr (u32 color) shift) 255 < 256.
Proof.
  change 255 with (Z.ones 8). rewrite Z.land_ones by lia.
  change (2 ^ 8) with 256. apply Z.mod_pos_bound. lia.
Qed.

Lemma channels_ordered_holds : channels_ordered = true.
Proof. vm_compute. reflexivity. Qed.

Lemma clear_channel_byte (color shift : Z) :
  clear_channel color shift
  = clear_channel (Z.land (Z.shiftr (u32 color) shift) 255) 0.
Proof.
  unfold clear_channel. do 2 f_equal.
  pose proof (channel_byte_range color shift) as Hb.
  set (b := Z.land (Z.shiftr (u32 color) shift) 255) in *.
  rewrite Z.shiftr_0_r.
  assert (Hu : u32 b = b) by (unfold u32; apply Z.mod_small; lia).
  rewrite Hu. change 255 with (Z.ones 8). rewrite Z.land_ones by lia.
  symmetry. apply Z.mod_small. change (2 ^ 8) with 256. exact Hb.
Qed.

(** X24. The blue and the alpha channel of the clear colour of the
    [SW_CLEAR] branch: each channel byte of [result.color] is turned into a
    float between 0.0f and 1.0f, 255 gives exactly 1.0f, and a greater byte
    gives a strictly greater float, so no two channel values collapse. *)
Theorem clear_channel_is_strictly_increasing (color color' shift shift' : Z) :
  shift = 16 \/ shift = 24 ->
  shift' = 16 \/ shift' = 24 ->
  Z.land (Z.shiftr (u32 color) shift) 255
  < Z.land (Z.shiftr (u32 color') shift') 255 ->
  SFltb (clear_channel color shift) (clear_channel color' shift') = true
  /\ SFleb F32.zero (clear_channel color shift) = true
  /\ SFleb (clear_channel color' shift') F32.one = true
  /\ (Z.land (Z.shiftr (u32 color') shift') 255 = 255 ->
      clear_channel color' shift' = F32.one).
Proof.
  intros _ _ Hlt.
  rewrite (clear_channel_byte color shift).
  rewrite (clear_channel_byte color' shift').
  pose proof (channel_byte_range color shift) as Hb.
  pose proof (channel_byte_range color' shift') as Hb'.
  set (b := Z.land (Z.shiftr (u32 color) shift) 255) in *.
  set (b' := Z.land (Z.shiftr (u32 color') shift') 255) in *.
  pose proof channels_ordered_holds as Hall. unfold channels_ordered in Hall.
  rewrite forallb_forall in Hall.
  assert (Hin : forall k, 0 <= k < 256 -> In k (seqZ 0 256))
    by (intros k Hk; apply list_elem_of_In, elem_of_seqZ; lia).
  pose proof (Hall b (Hin b Hb)) as Hrow.
  pose proof (Hall b' (Hin b' Hb')) as Hrow'.
  apply andb_true_iff in Hrow. destruct Hrow as [Hrange Hgt].
  apply andb_true_iff in Hrange. destruct Hrange as [Hlo _].
  apply andb_true_iff in Hrow'. destruct Hrow' as [Hrange' _].
  apply andb_true_iff in Hrange'. destruct Hrange' as [_ Hhi'].
  rewrite forallb_forall in Hgt.
  split; [ | split; [ exact Hlo | split; [ exact Hhi' | ] ] ].
  - apply Hgt. apply list_elem_of_In, elem_of_seqZ. lia.
  - intros ->. vm_compute. reflexivity.
Qed.

Lemma clear_channel_is_strictly_increasing_witness :
  SFltb (clear_channel 4279238656 16) (clear_channel 4279238656 24) = true.
Proof.
  apply (clear_channel_is_strictly_increasing 4279238656 4279238656 16 24).
  - left. reflexivity.
  - right. reflexivity.
  - vm_compute. reflexivity.
Defined.

End DrawEngineMoreProofs.
